(** * Grip classifier: landmark features, dataset loading, model selection

    A shallow embedding of [roboCleaner/ml_model/grip_classifier.py] and
    [roboCleaner/ml_model/train_grip_classifier.py].

    The Python code computes on numpy [float64] values.  The embedding is
    written once over an interface [Scalar] of the arithmetic the code uses,
    and is read at two instances:
    - [float_scalar]: the kernel's binary64 numbers, on which the definitions
      run, so that the code can be evaluated at concrete landmark sets;
    - [R_scalar]: the real numbers, the exact arithmetic that binary64
      approximates, used for facts quantified over all landmark sets.

    Python exceptions are an explicit outcome ([Raise]), and Python's [None]
    is [option]'s [None] inside a returned value. *)

From Stdlib Require Import String Ascii DecimalString PrimFloat.
From Stdlib Require Import List ZArith Reals Lra Lia Psatz Bool.
From Stdlib Require Floats.
Import ListNotations.

Set Warnings "-inexact-float".

(** ** Python outcomes *)

Inductive exn : Type :=
| ValueError
| IndexError.

Inductive py (A : Type) : Type :=
| Ret (a : A)
| Raise (e : exn).

Arguments Ret {A} a.
Arguments Raise {A} e.

Definition bind {A B : Type} (m : py A) (k : A -> py B) : py B :=
  match m with
  | Ret a => k a
  | Raise e => Raise e
  end.

Notation "x <- m ;; k" := (bind m (fun x => k))
  (at level 61, m at next level, right associativity).

(** A list comprehension or [for] loop whose body may raise. *)
Fixpoint mapM {A B : Type} (f : A -> py B) (l : list A) : py (list B) :=
  match l with
  | [] => Ret []
  | a :: r => b <- f a ;; bs <- mapM f r ;; Ret (b :: bs)
  end.

(** [seq[i]] for a non-negative constant index. *)
Definition getitem {A : Type} (l : list A) (i : nat) : py A :=
  match nth_error l i with
  | Some a => Ret a
  | None => Raise IndexError
  end.

Fixpoint zip_with {A B C : Type} (f : A -> B -> C) (u : list A) (v : list B) : list C :=
  match u, v with
  | a :: u', b :: v' => f a b :: zip_with f u' v'
  | _, _ => []
  end.

(** ** The arithmetic interface *)

Class Scalar (F : Type) : Type := {
  f_zero : F;
  f_one : F;
  f_eps : F;                      (* the literal 1e-6 *)
  f_add : F -> F -> F;
  f_sub : F -> F -> F;
  f_mul : F -> F -> F;
  f_div : F -> F -> F;
  f_sqrt : F -> F;
  f_ltb : F -> F -> bool;
  f_leb : F -> F -> bool;
  f_of_Z : Z -> F
}.

Declare Scope scalar_scope.
Delimit Scope scalar_scope with sc.
Infix "+" := f_add : scalar_scope.
Infix "-" := f_sub : scalar_scope.
Infix "*" := f_mul : scalar_scope.
Infix "/" := f_div : scalar_scope.

(** *** binary64 *)

Fixpoint float_of_pos (p : positive) : float :=
  match p with
  | xH => 1%float
  | xO q => PrimFloat.mul 2%float (float_of_pos q)
  | xI q => PrimFloat.add (PrimFloat.mul 2%float (float_of_pos q)) 1%float
  end.

Definition float_of_Z (z : Z) : float :=
  match z with
  | Z0 => 0%float
  | Zpos p => float_of_pos p
  | Zneg p => PrimFloat.opp (float_of_pos p)
  end.

#[export] Instance float_scalar : Scalar float := {
  f_zero := 0%float;
  f_one := 1%float;
  f_eps := 1e-6%float;
  f_add := PrimFloat.add;
  f_sub := PrimFloat.sub;
  f_mul := PrimFloat.mul;
  f_div := PrimFloat.div;
  f_sqrt := PrimFloat.sqrt;
  f_ltb := PrimFloat.ltb;
  f_leb := PrimFloat.leb;
  f_of_Z := float_of_Z
}.


(** *** exact reals *)

Definition Rltb (a b : R) : bool := if Rlt_dec a b then true else false.
Definition Rleb (a b : R) : bool := if Rle_dec a b then true else false.

#[export] Instance R_scalar : Scalar R := {
  f_zero := 0%R;
  f_one := 1%R;
  f_eps := (/ 1000000)%R;
  f_add := Rplus;
  f_sub := Rminus;
  f_mul := Rmult;
  f_div := Rdiv;
  f_sqrt := R_sqrt.sqrt;
  f_ltb := Rltb;
  f_leb := Rleb;
  f_of_Z := IZR
}.

(** ** numpy and builtin helpers *)

Section Numeric.
Context {F : Type} {SF : Scalar F}.
Local Open Scope scalar_scope.

(** [sum] of a sequence, accumulated left to right from zero. *)
Definition f_sum (l : list F) : F := fold_left f_add l f_zero.

(** [np.array(rows)]: a list of equally long rows becomes a 2-D array; rows
    of different lengths make numpy (1.24 and later) raise [ValueError]. *)
Definition np_array (rows : list (list F)) : py (list (list F)) :=
  match rows with
  | [] => Ret []
  | r :: rest =>
      if forallb (fun p => Nat.eqb (length p) (length r)) rest
      then Ret rows
      else Raise ValueError
  end.

(** [u - v] on two 1-D arrays of one shape. *)
Definition vsub (u v : list F) : list F := zip_with f_sub u v.

(** [np.dot(u, v)]: the sum of the products, taken here from left to right
    with every product and every sum rounded.  numpy hands the sum to a
    BLAS routine, which on binary64 may fuse a product with a sum or add in
    another order, so that a value can differ in its last place from the
    one computed here; in exact arithmetic the order does not matter. *)
Definition np_dot (u v : list F) : F := f_sum (zip_with f_mul u v).

(** [np.linalg.norm(v)]: the square root of [v.dot(v)]. *)
Definition np_norm (v : list F) : F := f_sqrt (np_dot v v).

(** [np.mean(l)]. *)
Definition np_mean (l : list F) : F := f_sum l / f_of_Z (Z.of_nat (length l)).

(** The builtin [max]: keeps the current best unless [item > best]. *)
Fixpoint max_loop (best : F) (rest : list F) : F :=
  match rest with
  | [] => best
  | x :: r => max_loop (if f_ltb best x then x else best) r
  end.

Definition py_max (l : list F) : py F :=
  match l with
  | [] => Raise ValueError
  | x :: r => Ret (max_loop x r)
  end.

(** The builtin [min]: keeps the current best unless [item < best]. *)
Fixpoint min_loop (best : F) (rest : list F) : F :=
  match rest with
  | [] => best
  | x :: r => min_loop (if f_ltb x best then x else best) r
  end.

Definition py_min (l : list F) : py F :=
  match l with
  | [] => Raise ValueError
  | x :: r => Ret (min_loop x r)
  end.

End Numeric.

(** ** Feature extraction *)

Section Features.
Context {F : Type} {SF : Scalar F}.
Local Open Scope scalar_scope.

(** One landmark of a MediaPipe hand: the tracker gives [x], [y] and [z]. *)
Record NormalizedLandmark : Type := {
  lm_x : F;
  lm_y : F;
  lm_z : F
}.

(** What [GripClassifier.extract_features] is called with: a list of points
    (each a list of coordinates), or a MediaPipe object with a [.landmark]
    attribute. *)
Inductive landmarks_arg : Type :=
| PointList (pts : list (list F))
| HandLandmarks (landmark : list NormalizedLandmark).

(** [GripClassifier.extract_features] (grip_classifier.py, lines 46-126). *)
Definition extract_features (arg : landmarks_arg) : py (option (list F)) :=
  let landmarks :=
    match arg with
    | HandLandmarks lms => map (fun lm => [lm_x lm; lm_y lm]) lms
    | PointList pts => pts
    end in
  if negb (Nat.eqb (length landmarks) 21) then Ret None else
  points <- np_array landmarks ;;
  wrist <- getitem points 0 ;;
  p4 <- getitem points 4 ;;
  p8 <- getitem points 8 ;;
  p12 <- getitem points 12 ;;
  p16 <- getitem points 16 ;;
  p20 <- getitem points 20 ;;
  let tips := [p4; p8; p12; p16; p20] in
  p5 <- getitem points 5 ;;
  p9 <- getitem points 9 ;;
  p13 <- getitem points 13 ;;
  p17 <- getitem points 17 ;;
  let mcps := [p5; p9; p13; p17] in
  (* 1. distances from the wrist to each fingertip *)
  let features := map (fun tip => np_norm (vsub tip wrist)) tips in
  (* 2. their average *)
  let avg_tip_dist := np_mean (map (fun tip => np_norm (vsub tip wrist)) tips) in
  let features := features ++ [avg_tip_dist] in
  (* 3. spread between fingertips *)
  tip_x_coords <- mapM (fun tip => getitem tip 0) tips ;;
  tip_y_coords <- mapM (fun tip => getitem tip 1) tips ;;
  max_x <- py_max tip_x_coords ;;
  min_x <- py_min tip_x_coords ;;
  let hand_width := max_x - min_x in
  max_y <- py_max tip_y_coords ;;
  min_y <- py_min tip_y_coords ;;
  let hand_height := max_y - min_y in
  let features := features ++ [hand_width; hand_height] in
  (* 4. pinch distance *)
  t0 <- getitem tips 0 ;;
  t1 <- getitem tips 1 ;;
  let thumb_index_dist := np_norm (vsub t0 t1) in
  let features := features ++ [thumb_index_dist] in
  (* 5. distance between index and middle tips *)
  t1' <- getitem tips 1 ;;
  t2 <- getitem tips 2 ;;
  let index_middle_dist := np_norm (vsub t1' t2) in
  let features := features ++ [index_middle_dist] in
  (* 6. cosines of the angles between adjacent MCP vectors *)
  cosines <- mapM (fun i =>
      mi <- getitem mcps i ;;
      mj <- getitem mcps (i + 1) ;;
      let vec1 := vsub mi wrist in
      let vec2 := vsub mj wrist in
      Ret (np_dot vec1 vec2 / (np_norm vec1 * np_norm vec2 + f_eps)))
    (seq 0 (length mcps - 1)) ;;
  let features := features ++ cosines in
  (* 7. bounding-box area of all points *)
  all_x <- mapM (fun p => getitem p 0) points ;;
  all_y <- mapM (fun p => getitem p 1) points ;;
  max_ax <- py_max all_x ;;
  min_ax <- py_min all_x ;;
  max_ay <- py_max all_y ;;
  min_ay <- py_min all_y ;;
  let hand_area := (max_ax - min_ax) * (max_ay - min_ay) in
  let features := features ++ [hand_area] in
  (* 8. fingertip coordinates relative to the wrist *)
  rels <- mapM (fun tip =>
      tx <- getitem tip 0 ;;
      wx <- getitem wrist 0 ;;
      let rel_x := tx - wx in
      ty <- getitem tip 1 ;;
      wy <- getitem wrist 1 ;;
      let rel_y := ty - wy in
      Ret [rel_x; rel_y])
    tips ;;
  let features := features ++ concat rels in
  Ret (Some features).

(** [extract_advanced_features] (train_grip_classifier.py, lines 62-135):
    the training script's own copy, taking a list of points only. *)
Definition extract_advanced_features (landmarks : list (list F)) : py (option (list F)) :=
  if negb (Nat.eqb (length landmarks) 21) then Ret None else
  points <- np_array landmarks ;;
  wrist <- getitem points 0 ;;
  p4 <- getitem points 4 ;;
  p8 <- getitem points 8 ;;
  p12 <- getitem points 12 ;;
  p16 <- getitem points 16 ;;
  p20 <- getitem points 20 ;;
  let tips := [p4; p8; p12; p16; p20] in
  p5 <- getitem points 5 ;;
  p9 <- getitem points 9 ;;
  p13 <- getitem points 13 ;;
  p17 <- getitem points 17 ;;
  let mcps := [p5; p9; p13; p17] in
  let features := map (fun tip => np_norm (vsub tip wrist)) tips in
  let avg_tip_dist := np_mean (map (fun tip => np_norm (vsub tip wrist)) tips) in
  let features := features ++ [avg_tip_dist] in
  tip_x_coords <- mapM (fun tip => getitem tip 0) tips ;;
  tip_y_coords <- mapM (fun tip => getitem tip 1) tips ;;
  max_x <- py_max tip_x_coords ;;
  min_x <- py_min tip_x_coords ;;
  let hand_width := max_x - min_x in
  max_y <- py_max tip_y_coords ;;
  min_y <- py_min tip_y_coords ;;
  let hand_height := max_y - min_y in
  let features := features ++ [hand_width; hand_height] in
  t0 <- getitem tips 0 ;;
  t1 <- getitem tips 1 ;;
  let thumb_index_dist := np_norm (vsub t0 t1) in
  let features := features ++ [thumb_index_dist] in
  t1' <- getitem tips 1 ;;
  t2 <- getitem tips 2 ;;
  let index_middle_dist := np_norm (vsub t1' t2) in
  let features := features ++ [index_middle_dist] in
  cosines <- mapM (fun i =>
      mi <- getitem mcps i ;;
      mj <- getitem mcps (i + 1) ;;
      let vec1 := vsub mi wrist in
      let vec2 := vsub mj wrist in
      Ret (np_dot vec1 vec2 / (np_norm vec1 * np_norm vec2 + f_eps)))
    (seq 0 (length mcps - 1)) ;;
  let features := features ++ cosines in
  all_x <- mapM (fun p => getitem p 0) points ;;
  all_y <- mapM (fun p => getitem p 1) points ;;
  max_ax <- py_max all_x ;;
  min_ax <- py_min all_x ;;
  max_ay <- py_max all_y ;;
  min_ay <- py_min all_y ;;
  let hand_area := (max_ax - min_ax) * (max_ay - min_ay) in
  let features := features ++ [hand_area] in
  rels <- mapM (fun tip =>
      tx <- getitem tip 0 ;;
      wx <- getitem wrist 0 ;;
      let rel_x := tx - wx in
      ty <- getitem tip 1 ;;
      wy <- getitem wrist 1 ;;
      let rel_y := ty - wy in
      Ret [rel_x; rel_y])
    tips ;;
  let features := features ++ concat rels in
  Ret (Some features).

End Features.

Arguments landmarks_arg F : clear implicits.
Arguments NormalizedLandmark F : clear implicits.

(** ** Well-formed landmark sets and the closed form of the features *)

Section ClosedForm.
Context {F : Type} {SF : Scalar F}.
Local Open Scope scalar_scope.

(** A valid landmark set: exactly 21 points of exactly two coordinates. *)
Definition valid_points (l : list (list F)) : Prop :=
  length l = 21 /\ Forall (fun p => length p = 2) l.

Definition to_points (ps : list (F * F)) : list (list F) :=
  map (fun p => [fst p; snd p]) ps.

Definition pt (ps : list (F * F)) (i : nat) : F * F := nth i ps (f_zero, f_zero).

Definition tips_of (ps : list (F * F)) : list (F * F) :=
  [pt ps 4; pt ps 8; pt ps 12; pt ps 16; pt ps 20].

Definition diff (a b : F * F) : list F := [fst a - fst b; snd a - snd b].

Definition dist (a b : F * F) : F := np_norm (diff a b).

Definition cos_angle (w a b : F * F) : F :=
  np_dot (diff a w) (diff b w) / (np_norm (diff a w) * np_norm (diff b w) + f_eps).

(** The denominator of line 111. *)
Definition cosine_denominator (w a b : F * F) : F :=
  np_norm (diff a w) * np_norm (diff b w) + f_eps.

Definition max_of (l : list F) : F :=
  match l with [] => f_zero | x :: r => max_loop x r end.

Definition min_of (l : list F) : F :=
  match l with [] => f_zero | x :: r => min_loop x r end.

Definition spread (l : list F) : F := max_of l - min_of l.

(** The 24 features of a valid landmark set, in the order the code appends
    them. *)
Definition feature_vector (ps : list (F * F)) : list F :=
  let w := pt ps 0 in
  let tips := tips_of ps in
  map (fun t => dist t w) tips
  ++ [np_mean (map (fun t => dist t w) tips)]
  ++ [spread (map fst tips); spread (map snd tips)]
  ++ [dist (pt ps 4) (pt ps 8)]
  ++ [dist (pt ps 8) (pt ps 12)]
  ++ [cos_angle w (pt ps 5) (pt ps 9);
      cos_angle w (pt ps 9) (pt ps 13);
      cos_angle w (pt ps 13) (pt ps 17)]
  ++ [spread (map fst ps) * spread (map snd ps)]
  ++ concat (map (fun t => diff t w) tips).

End ClosedForm.

(** ** The dataset loader *)

Section Loader.
Context {F : Type}.

(** One record of [fist.json] / [palm.json]: the value under the key
    ['landmarks'], when the key is present, is a list of detected hands,
    each a list of points, each a list of coordinates.  This is the shape
    the capture tool writes and the loader expects; on JSON of another
    shape (a record that is no object, a point that is a number) the Python
    loader raises [TypeError], and such files are not described here. *)
Record sample_data : Type := {
  sd_landmarks : option (list (list (list F)))
}.

(** The parsed JSON object, as [data.items()] enumerates it. *)
Definition dataset : Type := list (string * sample_data).

(** What the loader prints. *)
Inductive log_line : Type :=
| LogLoading (json_file_path : string)
| LogLoaded (count : nat) (label : Z).

(** Lines 49-52: every point with at least two coordinates contributes its
    first two; shorter points contribute nothing. *)
Definition flatten_points (landmarks : list (list F)) : list F :=
  flat_map
    (fun point =>
       match point with
       | x :: y :: _ => [x; y]
       | _ => []
       end)
    landmarks.

Record load_state : Type := {
  ls_features : list (list F);
  ls_labels : list Z;
  ls_count : nat
}.

(** The body of the [for sample_id, sample_data in data.items()] loop. *)
Definition load_step (label : Z) (st : load_state) (item : string * sample_data)
  : load_state :=
  match sd_landmarks (snd item) with
  | Some (landmarks :: _) =>
      if Nat.eqb (length landmarks) 21 then
        let feature_vector := flatten_points landmarks in
        if Nat.eqb (length feature_vector) 42 then
          {| ls_features := ls_features st ++ [feature_vector];
             ls_labels := ls_labels st ++ [label];
             ls_count := ls_count st + 1 |}
        else st
      else st
  | _ => st
  end.

Definition empty_state : load_state :=
  {| ls_features := []; ls_labels := []; ls_count := 0 |}.

Definition load_loop (label : Z) (data : dataset) : load_state :=
  fold_left (load_step label) data empty_state.

(** [load_landmark_data] (train_grip_classifier.py, lines 21-60), applied to
    the parsed content [data] of the file at [json_file_path].  The result
    is the returned pair together with the printed lines. *)
Definition load_landmark_data (json_file_path : string) (data : dataset) (label : Z)
  : (list (list F) * list Z) * list log_line :=
  let st := load_loop label data in
  ((ls_features st, ls_labels st),
   [LogLoading json_file_path; LogLoaded (ls_count st) label]).

(** A record the loader passes over: no ['landmarks'] key, no detected
    hand, or a first hand that does not have exactly 21 landmarks. *)
Definition malformed (r : sample_data) : Prop :=
  match sd_landmarks r with
  | None => True
  | Some [] => True
  | Some (landmarks :: _) => length landmarks <> 21
  end.

(** Two loop states end to end. *)
Definition state_append (a b : load_state) : load_state :=
  {| ls_features := ls_features a ++ ls_features b;
     ls_labels := ls_labels a ++ ls_labels b;
     ls_count := ls_count a + ls_count b |}.

(** What the loop maintains. *)
Definition load_invariant (label : Z) (st : load_state) : Prop :=
  Forall (fun fv => length fv = 42) (ls_features st) /\
  length (ls_labels st) = length (ls_features st) /\
  Forall (fun l => l = label) (ls_labels st) /\
  ls_count st = length (ls_features st).

(** A first hand the loader accepts: 21 points of at least two coordinates. *)
Definition well_formed_hand (landmarks : list (list F)) : Prop :=
  length landmarks = 21 /\ Forall (fun point => 2 <= length point) landmarks.

(** The first detected hand of a record, when there is one. *)
Definition first_hand (r : sample_data) : option (list (list F)) :=
  match sd_landmarks r with
  | Some (landmarks :: _) => Some landmarks
  | _ => None
  end.

(** [well_formed_hand] as a test. *)
Definition well_formed_handb (landmarks : list (list F)) : bool :=
  Nat.eqb (length landmarks) 21
  && forallb (fun point => Nat.leb 2 (length point)) landmarks.

(** The hands of a data file that are to be kept: in file order, the first
    hand of every record that has one, when it is well formed. *)
Definition kept_hands (data : dataset) : list (list (list F)) :=
  flat_map
    (fun item =>
       match first_hand (snd item) with
       | Some landmarks => if well_formed_handb landmarks then [landmarks] else []
       | None => []
       end)
    data.

End Loader.

Arguments sample_data F : clear implicits.
Arguments dataset F : clear implicits.
Arguments load_state F : clear implicits.

(** ** The classifier wrapper *)

Section Classifier.
Context {F : Type} {SF : Scalar F}.

(** A fitted scikit-learn estimator, seen through the two methods the code
    calls.  [model_predict row] stands for [model.predict([row])[0]];
    [model_predict_proba] is absent when the object has no [predict_proba]
    attribute. *)
Record Model : Type := {
  model_predict : list F -> Z;
  model_predict_proba : option (list F -> list F)
}.

Inductive json_value : Type :=
| JStr (s : string)
| JInt (n : Z)
| JFloat (x : F).

(** A JSON object with its keys in insertion order. *)
Definition Metadata : Type := list (string * json_value).

(** The state of a path on disk as the constructor sees it. *)
Inductive file (A : Type) : Type :=
| Missing
| Unreadable
| Content (a : A).

Arguments Missing {A}.
Arguments Unreadable {A}.
Arguments Content {A} a.

(** The model file at [model_path] and the [model_metadata.json] next to it. *)
Record model_files : Type := {
  pkl : file Model;
  metadata_json : file Metadata
}.

Record GripClassifier : Type := {
  gc_model : option Model;
  gc_metadata : option Metadata
}.

Definition default_model_path : string := "grip_models/grip_classifier.pkl".

(** Lines 21-26: the default location when no path is given. *)
Definition resolve_model_path (model_path : option string) : string :=
  match model_path with
  | None => default_model_path
  | Some p => p
  end.

(** [GripClassifier.__init__] (lines 13-44).  An exception from
    [joblib.load] or from [json.load] lands in the [except] branch, which
    resets [self.model] to [None]. *)
Definition GripClassifier_init (fs : string -> model_files) (model_path : option string)
  : GripClassifier :=
  let model_path := resolve_model_path model_path in
  match pkl (fs model_path) with
  | Missing => {| gc_model := None; gc_metadata := None |}
  | Unreadable => {| gc_model := None; gc_metadata := None |}
  | Content m =>
      match metadata_json (fs model_path) with
      | Missing => {| gc_model := Some m; gc_metadata := None |}
      | Unreadable => {| gc_model := None; gc_metadata := None |}
      | Content md => {| gc_model := Some m; gc_metadata := Some md |}
      end
  end.

Record Prediction : Type := {
  is_closed : bool;
  confidence : F;
  raw_value : F;
  probabilities : option (list F)
}.

(** [GripClassifier.predict] (lines 128-167). *)
Definition predict (self : GripClassifier) (landmarks : landmarks_arg F)
  : py (option Prediction) :=
  match gc_model self with
  | None => Ret None
  | Some model =>
      features <- extract_features landmarks ;;
      match features with
      | None => Ret None
      | Some features =>
          let prediction := model_predict model features in
          match model_predict_proba model with
          | Some predict_proba =>
              let probabilities := predict_proba features in
              confidence <- py_max probabilities ;;
              Ret (Some {| is_closed := Z.eqb prediction 0;
                           confidence := confidence;
                           raw_value := f_of_Z prediction;
                           probabilities := Some probabilities |})
          | None =>
              Ret (Some {| is_closed := Z.eqb prediction 0;
                           confidence := f_one;
                           raw_value := f_of_Z prediction;
                           probabilities := None |})
          end
      end
  end.

(** [GripClassifier.is_available] (lines 169-171). *)
Definition is_available (self : GripClassifier) : bool :=
  match gc_model self with
  | Some _ => true
  | None => false
  end.

End Classifier.

Arguments Model F : clear implicits.
Arguments json_value F : clear implicits.
Arguments Metadata F : clear implicits.
Arguments model_files F : clear implicits.
Arguments GripClassifier F : clear implicits.
Arguments Prediction F : clear implicits.
Arguments Missing {A}.
Arguments Unreadable {A}.
Arguments Content {A} a.

(** ** The training pipeline *)

Section Training.
Context {F : Type} {SF : Scalar F}.

(** Line 159: [[flat[i], flat[i+1]] for i in range(0, len(flat), 2)]. *)
Fixpoint pair_up (landmarks_flat : list F) : py (list (list F)) :=
  match landmarks_flat with
  | [] => Ret []
  | [_] => Raise IndexError
  | x :: y :: rest => ps <- pair_up rest ;; Ret ([x; y] :: ps)
  end.

(** One of the two loops (lines 157-171) of
    [load_data_with_advanced_features]; [if features:] takes a non-empty
    list only. *)
Fixpoint advanced_loop (label : Z) (raw : list (list F))
  (acc : list (list F) * list Z) : py (list (list F) * list Z) :=
  match raw with
  | [] => Ret acc
  | landmarks_flat :: rest =>
      landmarks <- pair_up landmarks_flat ;;
      features <- extract_advanced_features landmarks ;;
      match features with
      | Some ((_ :: _) as features) =>
          advanced_loop label rest (fst acc ++ [features], snd acc ++ [label])
      | _ => advanced_loop label rest acc
      end
  end.

(** [load_data_with_advanced_features] (lines 137-176), on the parsed
    contents of the two files. *)
Definition load_data_with_advanced_features
  (fist_json_path : string) (fist_data : dataset F)
  (palm_json_path : string) (palm_data : dataset F)
  : py (list (list F) * list Z) :=
  let '((fist_features, _), _) := load_landmark_data fist_json_path fist_data 0 in
  let '((palm_features, _), _) := load_landmark_data palm_json_path palm_data 1 in
  acc <- advanced_loop 0 fist_features ([], []) ;;
  advanced_loop 1 palm_features acc.

(** [sklearn.metrics.accuracy_score]: the fraction of positions where the
    prediction equals the label. *)
Definition correct_count (y_true y_pred : list Z) : nat :=
  length (filter (fun p => Z.eqb (fst p) (snd p)) (combine y_true y_pred)).

Definition accuracy_score (y_true y_pred : list Z) : F :=
  f_div (f_of_Z (Z.of_nat (correct_count y_true y_pred)))
        (f_of_Z (Z.of_nat (length y_true))).

(** The four parts a split returns. *)
Definition partition : Type := (list (list F) * list (list F) * list Z * list Z)%type.

Definition X_train (parts : partition) : list (list F) := fst (fst (fst parts)).
Definition X_test (parts : partition) : list (list F) := snd (fst (fst parts)).
Definition y_train (parts : partition) : list Z := snd (fst parts).
Definition y_test (parts : partition) : list Z := snd parts.

(** scikit-learn's splitting, fitting and reporting are taken as given, each
    with the outcome of the call: its result, or the exception it raises.
    - [train_test_split X y] is the call of line 191 (test_size 0.2, seed 42,
      stratified) returning [(X_train, X_test, y_train, y_test)]; the library
      raises [ValueError] when, for instance, a class has a single member.
    - The two [fit] functions are the estimators constructed at lines 201 and
      209, fitted on a training set at line 219, where the library may raise
      as well.
    - [classification_report y_test y_pred] is the call of line 230 with its
      two [target_names]; the text it returns is only printed, but the call
      raises [ValueError] when the labels present are not two. *)
Variable train_test_split : list (list F) -> list Z -> py partition.
Variable fit_random_forest : list (list F) -> list Z -> py (Model F).
Variable fit_svc : list (list F) -> list Z -> py (Model F).
Variable classification_report : list Z -> list Z -> py unit.

(** [train_model] (lines 178-235).  The Python function returns the model
    only; the second component here is the local [accuracy] it prints, the
    score on the held-out partition.  An exception of the split, of the fit
    or of the report leaves the function; an unknown [model_type] raises
    [ValueError] after the split and before any fit. *)
Definition train_model (X : list (list F)) (y : list Z) (model_type : string)
  : py (Model F * F) :=
  parts <- train_test_split X y ;;
  let '(X_train, X_test, y_train, y_test) := parts in
  fit <-
    (if String.eqb model_type "random_forest" then Ret fit_random_forest
     else if String.eqb model_type "svm" then Ret fit_svc
     else Raise ValueError) ;;
  model <- fit X_train y_train ;;
  let y_pred := map (model_predict model) X_test in
  let accuracy := accuracy_score y_test y_pred in
  report <- classification_report y_test y_pred ;;
  Ret (model, accuracy).

(** The accuracy of a model on the whole dataset, and on the held-out
    partition of the split. *)
Definition full_accuracy (m : Model F) (X : list (list F)) (y : list Z) : F :=
  accuracy_score y (map (model_predict m) X).

Definition held_out_accuracy (m : Model F) (X : list (list F)) (y : list Z) : py F :=
  parts <- train_test_split X y ;;
  Ret (accuracy_score (y_test parts) (map (model_predict m) (X_test parts))).

(** What a training run leaves on disk: [grip_classifier.pkl] and
    [model_metadata.json].  The file system is taken to accept the two
    writes. *)
Record artifact : Type := {
  art_model : Model F;
  art_metadata : Metadata F
}.

(** [main] (lines 237-320), on the two data files ([None]: the file does
    not exist).  [Ret None] is an early [return] with nothing written; an
    exception of a [train_model] call ends the run. *)
Definition main (fist_json palm_json : option (dataset F)) : py (option artifact) :=
  match fist_json with
  | None => Ret None
  | Some fist_data =>
  match palm_json with
  | None => Ret None
  | Some palm_data =>
      Xy <- load_data_with_advanced_features "fist.json" fist_data "palm.json" palm_data ;;
      let '(X, y) := Xy in
      if Nat.eqb (length X) 0 then Ret None else
      rf <- train_model X y "random_forest" ;;
      let rf_model := fst rf in
      sv <- train_model X y "svm" ;;
      let svm_model := fst sv in
      let rf_pred := map (model_predict rf_model) X in
      let svm_pred := map (model_predict svm_model) X in
      let rf_acc := accuracy_score y rf_pred in
      let svm_acc := accuracy_score y svm_pred in
      let '(best_model, model_name) :=
        if f_leb svm_acc rf_acc                        (* rf_acc >= svm_acc *)
        then (rf_model, "random_forest"%string)
        else (svm_model, "svm"%string) in
      let metadata :=
        [("model_type"%string, JStr model_name);
         ("feature_count"%string, JInt (Z.of_nat (length (hd [] X))));
         ("training_samples"%string, JInt (Z.of_nat (length X)));
         ("fist_samples"%string, JInt (Z.of_nat (count_occ Z.eq_dec y 0%Z)));
         ("palm_samples"%string, JInt (Z.of_nat (count_occ Z.eq_dec y 1%Z)));
         ("accuracy"%string,
          JFloat (if String.eqb model_name "random_forest" then rf_acc else svm_acc))] in
      Ret (Some {| art_model := best_model; art_metadata := metadata |})
  end
  end.

End Training.

Arguments artifact F : clear implicits.
Arguments partition F : clear implicits.

(** ** Concrete landmark sets (binary64) *)

(** An open hand, in the tracker's normalized image coordinates. *)
Definition open_hand : list (float * float) :=
  [(0.50, 0.80); (0.42, 0.75); (0.36, 0.68); (0.32, 0.60); (0.28, 0.54);
   (0.44, 0.58); (0.42, 0.48); (0.41, 0.41); (0.40, 0.35);
   (0.50, 0.56); (0.50, 0.45); (0.50, 0.37); (0.50, 0.30);
   (0.56, 0.58); (0.57, 0.48); (0.58, 0.41); (0.59, 0.36);
   (0.61, 0.62); (0.63, 0.55); (0.65, 0.50); (0.66, 0.45)]%float.

(** A closed fist: the fingertips fold back towards the wrist. *)
Definition closed_fist : list (float * float) :=
  [(0.50, 0.80); (0.44, 0.76); (0.41, 0.71); (0.43, 0.67); (0.47, 0.66);
   (0.44, 0.64); (0.43, 0.60); (0.45, 0.66); (0.46, 0.70);
   (0.50, 0.63); (0.50, 0.59); (0.50, 0.66); (0.50, 0.71);
   (0.55, 0.64); (0.56, 0.60); (0.55, 0.66); (0.54, 0.71);
   (0.59, 0.66); (0.60, 0.63); (0.59, 0.68); (0.58, 0.72)]%float.



(** The wrist at the origin and the four MCPs at (300000, 0). *)
Definition far_mcps : list (float * float) :=
  map (fun i => if existsb (Nat.eqb i) [5; 9; 13; 17]
                then (300000, 0)%float else (0, 0)%float)
      (seq 0 21).

(** 21 points that carry a single coordinate each. *)
Definition one_coordinate_points : list (list float) := repeat [0.5%float] 21.

(** The open hand with its coordinates on the grid of multiples of 1/64,
    and the same hand moved by (0.375, 0.125).  All these numbers are binary64
    values, so the second set is the exact translate of the first. *)
Definition grid_hand : list (float * float) :=
  [(0.5, 0.796875); (0.421875, 0.75); (0.359375, 0.6875); (0.3125, 0.59375);
   (0.28125, 0.546875);
   (0.4375, 0.578125); (0.421875, 0.484375); (0.40625, 0.40625); (0.40625, 0.34375);
   (0.5, 0.5625); (0.5, 0.453125); (0.5, 0.375); (0.5, 0.296875);
   (0.5625, 0.578125); (0.5625, 0.484375); (0.578125, 0.40625); (0.59375, 0.359375);
   (0.609375, 0.625); (0.625, 0.546875); (0.65625, 0.5); (0.65625, 0.453125)]%float.

Definition grid_hand_moved : list (float * float) :=
  [(0.875, 0.921875); (0.796875, 0.875); (0.734375, 0.8125); (0.6875, 0.71875);
   (0.65625, 0.671875);
   (0.8125, 0.703125); (0.796875, 0.609375); (0.78125, 0.53125); (0.78125, 0.46875);
   (0.875, 0.6875); (0.875, 0.578125); (0.875, 0.5); (0.875, 0.421875);
   (0.9375, 0.703125); (0.9375, 0.609375); (0.953125, 0.53125); (0.96875, 0.484375);
   (0.984375, 0.75); (1.0, 0.671875); (1.03125, 0.625); (1.03125, 0.578125)]%float.

(** ** Translations *)

Section Translation.
Context {F : Type} {SF : Scalar F}.

(** The coordinates [xs'] are the coordinates [xs] moved along their axis,
    as far as the arithmetic can tell: the difference and the comparison of
    any two of them come out the same before and after.  A translate
    [x' = x + d] is of this kind in exact arithmetic.  In binary64 a
    subtraction rounds the exact difference and a comparison is exact, so
    that coordinates moved without rounding (and without a negative zero
    among them) are of this kind too; sums [x + d] that round are not a
    translate by one offset. *)
Definition same_differences (xs xs' : list F) : Prop :=
  length xs' = length xs /\
  Forall (fun p =>
    Forall (fun q =>
      f_sub (snd p) (snd q) = f_sub (fst p) (fst q) /\
      f_ltb (snd p) (snd q) = f_ltb (fst p) (fst q))
      (combine xs xs'))
    (combine xs xs').

(** [ps'] is the landmark set [ps] translated. *)
Definition translated (ps ps' : list (F * F)) : Prop :=
  same_differences (map fst ps) (map fst ps') /\
  same_differences (map snd ps) (map snd ps').

End Translation.

(** Moving every landmark by the offset [(dx, dy)], in exact arithmetic. *)
Definition translate (dx dy : R) (ps : list (R * R)) : list (R * R) :=
  map (fun p => (fst p + dx, snd p + dy)%R) ps.

(** ** A small training run (binary64) *)

Definition hand_record (ps : list (float * float)) : sample_data float :=
  {| sd_landmarks := Some [to_points ps] |}.

(** Five records labelled fist, the first of which shows an open hand. *)
Definition toy_fist_data : dataset float :=
  [("f0", hand_record open_hand); ("f1", hand_record closed_fist);
   ("f2", hand_record closed_fist); ("f3", hand_record closed_fist);
   ("f4", hand_record closed_fist)]%string.

Definition toy_palm_data : dataset float :=
  [("p0", hand_record open_hand); ("p1", hand_record open_hand);
   ("p2", hand_record open_hand); ("p3", hand_record open_hand);
   ("p4", hand_record open_hand)]%string.

(** Stand-ins for the library calls, to run the pipeline on small datasets.
    The split holds out the first sample of each class present and trains
    on the rest; like scikit-learn's stratified split it refuses, with
    [ValueError], a dataset in which a class has a single member. *)
Fixpoint first_index (c : Z) (y : list Z) : option nat :=
  match y with
  | [] => None
  | l :: r => if Z.eqb l c then Some 0 else option_map S (first_index c r)
  end.

Definition held_out_rows (y : list Z) : list nat :=
  flat_map (fun c => match first_index c y with Some i => [i] | None => [] end)
           [0%Z; 1%Z].

Definition rows_at {A : Type} (rows : list nat) (l : list A) : list A :=
  flat_map (fun i => match nth_error l i with Some a => [a] | None => [] end) rows.

Definition rows_but {A : Type} (rows : list nat) (l : list A) : list A :=
  map snd (filter (fun ia => negb (existsb (Nat.eqb (fst ia)) rows))
                  (combine (seq 0 (length l)) l)).

Definition toy_split {F : Type} (X : list (list F)) (y : list Z) : py (partition F) :=
  if existsb (fun c => Nat.eqb (count_occ Z.eq_dec y c) 1) [0%Z; 1%Z]
  then Raise ValueError
  else
    let rows := held_out_rows y in
    Ret (rows_but rows X, rows_at rows X, rows_but rows y, rows_at rows y).

(** The report refuses, with [ValueError], labels that are not the two
    classes both: its two [target_names] then do not match. *)
Definition toy_report (y_test y_pred : list Z) : py unit :=
  if existsb (Z.eqb 0) (y_test ++ y_pred) && existsb (Z.eqb 1) (y_test ++ y_pred)
  then Ret tt
  else Raise ValueError.

(** A fitted estimator that separates the classes by the average
    wrist-to-fingertip distance (feature 5). *)
Definition toy_model : Model float :=
  {| model_predict := fun row =>
       if PrimFloat.ltb (nth 5 row 0%float) 0.25%float then 0%Z else 1%Z;
     model_predict_proba := None |}.

Definition toy_fit (X_train : list (list float)) (y_train : list Z) : py (Model float) :=
  Ret toy_model.

(** An estimator that answers the class [c] on every row, and the fit that
    returns it. *)
Definition constant_model {F : Type} (c : Z) : Model F :=
  {| model_predict := fun _ => c; model_predict_proba := None |}.

Definition fit_constant {F : Type} (c : Z) (X_train : list (list F)) (y_train : list Z)
  : py (Model F) :=
  Ret (constant_model c).

(** What the small run writes. *)
Definition toy_artifact : artifact float :=
  {| art_model := toy_model;
     art_metadata :=
       [("model_type", JStr "random_forest"); ("feature_count", JInt 24);
        ("training_samples", JInt 10); ("fist_samples", JInt 5);
        ("palm_samples", JInt 5); ("accuracy", JFloat 0.9%float)]%string |}.

(** [obj[k]] on a JSON object. *)
Definition lookup_key {A : Type} (k : string) (o : list (string * A)) : option A :=
  match find (fun kv => String.eqb (fst kv) k) o with
  | Some kv => Some (snd kv)
  | None => None
  end.

(** ** Records of a data file (binary64) *)

(** A record whose list of detected hands is empty. *)
Definition no_hands : sample_data float := {| sd_landmarks := Some [] |}.

(** A record whose first hand has 20 landmarks. *)
Definition short_hand : sample_data float :=
  {| sd_landmarks := Some [to_points (firstn 20 open_hand)] |}.

(** The open hand with a third coordinate on every point. *)
Definition hand_with_depth : list (list float) :=
  map (fun p => [fst p; snd p; 0%float]) open_hand.

(** 21 points, the first of which has one coordinate only. *)
Definition hand_with_short_point : list (list float) :=
  [0.5%float] :: to_points (skipn 1 open_hand).

(** ** A landmark set with exact coordinates *)

Definition exact_hand : list (R * R) :=
  [(0.50, 0.80); (0.42, 0.75); (0.36, 0.68); (0.32, 0.60); (0.28, 0.54);
   (0.44, 0.58); (0.42, 0.48); (0.41, 0.41); (0.40, 0.35);
   (0.50, 0.56); (0.50, 0.45); (0.50, 0.37); (0.50, 0.30);
   (0.56, 0.58); (0.57, 0.48); (0.58, 0.41); (0.59, 0.36);
   (0.61, 0.62); (0.63, 0.55); (0.65, 0.50); (0.66, 0.45)]%R.



(** Data files with one record per sample, every record showing
    [exact_hand]. *)
Definition exact_record : sample_data R :=
  {| sd_landmarks := Some [to_points exact_hand] |}.

Definition exact_data_3 : dataset R :=
  [("s0", exact_record); ("s1", exact_record); ("s2", exact_record)]%string.

Definition exact_data_4 : dataset R :=
  [("s0", exact_record); ("s1", exact_record); ("s2", exact_record);
   ("s3", exact_record)]%string.

(** No model file anywhere. *)
Definition empty_disk : string -> model_files float :=
  fun _ => {| pkl := Missing; metadata_json := Missing |}.

(** The three angle cosines: positions 10, 11 and 12 of a feature vector. *)
Definition cosine_features {F : Type} (v : list F) : list F := firstn 3 (skipn 10 v).

(** ** The ESP32 connection diagnostics

    [roboCleaner/client/find_esp32_port.py] and
    [roboCleaner/client/test_connection.py].  The scripts talk to the
    operating system and the network; what these answer is a [world], and
    what a script does to them, in order, is a list of [event]s: every
    [print], every command run, every connection attempt. *)

Module Client.

Local Open Scope string_scope.

Definition nl : string := String "010"%char EmptyString.

(** [s * n] on a string. *)
Fixpoint str_mul (s : string) (n : nat) : string :=
  match n with
  | O => EmptyString
  | S k => s ++ str_mul s k
  end.

(** [str(z)] and [{z}] in an f-string, for an integer. *)
Definition str_of_Z (z : Z) : string := NilZero.string_of_int (Z.to_int z).

(** [needle in hay] on strings. *)
Fixpoint contains (needle hay : string) : bool :=
  if String.prefix needle hay then true
  else match hay with
       | EmptyString => false
       | String _ rest => contains needle rest
       end.

(** [subprocess.run(args, capture_output=True, timeout=t)]. *)
Inductive run_result : Type :=
| Completed (stdout : string) (returncode : Z)
| RunRaised (message : string).

(** [sock.connect_ex((host, port))] on a fresh socket with a timeout. *)
Inductive connect_ex_result : Type :=
| Errno (code : Z)
| GaiError (message : string)
| ConnectExRaised (message : string).

(** [sock.connect((host, port))] on a fresh socket with a timeout. *)
Inductive connect_result : Type :=
| Connected
| TimedOut
| Refused
| SocketError (message : string)
| ConnectRaised (message : string).

Record world : Type := {
  platform_system : string;
  subprocess_run : list string -> Z -> run_result;
  sock_connect_ex : string -> Z -> Z -> connect_ex_result;
  sock_connect : string -> Z -> Z -> connect_result
}.

Inductive event : Type :=
| Printed (text : string) (end_ : string)
| Ran (args : list string) (timeout : Z)
| TriedConnectEx (host : string) (port timeout : Z)
| TriedConnect (host : string) (port timeout : Z).

(** A computation with its events. *)
Definition io (A : Type) : Type := A * list event.

Definition io_ret {A : Type} (a : A) : io A := (a, []).

Definition io_bind {A B : Type} (m : io A) (k : A -> io B) : io B :=
  let '(a, t1) := m in
  let '(b, t2) := k a in
  (b, (t1 ++ t2)%list).

Notation "x <~ m ;; k" := (io_bind m (fun x => k))
  (at level 61, m at next level, right associativity).
Notation "m ;;; k" := (io_bind m (fun _ => k))
  (at level 61, right associativity).

Definition print (text : string) : io unit := (tt, [Printed text nl]).

Definition print_end (text end_ : string) : io unit := (tt, [Printed text end_]).

Definition run (w : world) (args : list string) (timeout : Z) : io run_result :=
  (subprocess_run w args timeout, [Ran args timeout]).

Definition connect_ex (w : world) (host : string) (port timeout : Z)
  : io connect_ex_result :=
  (sock_connect_ex w host port timeout, [TriedConnectEx host port timeout]).

Definition connect (w : world) (host : string) (port timeout : Z) : io connect_result :=
  (sock_connect w host port timeout, [TriedConnect host port timeout]).

(** The texts a run printed, in order. *)
Definition printed (t : list event) : list string :=
  flat_map (fun e => match e with Printed text _ => [text] | _ => [] end) t.

(** The connection attempts of a run, in order. *)
Definition probes (t : list event) : list (string * Z) :=
  flat_map (fun e => match e with
                     | TriedConnectEx host port _ => [(host, port)]
                     | TriedConnect host port _ => [(host, port)]
                     | _ => []
                     end) t.


(** *** find_esp32_port.py *)

Module FindPort.

(** [test_port] (lines 10-19); the bare [except] turns every exception
    into [False]. *)
Definition test_port (w : world) (host : string) (port : Z) (timeout : Z) : io bool :=
  result <~ connect_ex w host port timeout ;;
  io_ret match result with
         | Errno code => Z.eqb code 0
         | _ => false
         end.

(** The [for port in ports_to_test] loop of lines 32-39, with its [break]. *)
Fixpoint scan (w : world) (host : string) (ports : list Z) : io (option Z) :=
  match ports with
  | [] => io_ret None
  | port :: rest =>
      print_end ("Testing port " ++ str_of_Z port ++ "...") " " ;;;
      open <~ test_port w host port 2 ;;
      if open then
        print ("[OK] Port " ++ str_of_Z port ++ " is OPEN") ;;;
        io_ret (Some port)
      else
        print "[CLOSED]" ;;;
        scan w host rest
  end.

(** [if found_port:] on an optional integer. *)
Definition truthy (found_port : option Z) : bool :=
  match found_port with
  | Some port => negb (Z.eqb port 0)
  | None => false
  end.

(** [main] (lines 21-66). *)
Definition main (w : world) : io (option Z) :=
  let host := "192.168.4.1" in
  let ports_to_test := [8000; 8080]%Z in
  print (str_mul "=" 60) ;;;
  print "ESP32 Port Detection" ;;;
  print (str_mul "=" 60) ;;;
  print ("Testing " ++ host ++ "...") ;;;
  print EmptyString ;;;
  found_port <~ scan w host ports_to_test ;;
  print EmptyString ;;;
  print (str_mul "=" 60) ;;;
  (if truthy found_port then
     let port := match found_port with Some port => port | None => 0%Z end in
     print ("[SUCCESS] ESP32 is listening on port " ++ str_of_Z port) ;;;
     (if Z.eqb port 8000 then
        print "  -> This is the NEW firmware (JSON protocol)"
      else if Z.eqb port 8080 then
        print "  -> This is the OLD firmware (binary protocol)" ;;;
        print "  -> You need to upload the updated firmware!"
      else io_ret tt) ;;;
     print EmptyString ;;;
     print ("Update your code to use: esp32_port=" ++ str_of_Z port)
   else
     print "[FAIL] ESP32 is not listening on any known port" ;;;
     print EmptyString ;;;
     print "Possible issues:" ;;;
     print "  1. ESP32 firmware not uploaded" ;;;
     print "  2. ESP32 server failed to start" ;;;
     print "  3. ESP32 is not powered on" ;;;
     print EmptyString ;;;
     print "Next steps:" ;;;
     print "  1. Check Serial Monitor (115200 baud)" ;;;
     print "  2. Look for 'TCP server started on port XXXX'" ;;;
     print "  3. Upload the updated firmware if needed") ;;;
  print (str_mul "=" 60) ;;;
  io_ret found_port.

End FindPort.

(** *** test_connection.py *)

Module TestConnection.

(** [check_wifi_connection] (lines 18-43): [True], [False], or [None] when
    the status cannot be told. *)
Definition check_wifi_connection (w : world) (ssid : string) : io (option bool) :=
  print ("Checking WiFi connection to '" ++ ssid ++ "'...") ;;;
  if String.eqb (platform_system w) "Windows" then
    result <~ run w ["netsh"; "wlan"; "show"; "interfaces"] 5 ;;
    match result with
    | Completed stdout _ =>
        if contains ssid stdout then
          print ("[OK] Connected to '" ++ ssid ++ "'") ;;;
          io_ret (Some true)
        else
          print ("[FAIL] Not connected to '" ++ ssid ++ "'") ;;;
          print "  Please connect to ESP32_AP WiFi network (password: 12345678)" ;;;
          io_ret (Some false)
    | RunRaised e =>
        print ("[WARN] Could not check WiFi status: " ++ e) ;;;
        io_ret None
    end
  else
    print "[WARN] WiFi check not implemented for this OS" ;;;
    io_ret None.

(** [ping_host] (lines 45-81). *)
Definition ping_host (w : world) (host : string) (timeout : Z) : io bool :=
  print ("Pinging " ++ host ++ "...") ;;;
  let args :=
    if String.eqb (platform_system w) "Windows"
    then ["ping"; "-n"; "1"; "-w"; str_of_Z (timeout * 1000); host]
    else ["ping"; "-c"; "1"; "-W"; str_of_Z timeout; host] in
  result <~ run w args (timeout + 1) ;;
  match result with
  | Completed _ returncode =>
      if Z.eqb returncode 0 then
        print ("✓ " ++ host ++ " is reachable") ;;;
        io_ret true
      else
        print ("✗ " ++ host ++ " is not reachable") ;;;
        io_ret false
  | RunRaised e =>
      print ("✗ Ping failed: " ++ e) ;;;
      io_ret false
  end.

(** [check_port] (lines 83-110). *)
Definition check_port (w : world) (host : string) (port : Z) (timeout : Z) : io bool :=
  print ("Checking port " ++ str_of_Z port ++ " on " ++ host ++ "...") ;;;
  result <~ connect_ex w host port timeout ;;
  match result with
  | Errno code =>
      if Z.eqb code 0 then
        print ("[OK] Port " ++ str_of_Z port ++ " is open and accepting connections") ;;;
        io_ret true
      else
        print ("[FAIL] Port " ++ str_of_Z port
               ++ " is closed or not accepting connections") ;;;
        print ("  Error code: " ++ str_of_Z code) ;;;
        (if Z.eqb code 10061 then
           print "  -> This means the ESP32 is reachable but not listening on this port" ;;;
           print "  -> Make sure the ESP32 firmware is uploaded and running"
         else if Z.eqb code 10060 then
           print "  -> This means the ESP32 might not be reachable or firewall is blocking"
         else io_ret tt) ;;;
        io_ret false
  | GaiError e =>
      print ("[FAIL] DNS/Hostname resolution failed: " ++ e) ;;;
      io_ret false
  | ConnectExRaised e =>
      print ("[FAIL] Connection test failed: " ++ e) ;;;
      io_ret false
  end.

(** [test_tcp_connection] (lines 112-135). *)
Definition test_tcp_connection (w : world) (host : string) (port : Z) (timeout : Z)
  : io bool :=
  print (nl ++ "Testing TCP connection to " ++ host ++ ":" ++ str_of_Z port ++ "...") ;;;
  result <~ connect w host port timeout ;;
  match result with
  | Connected =>
      print ("[OK] Successfully connected to " ++ host ++ ":" ++ str_of_Z port) ;;;
      io_ret true
  | TimedOut =>
      print ("[FAIL] Connection timeout after " ++ str_of_Z timeout ++ " seconds") ;;;
      io_ret false
  | Refused =>
      print ("[FAIL] Connection refused - ESP32 is not listening on port "
             ++ str_of_Z port) ;;;
      print "  -> Make sure ESP32 firmware is uploaded and server is running" ;;;
      io_ret false
  | SocketError e =>
      print ("[FAIL] Connection failed: " ++ e) ;;;
      io_ret false
  | ConnectRaised e =>
      print ("[FAIL] Unexpected error: " ++ e) ;;;
      io_ret false
  end.

Definition success_line : string :=
  nl ++ "[SUCCESS] All checks passed! Your ESP32 should be ready to receive commands.".

(** The summary of [main] (lines 165-207). *)
Definition summary (wifi_ok : option bool) (ping_ok port_ok tcp_ok : bool) : io unit :=
  print (str_mul "=" 80) ;;;
  print "DIAGNOSTIC SUMMARY" ;;;
  print (str_mul "=" 80) ;;;
  match wifi_ok with
  | Some false =>
      print "[FAIL] WiFi: Not connected to ESP32_AP" ;;;
      print "   -> Connect your laptop to 'ESP32_AP' WiFi (password: 12345678)"
  | Some true => print "[OK] WiFi: Connected to ESP32_AP"
  | None => print "[WARN] WiFi: Status unknown"
  end ;;;
  (if ping_ok then print "[OK] Network: ESP32 is reachable"
   else
     print "[FAIL] Network: ESP32 is not reachable" ;;;
     print "   -> Check WiFi connection" ;;;
     print "   -> Make sure ESP32 is powered on") ;;;
  (if port_ok then print "[OK] Port: Port 8000 is open"
   else
     print "[FAIL] Port: Port 8000 is closed or not accepting connections" ;;;
     print "   -> Make sure ESP32 firmware is uploaded" ;;;
     print "   -> Check Serial Monitor to see if server started" ;;;
     print "   -> Verify ESP32 is running the updated firmware (port 8000, JSON protocol)") ;;;
  (if tcp_ok then
     print "[OK] Connection: TCP connection successful" ;;;
     print success_line
   else
     print "[FAIL] Connection: TCP connection failed" ;;;
     print (nl ++ "[TROUBLESHOOTING] Steps to fix:") ;;;
     print "   1. Make sure ESP32 is powered on" ;;;
     print "   2. Connect laptop to 'ESP32_AP' WiFi network (password: 12345678)" ;;;
     print "   3. Upload the updated firmware to ESP32 using PlatformIO" ;;;
     print "   4. Check Serial Monitor (115200 baud) to verify:" ;;;
     print "      - 'AP IP address: 192.168.4.1'" ;;;
     print "      - 'TCP server started on port 8000'" ;;;
     print "   5. If using Windows Firewall, allow Python through firewall") ;;;
  print (str_mul "=" 80).

(** [main] (lines 137-207). *)
Definition main (w : world) : io unit :=
  print (str_mul "=" 80) ;;;
  print (str_mul " " 25 ++ "ESP32 CONNECTION DIAGNOSTICS") ;;;
  print (str_mul "=" 80) ;;;
  print EmptyString ;;;
  let host := "192.168.4.1" in
  let port := 8000%Z in
  print ("Target: " ++ host ++ ":" ++ str_of_Z port) ;;;
  print EmptyString ;;;
  wifi_ok <~ check_wifi_connection w "ESP32_AP" ;;
  print EmptyString ;;;
  ping_ok <~ ping_host w host 2 ;;
  print EmptyString ;;;
  port_ok <~ check_port w host port 3 ;;
  print EmptyString ;;;
  tcp_ok <~ test_tcp_connection w host port 5 ;;
  print EmptyString ;;;
  summary wifi_ok ping_ok port_ok tcp_ok.

End TestConnection.

(** The lines with which the summary of [test_connection.main] reports a
    passed check. *)
Definition verdict_lines : list string :=
  [TestConnection.success_line;
   "[OK] WiFi: Connected to ESP32_AP";
   "[OK] Network: ESP32 is reachable";
   "[OK] Port: Port 8000 is open";
   "[OK] Connection: TCP connection successful"].

(** The [ping] command line [ping_host] builds for a platform. *)
Definition ping_args (w : world) (host : string) (timeout : Z) : list string :=
  if String.eqb (platform_system w) "Windows"
  then ["ping"; "-n"; "1"; "-w"; str_of_Z (timeout * 1000); host]
  else ["ping"; "-c"; "1"; "-W"; str_of_Z timeout; host].

(** *** Worlds to run the scripts in *)

(** Nothing answers: every connection attempt is refused (errno 10061) and
    every command fails to start. *)
Definition dead_world : world :=
  {| platform_system := "Linux";
     subprocess_run := fun _ _ => RunRaised "No such file or directory";
     sock_connect_ex := fun _ _ _ => Errno 10061;
     sock_connect := fun _ _ _ => Refused |}.

(** A Linux laptop that reaches an ESP32 running the old firmware: port
    8080 accepts, port 8000 refuses (errno 111), ping answers. *)
Definition old_firmware_world : world :=
  {| platform_system := "Linux";
     subprocess_run := fun _ _ => Completed EmptyString 0;
     sock_connect_ex := fun _ port _ => if Z.eqb port 8080 then Errno 0 else Errno 111;
     sock_connect := fun _ port _ => if Z.eqb port 8080 then Connected else Refused |}.

(** A Windows laptop on another WiFi and without a route, but with
    something on the address that accepts TCP connections on port 8000. *)
Definition misleading_world : world :=
  {| platform_system := "Windows";
     subprocess_run := fun args _ =>
       match args with
       | "netsh" :: _ => Completed "SSID : HomeNetwork" 0
       | _ => Completed EmptyString 1
       end;
     sock_connect_ex := fun _ _ _ => Errno 10060;
     sock_connect := fun _ _ _ => Connected |}.

End Client.

(** ** Further notions used in the statements *)

(** The landmarks the code indexes by number: wrist, fingertips, MCPs. *)
Definition key_landmarks : list nat := [0; 4; 5; 8; 9; 12; 13; 16; 17; 20].

(** Position of the bounding-box area in a feature vector. *)
Definition area_index : nat := 13.

Section Scaling.
Context {F : Type} {SF : Scalar F}.

(** Every coordinate multiplied by [s]. *)
Definition scale (s : F) (ps : list (F * F)) : list (F * F) :=
  map (fun p => (f_mul s (fst p), f_mul s (snd p))) ps.

End Scaling.

Section ThreeCoordinates.
Context {F : Type} {SF : Scalar F}.

(** Points given with three coordinates each. *)
Definition to_points3 (ts : list (F * F * F)) : list (list F) :=
  map (fun t => [fst (fst t); snd (fst t); snd t]) ts.

Definition pt3 (ts : list (F * F * F)) (i : nat) : F * F * F :=
  nth i ts (f_zero, f_zero, f_zero).

Definition diff3 (a b : F * F * F) : list F :=
  [f_sub (fst (fst a)) (fst (fst b)); f_sub (snd (fst a)) (snd (fst b));
   f_sub (snd a) (snd b)].

(** The first two coordinates of each point. *)
Definition drop_depth (ts : list (F * F * F)) : list (F * F) := map fst ts.

End ThreeCoordinates.

(** [open_hand] with the depth [z] on every point but the wrist. *)
Definition open_hand_at_depth (z : float) : list (float * float * float) :=
  map (fun p => (p, 0%float)) (firstn 1 open_hand)
  ++ map (fun p => (p, z)) (skipn 1 open_hand).

(** The landmark set mirrored left to right, as for the other hand. *)
Definition flip_x (ps : list (R * R)) : list (R * R) :=
  map (fun p => (- fst p, snd p)%R) ps.

(** The number of samples [load_landmark_data] accepts from a file. *)
Definition loaded_count {F : Type} (label : Z) (data : dataset F) : nat :=
  ls_count (load_loop label data).

(** [row] is what the classifier's extractor returns on the points that
    the reshape of line 159 makes of the flattened vector [flat]. *)
Definition inference_row {F : Type} {SF : Scalar F} (flat row : list F) : Prop :=
  exists pts,
    pair_up flat = Ret pts /\ valid_points pts /\
    extract_features (PointList pts) = Ret (Some row).

(** [open_hand] as a MediaPipe object, every landmark at depth [z]. *)
Definition mediapipe_hand (z : float) : list (NormalizedLandmark float) :=
  map (fun p => {| lm_x := fst p; lm_y := snd p; lm_z := z |}) open_hand.

(** An estimator whose [predict_proba] returns no probability at all. *)
Definition silent_model : Model float :=
  {| model_predict := fun _ => 0%Z;
     model_predict_proba := Some (fun _ => []) |}.

(** Two MediaPipe landmarks with the same [x] and [y]. *)
Definition same_xy {F : Type} (a b : NormalizedLandmark F) : Prop :=
  lm_x a = lm_x b /\ lm_y a = lm_y b.

(** A hand like [open_hand] whose thumb joints 1 to 3 sit elsewhere. *)
Definition open_hand_bent_thumb : list (float * float) :=
  firstn 1 open_hand
  ++ [(0.45, 0.74); (0.40, 0.70); (0.38, 0.62)]%float
  ++ skipn 4 open_hand.

(** * Properties *)

(** ** Feature extraction: shape of the result *)

Section FeatureFacts.
Context {F : Type} {SF : Scalar F}.

Lemma to_points_length (ps : list (F * F)) : length (to_points ps) = length ps.
Proof. apply length_map. Qed.

Lemma to_points_valid (ps : list (F * F)) :
  length ps = 21 -> valid_points (to_points ps).
Proof.
  intros H. split.
  - now rewrite to_points_length.
  - unfold to_points. apply Forall_forall. intros p Hp.
    apply in_map_iff in Hp. destruct Hp as [q [<- _]]. reflexivity.
Qed.

Lemma two_coordinates_pairs (l : list (list F)) :
  Forall (fun p => length p = 2) l -> exists ps, l = to_points ps.
Proof.
  induction 1 as [|p l Hp _ [ps ->]].
  - now exists [].
  - destruct p as [|x [|y [|? ?]]]; try discriminate.
    now exists ((x, y) :: ps).
Qed.

Lemma valid_points_pairs (l : list (list F)) :
  valid_points l -> exists ps, length ps = 21 /\ l = to_points ps.
Proof.
  intros [Hlen Hall]. destruct (two_coordinates_pairs l Hall) as [ps ->].
  exists ps. split; [now rewrite <- to_points_length | reflexivity].
Qed.

Ltac unfold_extractor :=
  cbv - [max_loop min_loop np_norm np_dot np_mean
         f_add f_sub f_mul f_div f_eps f_zero].

Lemma extract_features_closed_form (ps : list (F * F)) :
  length ps = 21 ->
  extract_features (PointList (to_points ps)) = Ret (Some (feature_vector ps)).
Proof.
  intros H.
  do 21 (destruct ps as [|[? ?] ps]; [discriminate|]).
  destruct ps; [|discriminate].
  unfold_extractor. reflexivity.
Qed.

Lemma extract_advanced_features_closed_form (ps : list (F * F)) :
  length ps = 21 ->
  extract_advanced_features (to_points ps) = Ret (Some (feature_vector ps)).
Proof.
  intros H.
  do 21 (destruct ps as [|[? ?] ps]; [discriminate|]).
  destruct ps; [|discriminate].
  unfold_extractor. reflexivity.
Qed.

Lemma feature_vector_length (ps : list (F * F)) : length (feature_vector ps) = 24.
Proof. reflexivity. Qed.

Lemma wrong_length_none (l : list (list F)) :
  length l <> 21 -> extract_features (PointList l) = Ret None.
Proof.
  intros H. unfold extract_features.
  destruct (Nat.eqb_spec (length l) 21) as [E|E]; [contradiction | reflexivity].
Qed.

(** Rows that numpy accepts all have the length of the first one. *)
Lemma np_array_uniform (l l' : list (list F)) :
  np_array l = Ret l' ->
  l' = l /\ exists k, Forall (fun p => length p = k) l.
Proof.
  destruct l as [|r rest]; simpl.
  - intros [= <-]. split; [reflexivity | exists 0; constructor].
  - destruct (forallb _ rest) eqn:E; [|discriminate].
    intros [= <-]. split; [reflexivity|]. exists (length r).
    constructor; [reflexivity|].
    rewrite forallb_forall in E. apply Forall_forall. intros p Hp.
    now apply Nat.eqb_eq, E.
Qed.

Lemma np_array_ragged (l : list (list F)) :
  (exists l', np_array l = Ret l') \/ np_array l = Raise ValueError.
Proof.
  destruct l as [|r rest]; simpl; [left; now eexists|].
  destruct (forallb _ rest); [left; now eexists | now right].
Qed.

Lemma rows_of_length_0 (l : list (list F)) :
  Forall (fun p => length p = 0) l -> l = repeat [] (length l).
Proof.
  induction 1 as [|p l Hp _ IH]; [reflexivity|].
  destruct p; [|discriminate]. simpl. now rewrite <- IH.
Qed.

Lemma rows_of_length_1 (l : list (list F)) :
  Forall (fun p => length p = 1) l -> exists xs, l = map (fun x => [x]) xs.
Proof.
  induction 1 as [|p l Hp _ [xs ->]]; [now exists []|].
  destruct p as [|x [|? ?]]; try discriminate. now exists (x :: xs).
Qed.

(** 21 points of which one has fewer than two coordinates: [np.array]
    refuses ragged rows, and indexing refuses the missing coordinate. *)
Lemma short_point_raises (l : list (list F)) :
  length l = 21 -> Exists (fun p => length p < 2) l ->
  extract_features (PointList l) = Raise ValueError \/
  extract_features (PointList l) = Raise IndexError.
Proof.
  intros Hlen Hex.
  destruct (np_array_ragged l) as [[l' Hl']|Hr].
  - right. destruct (np_array_uniform l l' Hl') as [_ [k Hk]].
    assert (Hk2 : k < 2).
    { apply Exists_exists in Hex. destruct Hex as [p [Hp Hlt]].
      rewrite Forall_forall in Hk. rewrite <- (Hk p Hp). exact Hlt. }
    destruct k as [|[|k]]; [| |lia].
    + rewrite (rows_of_length_0 l Hk), Hlen. reflexivity.
    + destruct (rows_of_length_1 l Hk) as [xs ->].
      rewrite length_map in Hlen.
      do 21 (destruct xs as [|? xs]; [discriminate|]).
      destruct xs; [|discriminate].
      unfold_extractor. reflexivity.
  - left. unfold extract_features. rewrite Hlen. simpl Nat.eqb. cbv iota beta.
    simpl negb. cbv iota. rewrite Hr. reflexivity.
Qed.

End FeatureFacts.

(** C1 (amended).  On a valid landmark set (21 points of two coordinates)
    [extract_features] returns a vector of exactly 24 scalars.  On an input
    whose length differs from 21 it returns [None].  On 21 points of which
    one has fewer than two coordinates it returns neither a vector nor
    [None]: it raises [ValueError] or [IndexError].  A MediaPipe object
    with 21 landmarks gives 24 scalars, with any other number [None]. *)
Theorem extract_features_contract {F : Type} {SF : Scalar F} (l : list (list F)) :
  (valid_points l ->
   exists v, extract_features (PointList l) = Ret (Some v) /\ length v = 24) /\
  (length l <> 21 -> extract_features (PointList l) = Ret None) /\
  (length l = 21 -> Exists (fun p => length p < 2) l ->
   extract_features (PointList l) = Raise ValueError \/
   extract_features (PointList l) = Raise IndexError) /\
  (forall lms : list (NormalizedLandmark F),
     (length lms = 21 ->
      exists v, extract_features (HandLandmarks lms) = Ret (Some v) /\ length v = 24) /\
     (length lms <> 21 -> extract_features (HandLandmarks lms) = Ret None)).
Proof.
  split; [|split; [|split]].
  - intros Hv. destruct (valid_points_pairs l Hv) as [ps [Hlen ->]].
    exists (feature_vector ps). split.
    + now apply extract_features_closed_form.
    + apply feature_vector_length.
  - apply wrong_length_none.
  - apply short_point_raises.
  - intros lms.
    assert (E : extract_features (HandLandmarks lms)
                = extract_features
                    (PointList (to_points (map (fun lm => (lm_x lm, lm_y lm)) lms)))).
    { unfold extract_features, to_points. rewrite map_map. reflexivity. }
    rewrite E. split; intros H.
    + exists (feature_vector (map (fun lm => (lm_x lm, lm_y lm)) lms)). split.
      * apply extract_features_closed_form. now rewrite length_map.
      * apply feature_vector_length.
    + apply wrong_length_none. now rewrite to_points_length, length_map.
Qed.

Lemma extract_features_contract_witness :
  (exists v, extract_features (PointList (to_points open_hand)) = Ret (Some v)
             /\ length v = 24) /\
  extract_features (PointList (to_points (firstn 20 open_hand))) = Ret None /\
  (extract_features (PointList one_coordinate_points) = Raise ValueError \/
   extract_features (PointList one_coordinate_points) = Raise IndexError).
Proof.
  split; [|split].
  - apply (proj1 (extract_features_contract (to_points open_hand))).
    split; [reflexivity | repeat constructor].
  - apply (proj1 (proj2 (extract_features_contract (to_points (firstn 20 open_hand))))).
    simpl. lia.
  - apply (proj1 (proj2 (proj2 (extract_features_contract one_coordinate_points)))).
    + reflexivity.
    + apply Exists_cons_hd. simpl. lia.
Defined.

(** C1 as stated fails twice: a valid landmark set gives 24 scalars, not 21,
    and 21 one-coordinate points make the function raise [IndexError]
    instead of returning [None]. *)
Lemma extract_features_not_21_nor_none :
  (valid_points (to_points open_hand) /\
   exists v, extract_features (PointList (to_points open_hand)) = Ret (Some v)
             /\ length v = 24 /\ length v <> 21) /\
  (length one_coordinate_points = 21 /\
   Forall (fun p => length p < 2) one_coordinate_points /\
   extract_features (PointList one_coordinate_points) = Raise IndexError /\
   extract_features (PointList one_coordinate_points) <> Ret None).
Proof.
  split.
  - split; [split; [reflexivity | repeat constructor]|].
    eexists. split; [vm_compute; reflexivity|]. split; [reflexivity | discriminate].
  - split; [reflexivity|]. split; [repeat constructor|].
    split; [vm_compute; reflexivity | vm_compute; discriminate].
Qed.

(** C9.  The training script's [extract_advanced_features] and the
    classifier's [extract_features] have the same outcome on every list of
    points: the same values in the same order on valid input, and the same
    [None] or exception otherwise.  A MediaPipe object is first turned into
    the list of its [x, y] pairs. *)
Theorem training_and_inference_features_agree {F : Type} {SF : Scalar F} :
  (forall l : list (list F),
     extract_advanced_features l = extract_features (PointList l)) /\
  (forall lms : list (NormalizedLandmark F),
     extract_features (HandLandmarks lms)
     = extract_advanced_features (map (fun lm => [lm_x lm; lm_y lm]) lms)) /\
  (forall ps : list (F * F), length ps = 21 ->
     extract_advanced_features (to_points ps) = Ret (Some (feature_vector ps)) /\
     extract_features (PointList (to_points ps)) = Ret (Some (feature_vector ps))).
Proof.
  assert (E : forall l : list (list F),
             extract_advanced_features l = extract_features (PointList l)).
  { intros l. unfold extract_advanced_features, extract_features. reflexivity. }
  split; [exact E|]. split.
  - intros lms. rewrite E. reflexivity.
  - intros ps H. split.
    + now apply extract_advanced_features_closed_form.
    + now apply extract_features_closed_form.
Qed.

Lemma training_and_inference_features_agree_witness :
  extract_advanced_features (to_points closed_fist)
    = Ret (Some (feature_vector closed_fist)) /\
  extract_features (PointList (to_points closed_fist))
    = Ret (Some (feature_vector closed_fist)).
Proof.
  apply (proj2 (proj2 training_and_inference_features_agree) closed_fist).
  reflexivity.
Defined.

(** ** Translated landmark sets *)

Section TranslationFacts.
Context {F : Type} {SF : Scalar F}.

Lemma combine_fst (xs xs' : list F) :
  length xs' = length xs -> map fst (combine xs xs') = xs.
Proof.
  revert xs'. induction xs as [|x xs IH]; intros [|x' xs'] H; try discriminate H.
  - reflexivity.
  - cbn. f_equal. apply IH. now injection H.
Qed.

Lemma combine_snd (xs xs' : list F) :
  length xs' = length xs -> map snd (combine xs xs') = xs'.
Proof.
  revert xs'. induction xs as [|x xs IH]; intros [|x' xs'] H; try discriminate H.
  - reflexivity.
  - cbn. f_equal. apply IH. now injection H.
Qed.

(** On coordinates that compare alike before and after, [max] and [min]
    pick the same position. *)
Lemma max_loop_pairs (S : list (F * F)) :
  (forall p q, In p S -> In q S -> f_ltb (snd p) (snd q) = f_ltb (fst p) (fst q)) ->
  forall (r : list (F * F)) (b : F * F), In b S -> incl r S ->
    exists p, In p S /\
              max_loop (fst b) (map fst r) = fst p /\
              max_loop (snd b) (map snd r) = snd p.
Proof.
  intros HS. induction r as [|c r IH]; intros b Hb Hr.
  - exists b. now repeat split.
  - assert (Hc : In c S) by (apply Hr; now left).
    assert (Hr' : incl r S) by (intros x Hx; apply Hr; now right).
    cbn [map max_loop]. rewrite (HS b c Hb Hc).
    destruct (f_ltb (fst b) (fst c)); now apply IH.
Qed.

Lemma min_loop_pairs (S : list (F * F)) :
  (forall p q, In p S -> In q S -> f_ltb (snd p) (snd q) = f_ltb (fst p) (fst q)) ->
  forall (r : list (F * F)) (b : F * F), In b S -> incl r S ->
    exists p, In p S /\
              min_loop (fst b) (map fst r) = fst p /\
              min_loop (snd b) (map snd r) = snd p.
Proof.
  intros HS. induction r as [|c r IH]; intros b Hb Hr.
  - exists b. now repeat split.
  - assert (Hc : In c S) by (apply Hr; now left).
    assert (Hr' : incl r S) by (intros x Hx; apply Hr; now right).
    cbn [map min_loop]. rewrite (HS c b Hc Hb).
    destruct (f_ltb (fst c) (fst b)); now apply IH.
Qed.

Lemma same_differences_pairs (xs xs' : list F) :
  same_differences xs xs' ->
  forall p q, In p (combine xs xs') -> In q (combine xs xs') ->
    f_sub (snd p) (snd q) = f_sub (fst p) (fst q) /\
    f_ltb (snd p) (snd q) = f_ltb (fst p) (fst q).
Proof.
  intros [_ H] p q Hp Hq. rewrite Forall_forall in H.
  specialize (H p Hp). rewrite Forall_forall in H. now apply H.
Qed.

Lemma spread_same_differences (xs xs' : list F) :
  same_differences xs xs' -> spread xs' = spread xs.
Proof.
  intros H. pose proof (same_differences_pairs xs xs' H) as HS.
  destruct H as [Hlen _].
  pose proof (combine_fst xs xs' Hlen) as Ef.
  pose proof (combine_snd xs xs' Hlen) as Es.
  destruct (combine xs xs') as [|b r] eqn:EC.
  - cbn in Ef, Es. now subst xs xs'.
  - cbn [map] in Ef, Es. subst xs xs'. unfold spread, max_of, min_of.
    assert (Hb : In b (b :: r)) by now left.
    assert (Hr : incl r (b :: r)) by (intros x Hx; now right).
    destruct (max_loop_pairs (b :: r) (fun p q Hp Hq => proj2 (HS p q Hp Hq)) r b Hb Hr)
      as [p [Hp [P1 P2]]].
    destruct (min_loop_pairs (b :: r) (fun p q Hp Hq => proj2 (HS p q Hp Hq)) r b Hb Hr)
      as [q [Hq [Q1 Q2]]].
    rewrite P1, P2, Q1, Q2. apply (HS p q Hp Hq).
Qed.

Lemma same_differences_nth (xs xs' : list F) (i j : nat) (d : F) :
  same_differences xs xs' -> i < length xs -> j < length xs ->
  f_sub (nth i xs' d) (nth j xs' d) = f_sub (nth i xs d) (nth j xs d) /\
  f_ltb (nth i xs' d) (nth j xs' d) = f_ltb (nth i xs d) (nth j xs d).
Proof.
  intros H Hi Hj. pose proof (same_differences_pairs xs xs' H) as HS.
  destruct H as [Hlen _].
  assert (Hin : forall k, k < length xs ->
                          In (nth k xs d, nth k xs' d) (combine xs xs')).
  { intros k Hk. rewrite <- combine_nth by (symmetry; exact Hlen).
    apply nth_In. rewrite length_combine, Hlen. lia. }
  apply (HS _ _ (Hin i Hi) (Hin j Hj)).
Qed.

(** Coordinates of landmarks of a translated set, by position. *)
Lemma translated_pt (ps ps' : list (F * F)) (i j : nat) :
  translated ps ps' -> i < length ps -> j < length ps ->
  (f_sub (fst (pt ps' i)) (fst (pt ps' j)) = f_sub (fst (pt ps i)) (fst (pt ps j)) /\
   f_ltb (fst (pt ps' i)) (fst (pt ps' j)) = f_ltb (fst (pt ps i)) (fst (pt ps j))) /\
  (f_sub (snd (pt ps' i)) (snd (pt ps' j)) = f_sub (snd (pt ps i)) (snd (pt ps j)) /\
   f_ltb (snd (pt ps' i)) (snd (pt ps' j)) = f_ltb (snd (pt ps i)) (snd (pt ps j))).
Proof.
  intros [Hx Hy] Hi Hj. unfold pt.
  rewrite <- !(map_nth fst), <- !(map_nth snd). cbn [fst snd].
  split; apply same_differences_nth; try assumption; now rewrite length_map.
Qed.

Lemma translated_diff (ps ps' : list (F * F)) (i j : nat) :
  translated ps ps' -> i < length ps -> j < length ps ->
  diff (pt ps' i) (pt ps' j) = diff (pt ps i) (pt ps j).
Proof.
  intros H Hi Hj. destruct (translated_pt ps ps' i j H Hi Hj) as [[Hx _] [Hy _]].
  unfold diff. now rewrite Hx, Hy.
Qed.

Lemma translated_length (ps ps' : list (F * F)) :
  translated ps ps' -> length ps' = length ps.
Proof. intros [[H _] _]. now rewrite !length_map in H. Qed.

Lemma feature_vector_translated (ps ps' : list (F * F)) :
  length ps = 21 -> translated ps ps' -> feature_vector ps' = feature_vector ps.
Proof.
  intros Hlen H.
  assert (D : forall i j, i < 21 -> j < 21 ->
                          diff (pt ps' i) (pt ps' j) = diff (pt ps i) (pt ps j)).
  { intros i j Hi Hj. apply translated_diff; [exact H | lia | lia]. }
  assert (P : forall i j, i < 21 -> j < 21 -> _) by
    (intros i j Hi Hj; apply (translated_pt ps ps' i j H); lia).
  assert (Tx : spread (map fst (tips_of ps')) = spread (map fst (tips_of ps))).
  { apply spread_same_differences. split; [reflexivity|].
    cbn [tips_of map combine]. repeat apply Forall_cons; try apply Forall_nil;
      cbn [fst snd]; apply P; lia. }
  assert (Ty : spread (map snd (tips_of ps')) = spread (map snd (tips_of ps))).
  { apply spread_same_differences. split; [reflexivity|].
    cbn [tips_of map combine]. repeat apply Forall_cons; try apply Forall_nil;
      cbn [fst snd]; apply P; lia. }
  destruct H as [Hx Hy].
  unfold feature_vector, dist, cos_angle.
  rewrite Tx, Ty, (spread_same_differences _ _ Hx), (spread_same_differences _ _ Hy).
  unfold tips_of. cbn [map].
  rewrite !D by lia. reflexivity.
Qed.

End TranslationFacts.

(** ** Feature extraction in exact arithmetic *)

Section ExactArithmetic.
Local Open Scope R_scope.

Ltac real_ops :=
  change (@f_add R R_scalar) with Rplus in *;
  change (@f_sub R R_scalar) with Rminus in *;
  change (@f_mul R R_scalar) with Rmult in *;
  change (@f_div R R_scalar) with Rdiv in *;
  change (@f_sqrt R R_scalar) with R_sqrt.sqrt in *;
  change (@f_ltb R R_scalar) with Rltb in *;
  change (@f_leb R R_scalar) with Rleb in *;
  change (@f_zero R R_scalar) with 0 in *;
  change (@f_one R R_scalar) with 1 in *;
  change (@f_eps R R_scalar) with (/ 1000000) in *.

Lemma Rltb_shift (a b d : R) : Rltb (a + d) (b + d) = Rltb a b.
Proof.
  unfold Rltb. destruct (Rlt_dec (a + d) (b + d)), (Rlt_dec a b);
    try reflexivity; lra.
Qed.

Lemma nth_map_in_range {A B : Type} (f : A -> B) (l : list A) (i : nat) (d : B) (d' : A) :
  (i < length l)%nat -> nth i (map f l) d = f (nth i l d').
Proof.
  revert i. induction l as [|a l IH]; intros [|i] H; simpl in *; try lia.
  - reflexivity.
  - apply IH. lia.
Qed.

Lemma in_combine_map {A B : Type} (f : A -> B) (l : list A) (p : A * B) :
  In p (combine l (map f l)) -> snd p = f (fst p).
Proof.
  induction l as [|a l IH]; cbn [map combine]; intros H; [contradiction|].
  destruct H as [<-|H]; [reflexivity | now apply IH].
Qed.

Lemma same_differences_shift (d : R) (xs : list R) :
  same_differences xs (map (fun x => x + d) xs).
Proof.
  split; [apply length_map|].
  apply Forall_forall. intros p Hp. apply Forall_forall. intros q Hq.
  rewrite (in_combine_map _ _ _ Hp), (in_combine_map _ _ _ Hq). real_ops.
  split; [lra | apply Rltb_shift].
Qed.

(** In exact arithmetic every offset gives a translated set. *)
Lemma translate_translated (dx dy : R) (ps : list (R * R)) :
  translated ps (translate dx dy ps).
Proof.
  unfold translated, translate. rewrite !map_map. cbn [fst snd].
  rewrite <- (map_map fst (fun x => x + dx)), <- (map_map snd (fun y => y + dy)).
  split; apply same_differences_shift.
Qed.

Lemma np_norm_pair (x y : R) : np_norm [x; y] = R_sqrt.sqrt (x * x + y * y).
Proof.
  unfold np_norm, np_dot, f_sum. cbn [zip_with fold_left]. real_ops.
  f_equal. lra.
Qed.

Lemma np_dot_pair (x y x' y' : R) : np_dot [x; y] [x'; y'] = x * x' + y * y'.
Proof.
  unfold np_dot, f_sum. cbn [zip_with fold_left]. real_ops. lra.
Qed.





End ExactArithmetic.

(** The binary64 sums of the grid coordinates and the offset are the moved
    coordinates: no sum rounds. *)
Example grid_hand_moved_is_exact :
  map (fun p => (PrimFloat.add (fst p) 0.375, PrimFloat.add (snd p) 0.125)) grid_hand
  = grid_hand_moved.
Proof. vm_compute. reflexivity. Qed.

(** C5.  Feature extraction is translation-invariant.  For any arithmetic
    (binary64 included): when a valid landmark set is moved so that the
    coordinate differences and comparisons between its landmarks are kept,
    as they are by a translation by a constant offset, the extracted feature
    vector is the same, in every wrist-relative and inter-point distance
    feature and in the spreads, cosines and area too.  In exact arithmetic
    every offset [(dx, dy)] moves the set in this way, so that the features
    of the translate are those of the set. *)
Theorem translation_invariance :
  (forall (F : Type) (SF : Scalar F) (ps ps' : list (F * F)),
     length ps = 21 -> translated ps ps' ->
     valid_points (to_points ps') /\
     extract_features (PointList (to_points ps'))
     = extract_features (PointList (to_points ps))) /\
  (forall (dx dy : R) (ps : list (R * R)),
     translated ps (translate dx dy ps) /\
     (length ps = 21 ->
      extract_features (PointList (to_points (translate dx dy ps)))
      = extract_features (PointList (to_points ps)))).
Proof.
  assert (G : forall (F : Type) (SF : Scalar F) (ps ps' : list (F * F)),
             length ps = 21 -> translated ps ps' ->
             valid_points (to_points ps') /\
             extract_features (PointList (to_points ps'))
             = extract_features (PointList (to_points ps))).
  { intros F SF ps ps' Hlen H.
    assert (Hlen' : length ps' = 21) by (now rewrite (translated_length ps ps' H)).
    split; [now apply to_points_valid|].
    rewrite !extract_features_closed_form by assumption.
    now rewrite (feature_vector_translated ps ps' Hlen H). }
  split; [exact G|].
  intros dx dy ps. pose proof (translate_translated dx dy ps) as H.
  split; [exact H|]. intros Hlen. now apply G.
Qed.

Lemma translation_invariance_witness :
  extract_features (PointList (to_points grid_hand_moved))
  = extract_features (PointList (to_points grid_hand)) /\
  extract_features (PointList (to_points (translate 0.3%R 0%R exact_hand)))
  = extract_features (PointList (to_points exact_hand)).
Proof.
  split.
  - apply (proj1 translation_invariance float float_scalar grid_hand grid_hand_moved).
    + reflexivity.
    + split; (split; [reflexivity|]);
        repeat apply Forall_cons; try apply Forall_nil; split; reflexivity.
  - apply (proj2 translation_invariance 0.3%R 0%R exact_hand). reflexivity.
Defined.

(** On binary64, another exact translate of the grid hand, by (64, -32):
    the same features again. *)
Example translation_invariance_far_offset :
  extract_features
    (PointList (to_points
       (map (fun p => (PrimFloat.add (fst p) 64, PrimFloat.sub (snd p) 32)) grid_hand)))
  = extract_features (PointList (to_points grid_hand)).
Proof. vm_compute. reflexivity. Qed.

(** ** The cosines on binary64 *)






(** The bound of exact arithmetic is not one of binary64: with MCP vectors
    of length 300000 the epsilon is absorbed by the product of the norms
    and the cosine of two equal vectors is exactly 1. *)
Example cosine_one_when_epsilon_absorbed :
  exists v,
    extract_features (PointList (to_points far_mcps)) = Ret (Some v) /\
    cosine_features v = [1; 1; 1]%float /\
    cosine_denominator (pt far_mcps 0) (pt far_mcps 5) (pt far_mcps 9)
    = 90000000000%float.
Proof.
  eexists. split; [vm_compute; reflexivity|]. split; vm_compute; reflexivity.
Qed.

(** ** The classifier wrapper *)


Lemma max_loop_upper (r : list R) (b : R) :
  (b <= max_loop b r)%R /\ Forall (fun x => (x <= max_loop b r)%R) r.
Proof.
  revert b. induction r as [|x r IH]; intros b; cbn [max_loop].
  - split; [lra | constructor].
  - destruct (IH (if f_ltb b x then x else b)) as [Hb Hr].
    change (@f_ltb R R_scalar) with Rltb in *. unfold Rltb in *.
    destruct (Rlt_dec b x); (split; [|constructor; [|exact Hr]]); lra.
Qed.

(** On binary64: the fist is classified closed, the open hand open, and a
    model without [predict_proba] gives the confidence 1. *)
Example predict_closed_fist :
  predict {| gc_model := Some toy_model; gc_metadata := None |}
          (PointList (to_points closed_fist))
  = Ret (Some {| is_closed := true; confidence := 1%float;
                 raw_value := 0%float; probabilities := None |}).
Proof. vm_compute. reflexivity. Qed.

Example predict_open_hand :
  predict {| gc_model := Some toy_model; gc_metadata := None |}
          (PointList (to_points open_hand))
  = Ret (Some {| is_closed := false; confidence := 1%float;
                 raw_value := 1%float; probabilities := None |}).
Proof. vm_compute. reflexivity. Qed.



(** C3 (amended).  A classifier constructed where the model file is missing
    or cannot be loaded is not available, and its [predict] returns [None]
    on every input without raising.  With a model loaded, [predict] returns
    [None] whenever feature extraction reports failure by returning [None],
    as it does for every input whose length is not 21.  When extraction
    fails by raising, on 21 points of which one has fewer than two
    coordinates, [predict] does not return [None]: the exception
    ([ValueError] or [IndexError]) leaves it. *)
Theorem predict_without_model_or_features {F : Type} {SF : Scalar F} :
  (forall (fs : string -> model_files F) (model_path : option string),
     pkl (fs (resolve_model_path model_path)) = Missing \/
     pkl (fs (resolve_model_path model_path)) = Unreadable ->
     is_available (GripClassifier_init fs model_path) = false /\
     forall landmarks, predict (GripClassifier_init fs model_path) landmarks = Ret None) /\
  (forall (self : GripClassifier F) (landmarks : landmarks_arg F),
     extract_features landmarks = Ret None -> predict self landmarks = Ret None) /\
  (forall (self : GripClassifier F) (l : list (list F)),
     length l <> 21 -> predict self (PointList l) = Ret None) /\
  (forall (self : GripClassifier F) (model : Model F) (l : list (list F)),
     gc_model self = Some model ->
     length l = 21 -> Exists (fun p => length p < 2) l ->
     (extract_features (PointList l) = Raise ValueError /\
      predict self (PointList l) = Raise ValueError) \/
     (extract_features (PointList l) = Raise IndexError /\
      predict self (PointList l) = Raise IndexError)).
Proof.
  assert (P2 : forall (self : GripClassifier F) (landmarks : landmarks_arg F),
             extract_features landmarks = Ret None -> predict self landmarks = Ret None).
  { intros self landmarks H. unfold predict. rewrite H.
    now destruct (gc_model self). }
  split; [|split; [exact P2|split]].
  - intros fs model_path H. unfold GripClassifier_init.
    destruct H as [H|H]; rewrite H; split; reflexivity.
  - intros self l H. apply P2. now apply wrong_length_none.
  - intros self model l Hm Hlen Hex. unfold predict. rewrite Hm.
    destruct (short_point_raises l Hlen Hex) as [H|H]; rewrite H;
      [left | right]; split; reflexivity.
Qed.

Lemma predict_without_model_or_features_witness :
  (is_available (GripClassifier_init empty_disk None) = false /\
   forall landmarks, predict (GripClassifier_init empty_disk None) landmarks = Ret None) /\
  predict {| gc_model := Some toy_model; gc_metadata := None |}
          (PointList (to_points (firstn 20 open_hand))) = Ret None /\
  ((extract_features (PointList hand_with_short_point) = Raise ValueError /\
    predict {| gc_model := Some toy_model; gc_metadata := None |}
            (PointList hand_with_short_point) = Raise ValueError) \/
   (extract_features (PointList hand_with_short_point) = Raise IndexError /\
    predict {| gc_model := Some toy_model; gc_metadata := None |}
            (PointList hand_with_short_point) = Raise IndexError)).
Proof.
  split; [|split].
  - apply (proj1 predict_without_model_or_features empty_disk None).
    left. reflexivity.
  - apply (proj1 (proj2 (proj2 predict_without_model_or_features))).
    simpl. lia.
  - apply (proj2 (proj2 (proj2 predict_without_model_or_features))
             {| gc_model := Some toy_model; gc_metadata := None |} toy_model
             hand_with_short_point).
    + reflexivity.
    + reflexivity.
    + apply Exists_cons_hd. simpl. lia.
Defined.

(** C3 as stated fails in its second half: feature extraction can fail by
    raising, and then [predict] has no empty result to return.  With a model
    loaded and 21 points of which the first has a single coordinate,
    [np.array] refuses the ragged rows and [predict] raises [ValueError];
    with 21 one-coordinate points indexing fails and it raises
    [IndexError]. *)
Lemma predict_raises_when_extraction_raises :
  is_available {| gc_model := Some toy_model; gc_metadata := None |} = true /\
  length hand_with_short_point = 21 /\
  extract_features (PointList hand_with_short_point) = Raise ValueError /\
  predict {| gc_model := Some toy_model; gc_metadata := None |}
          (PointList hand_with_short_point) = Raise ValueError /\
  predict {| gc_model := Some toy_model; gc_metadata := None |}
          (PointList hand_with_short_point) <> Ret None /\
  length one_coordinate_points = 21 /\
  predict {| gc_model := Some toy_model; gc_metadata := None |}
          (PointList one_coordinate_points) = Raise IndexError.
Proof.
  split; [reflexivity|]. split; [reflexivity|].
  split; [vm_compute; reflexivity|]. split; [vm_compute; reflexivity|].
  split; [vm_compute; discriminate|]. split; [reflexivity | vm_compute; reflexivity].
Qed.

(** ** The dataset loader *)

Section LoaderFacts.
Context {F : Type}.

Lemma load_step_malformed (label : Z) (st : load_state F) (id : string)
  (r : sample_data F) :
  malformed r -> load_step label st (id, r) = st.
Proof.
  unfold malformed, load_step. cbn [snd].
  destruct (sd_landmarks r) as [[|h others]|]; try reflexivity.
  intros H. now destruct (Nat.eqb_spec (length h) 21).
Qed.

Lemma flatten_points_length (landmarks : list (list F)) :
  length (flatten_points landmarks) <= 2 * length landmarks.
Proof.
  induction landmarks as [|p l IH]; [simpl; lia|].
  change (flatten_points (p :: l))
    with (match p with x :: y :: _ => [x; y] | _ => [] end ++ flatten_points l).
  rewrite length_app. destruct p as [|x [|y ?]]; simpl in *; lia.
Qed.

Lemma flatten_points_full (landmarks : list (list F)) :
  Forall (fun point => 2 <= length point) landmarks ->
  flatten_points landmarks = flat_map (firstn 2) landmarks /\
  length (flatten_points landmarks) = 2 * length landmarks.
Proof.
  induction 1 as [|p l Hp _ [IH1 IH2]]; [split; reflexivity|].
  change (flatten_points (p :: l))
    with (match p with x :: y :: _ => [x; y] | _ => [] end ++ flatten_points l).
  destruct p as [|x [|y ?]]; simpl in Hp; try lia.
  split.
  - cbn [flat_map firstn]. now rewrite IH1.
  - rewrite length_app, IH2. simpl. lia.
Qed.

Lemma flatten_points_short (landmarks : list (list F)) :
  Exists (fun point => length point < 2) landmarks ->
  length (flatten_points landmarks) < 2 * length landmarks.
Proof.
  induction 1 as [p l Hp|p l _ IH].
  - change (flatten_points (p :: l))
      with (match p with x :: y :: _ => [x; y] | _ => [] end ++ flatten_points l).
    pose proof (flatten_points_length l).
    rewrite length_app. destruct p as [|x [|y ?]]; simpl in *; lia.
  - change (flatten_points (p :: l))
      with (match p with x :: y :: _ => [x; y] | _ => [] end ++ flatten_points l).
    rewrite length_app. destruct p as [|x [|y ?]]; simpl in *; lia.
Qed.

Lemma load_step_well_formed (label : Z) (st : load_state F) (id : string)
  (landmarks : list (list F)) (others : list (list (list F))) :
  well_formed_hand landmarks ->
  load_step label st (id, {| sd_landmarks := Some (landmarks :: others) |})
  = {| ls_features := ls_features st ++ [flatten_points landmarks];
       ls_labels := ls_labels st ++ [label];
       ls_count := ls_count st + 1 |}.
Proof.
  intros [Hlen Hall]. unfold load_step. cbn [snd sd_landmarks].
  rewrite Hlen. destruct (flatten_points_full landmarks Hall) as [_ H42].
  rewrite H42, Hlen. reflexivity.
Qed.

Lemma load_step_short_point (label : Z) (st : load_state F) (id : string)
  (landmarks : list (list F)) (others : list (list (list F))) :
  length landmarks = 21 ->
  Exists (fun point => length point < 2) landmarks ->
  load_step label st (id, {| sd_landmarks := Some (landmarks :: others) |}) = st.
Proof.
  intros Hlen Hex. unfold load_step. cbn [snd sd_landmarks].
  rewrite Hlen. pose proof (flatten_points_short landmarks Hex) as H.
  rewrite Hlen in H. cbn [Nat.eqb].
  destruct (Nat.eqb_spec (length (flatten_points landmarks)) 42); [lia | reflexivity].
Qed.

Lemma state_append_empty (st : load_state F) : state_append st empty_state = st.
Proof.
  destruct st. unfold state_append, empty_state. cbn.
  now rewrite !app_nil_r, Nat.add_0_r.
Qed.

Lemma state_append_assoc (a b c : load_state F) :
  state_append (state_append a b) c = state_append a (state_append b c).
Proof.
  unfold state_append. cbn. now rewrite !app_assoc, Nat.add_assoc.
Qed.

(** One iteration only ever appends, and what it appends does not depend on
    the state it starts from. *)
Lemma load_step_append (label : Z) (st : load_state F) (item : string * sample_data F) :
  load_step label st item = state_append st (load_step label empty_state item).
Proof.
  unfold load_step.
  destruct (sd_landmarks (snd item)) as [[|h others]|];
    try (now rewrite state_append_empty).
  destruct (Nat.eqb (length h) 21); [|now rewrite state_append_empty].
  destruct (Nat.eqb (length (flatten_points h)) 42); [|now rewrite state_append_empty].
  reflexivity.
Qed.

Lemma load_fold_append (label : Z) (data : dataset F) (st : load_state F) :
  fold_left (load_step label) data st = state_append st (load_loop label data).
Proof.
  unfold load_loop. revert st.
  induction data as [|item data IH]; intros st; cbn [fold_left].
  - now rewrite state_append_empty.
  - rewrite (IH (load_step label st item)), (IH (load_step label empty_state item)).
    rewrite <- state_append_assoc. f_equal. apply load_step_append.
Qed.

Lemma load_loop_cons (label : Z) (item : string * sample_data F) (data : dataset F) :
  load_loop label (item :: data)
  = state_append (load_step label empty_state item) (load_loop label data).
Proof. unfold load_loop at 1. cbn [fold_left]. apply load_fold_append. Qed.

Lemma load_loop_app (label : Z) (d1 d2 : dataset F) :
  load_loop label (d1 ++ d2) = state_append (load_loop label d1) (load_loop label d2).
Proof.
  unfold load_loop at 1. rewrite fold_left_app. apply load_fold_append.
Qed.

Lemma load_step_invariant (label : Z) (st : load_state F) (item : string * sample_data F) :
  load_invariant label st -> load_invariant label (load_step label st item).
Proof.
  intros (H1 & H2 & H3 & H4). unfold load_step.
  destruct (sd_landmarks (snd item)) as [[|h others]|]; try (now repeat split).
  destruct (Nat.eqb (length h) 21); [|now repeat split].
  destruct (Nat.eqb_spec (length (flatten_points h)) 42) as [E|E]; [|now repeat split].
  unfold load_invariant. cbn [ls_features ls_labels ls_count].
  rewrite !length_app. cbn [length]. repeat split.
  - apply Forall_app. split; [exact H1 | now constructor].
  - lia.
  - apply Forall_app. split; [exact H3 | now constructor].
  - lia.
Qed.

Lemma load_loop_invariant (label : Z) (data : dataset F) :
  load_invariant label (load_loop label data).
Proof.
  unfold load_loop.
  assert (G : forall st, load_invariant label st ->
                         load_invariant label (fold_left (load_step label) data st)).
  { induction data as [|item data IH]; intros st Hst; [exact Hst|].
    cbn [fold_left]. apply IH. now apply load_step_invariant. }
  apply G. repeat split; constructor.
Qed.

Lemma well_formed_handb_spec (landmarks : list (list F)) :
  well_formed_handb landmarks = true <-> well_formed_hand landmarks.
Proof.
  unfold well_formed_handb, well_formed_hand.
  rewrite andb_true_iff, Nat.eqb_eq, forallb_forall, Forall_forall.
  split; intros [H1 H2]; (split; [exact H1|]); intros p Hp.
  - now apply Nat.leb_le, H2.
  - now apply Nat.leb_le, H2.
Qed.

Lemma not_well_formed_short (landmarks : list (list F)) :
  length landmarks = 21 -> well_formed_handb landmarks = false ->
  Exists (fun point => length point < 2) landmarks.
Proof.
  intros Hlen H. unfold well_formed_handb in H.
  rewrite Hlen in H. cbn [Nat.eqb andb] in H.
  induction landmarks as [|p l IH] in H |- *; [discriminate H|].
  cbn [forallb] in H. destruct (Nat.leb_spec 2 (length p)) as [L|L].
  - apply Exists_cons_tl. now apply IH.
  - now apply Exists_cons_hd.
Qed.

(** One iteration from the empty state adds the kept hand of the record,
    if any. *)
Lemma load_step_kept (label : Z) (item : string * sample_data F) :
  load_step label empty_state item
  = {| ls_features := map (flat_map (firstn 2)) (kept_hands [item]);
       ls_labels := repeat label (length (kept_hands [item]));
       ls_count := length (kept_hands [item]) |}.
Proof.
  destruct item as [id [lms]]. unfold kept_hands, first_hand.
  cbn [flat_map snd sd_landmarks]. rewrite app_nil_r.
  destruct lms as [[|h others]|]; try reflexivity.
  destruct (well_formed_handb h) eqn:E.
  - apply well_formed_handb_spec in E.
    rewrite (load_step_well_formed label empty_state id h others E).
    destruct E as [_ E]. now rewrite (proj1 (flatten_points_full h E)).
  - destruct (Nat.eq_dec (length h) 21) as [L|L].
    + apply (load_step_short_point label empty_state id h others L).
      now apply not_well_formed_short.
    + apply load_step_malformed. exact L.
Qed.

Lemma kept_hands_app (d1 d2 : dataset F) :
  kept_hands (d1 ++ d2) = kept_hands d1 ++ kept_hands d2.
Proof. apply flat_map_app. Qed.

(** The loop keeps exactly the kept hands, cut to two coordinates a point. *)
Lemma load_loop_kept (label : Z) (data : dataset F) :
  load_loop label data
  = {| ls_features := map (flat_map (firstn 2)) (kept_hands data);
       ls_labels := repeat label (length (kept_hands data));
       ls_count := length (kept_hands data) |}.
Proof.
  induction data as [|item data IH]; [reflexivity|].
  rewrite load_loop_cons, load_step_kept, IH.
  change (item :: data) with ([item] ++ data). rewrite kept_hands_app.
  unfold state_append. cbn [ls_features ls_labels ls_count].
  now rewrite map_app, length_app, repeat_app.
Qed.

End LoaderFacts.

(** C7 (amended).  The loader uses only the first detected hand of a
    record.  A record with no ['landmarks'] key, with zero detected hands,
    or whose first hand does not have exactly 21 landmarks is passed over
    without aborting the load: the returned lists and the printed report are
    the same as if the record were not there.  The only count reported is
    the number of loaded samples; a record with a well-formed first hand
    adds its flattened vector and raises that count by exactly one. *)
Theorem loader_policy {F : Type} (json_file_path : string) (label : Z)
  (d1 d2 : dataset F) (id : string) :
  (forall r : sample_data F, malformed r ->
     load_landmark_data json_file_path (d1 ++ (id, r) :: d2) label
     = load_landmark_data json_file_path (d1 ++ d2) label) /\
  (forall (landmarks : list (list F)) (others : list (list (list F))),
     load_landmark_data json_file_path
       (d1 ++ (id, {| sd_landmarks := Some (landmarks :: others) |}) :: d2) label
     = load_landmark_data json_file_path
         (d1 ++ (id, {| sd_landmarks := Some [landmarks] |}) :: d2) label) /\
  (forall (landmarks : list (list F)) (others : list (list (list F))),
     well_formed_hand landmarks ->
     let s1 := load_loop label d1 in
     let s2 := load_loop label d2 in
     load_landmark_data json_file_path (d1 ++ d2) label
     = ((ls_features s1 ++ ls_features s2, ls_labels s1 ++ ls_labels s2),
        [LogLoading json_file_path; LogLoaded (ls_count s1 + ls_count s2) label]) /\
     load_landmark_data json_file_path
       (d1 ++ (id, {| sd_landmarks := Some (landmarks :: others) |}) :: d2) label
     = ((ls_features s1 ++ [flatten_points landmarks] ++ ls_features s2,
         ls_labels s1 ++ [label] ++ ls_labels s2),
        [LogLoading json_file_path;
         LogLoaded (ls_count s1 + (1 + ls_count s2)) label])).
Proof.
  split; [|split].
  - intros r Hr. unfold load_landmark_data.
    rewrite !load_loop_app, load_loop_cons, (load_step_malformed _ _ _ _ Hr).
    replace (state_append empty_state (load_loop label d2)) with (load_loop label d2);
      [reflexivity|].
    now destruct (load_loop label d2).
  - intros landmarks others. unfold load_landmark_data.
    rewrite !load_loop_app, !load_loop_cons. reflexivity.
  - intros landmarks others Hw s1 s2. unfold load_landmark_data. split.
    + now rewrite load_loop_app.
    + rewrite load_loop_app, load_loop_cons,
        (load_step_well_formed _ _ _ _ _ Hw).
      reflexivity.
Qed.

Lemma loader_policy_witness :
  load_landmark_data "fist.json"
    ([("a"%string, hand_record closed_fist)]
     ++ ("b"%string, short_hand) :: [("c"%string, hand_record closed_fist)]) 0
  = load_landmark_data "fist.json"
      ([("a"%string, hand_record closed_fist)]
       ++ [("c"%string, hand_record closed_fist)]) 0.
Proof.
  apply (proj1 (loader_policy "fist.json" 0 [("a"%string, hand_record closed_fist)]
                  [("c"%string, hand_record closed_fist)] "b") short_hand).
  vm_compute. intros H. discriminate H.
Defined.

(** C7 as stated fails: nothing the loader returns or prints counts the
    skipped records.  With two malformed records after a good one, the
    returned pair and the printed lines are those of the good record alone,
    and the one number printed is the loaded count 1. *)
Lemma no_skipped_count_reported :
  malformed no_hands /\ malformed short_hand /\
  load_landmark_data "fist.json"
    [("a", hand_record open_hand); ("b", no_hands); ("c", short_hand)]%string 0
  = load_landmark_data "fist.json" [("a", hand_record open_hand)]%string 0 /\
  snd (load_landmark_data "fist.json"
         [("a", hand_record open_hand); ("b", no_hands); ("c", short_hand)]%string 0)
  = [LogLoading "fist.json"; LogLoaded 1 0].
Proof.
  split; [exact I|]. split; [vm_compute; intros H; discriminate H|].
  split; vm_compute; reflexivity.
Qed.

(** C10.  What the loader returns is exactly this: for every record, in
    file order, whose first hand has 21 points that all have at least two
    coordinates, the first two coordinates of each of its points, with the
    [label] argument next to it; the count printed is their number.  So a
    point with more than two coordinates is accepted with its first two
    kept, a first hand of 21 points of which one has fewer than two
    coordinates leaves the result as if its record were absent, every
    feature vector returned has exactly 42 coordinates, the label list is
    as long as the feature list, and every label is [label]. *)
Theorem loader_output_shape {F : Type} (json_file_path : string) (data : dataset F)
  (label : Z) :
  let kept := kept_hands data in
  load_landmark_data json_file_path data label
  = ((map (flat_map (firstn 2)) kept, repeat label (length kept)),
     [LogLoading json_file_path; LogLoaded (length kept) label]) /\
  (Forall (fun fv => length fv = 42)
     (fst (fst (load_landmark_data json_file_path data label))) /\
   length (snd (fst (load_landmark_data json_file_path data label)))
   = length (fst (fst (load_landmark_data json_file_path data label))) /\
   Forall (fun l => l = label)
     (snd (fst (load_landmark_data json_file_path data label)))) /\
  (forall (d1 d2 : dataset F) (id : string) (landmarks : list (list F))
          (others : list (list (list F))),
     data = d1 ++ (id, {| sd_landmarks := Some (landmarks :: others) |}) :: d2 ->
     well_formed_hand landmarks ->
     kept = kept_hands d1 ++ [landmarks] ++ kept_hands d2 /\
     fst (load_landmark_data json_file_path data label)
     = (fst (fst (load_landmark_data json_file_path d1 label))
        ++ [flat_map (firstn 2) landmarks]
        ++ fst (fst (load_landmark_data json_file_path d2 label)),
        snd (fst (load_landmark_data json_file_path d1 label))
        ++ [label]
        ++ snd (fst (load_landmark_data json_file_path d2 label)))) /\
  (forall (d1 d2 : dataset F) (id : string) (landmarks : list (list F))
          (others : list (list (list F))),
     data = d1 ++ (id, {| sd_landmarks := Some (landmarks :: others) |}) :: d2 ->
     length landmarks = 21 ->
     Exists (fun point => length point < 2) landmarks ->
     length (flatten_points landmarks) <> 42 /\
     kept = kept_hands d1 ++ kept_hands d2 /\
     load_landmark_data json_file_path data label
     = load_landmark_data json_file_path (d1 ++ d2) label).
Proof.
  intros kept. subst kept. split; [|split; [|split]].
  - unfold load_landmark_data. now rewrite load_loop_kept.
  - destruct (load_loop_invariant label data) as (H1 & H2 & H3 & _).
    unfold load_landmark_data. cbn [fst snd]. now repeat split.
  - intros d1 d2 id landmarks others -> Hw.
    assert (K : kept_hands [(id, {| sd_landmarks := Some (landmarks :: others) |})]
                = [landmarks]).
    { unfold kept_hands, first_hand. cbn [flat_map snd sd_landmarks].
      now rewrite (proj2 (well_formed_handb_spec landmarks) Hw). }
    change ((id, {| sd_landmarks := Some (landmarks :: others) |}) :: d2)
      with ([(id, {| sd_landmarks := Some (landmarks :: others) |})] ++ d2).
    rewrite !kept_hands_app, K. split; [reflexivity|].
    unfold load_landmark_data. cbn [fst snd].
    rewrite !load_loop_kept. cbn [ls_features ls_labels].
    rewrite !kept_hands_app, K, !map_app, !length_app, !repeat_app.
    reflexivity.
  - intros d1 d2 id landmarks others -> Hlen Hex.
    assert (K : kept_hands [(id, {| sd_landmarks := Some (landmarks :: others) |})]
                = []).
    { unfold kept_hands, first_hand. cbn [flat_map snd sd_landmarks].
      destruct (well_formed_handb landmarks) eqn:E; [|reflexivity].
      apply well_formed_handb_spec in E. destruct E as [_ E].
      exfalso. rewrite Exists_exists in Hex. destruct Hex as [p [Hp Hlt]].
      rewrite Forall_forall in E. specialize (E p Hp). lia. }
    split; [pose proof (flatten_points_short landmarks Hex); lia|].
    change ((id, {| sd_landmarks := Some (landmarks :: others) |}) :: d2)
      with ([(id, {| sd_landmarks := Some (landmarks :: others) |})] ++ d2).
    rewrite !kept_hands_app, K. split; [reflexivity|].
    unfold load_landmark_data. rewrite !load_loop_kept, !kept_hands_app, K.
    reflexivity.
Qed.

Lemma loader_output_shape_witness :
  fst (load_landmark_data "palm.json"
         ([("a"%string, hand_record open_hand)]
          ++ ("b"%string, {| sd_landmarks := Some [hand_with_depth] |})
          :: [("c"%string, hand_record closed_fist)]) 1)
  = (fst (fst (load_landmark_data "palm.json" [("a"%string, hand_record open_hand)] 1))
     ++ [flat_map (firstn 2) hand_with_depth]
     ++ fst (fst (load_landmark_data "palm.json"
                    [("c"%string, hand_record closed_fist)] 1)),
     snd (fst (load_landmark_data "palm.json" [("a"%string, hand_record open_hand)] 1))
     ++ [1%Z]
     ++ snd (fst (load_landmark_data "palm.json"
                    [("c"%string, hand_record closed_fist)] 1))) /\
  load_landmark_data "palm.json"
    ([("a"%string, hand_record open_hand)]
     ++ ("b"%string, {| sd_landmarks := Some [hand_with_short_point] |})
     :: [("c"%string, hand_record closed_fist)]) 1
  = load_landmark_data "palm.json"
      ([("a"%string, hand_record open_hand)]
       ++ [("c"%string, hand_record closed_fist)]) 1.
Proof.
  split.
  - apply (proj1 (proj2 (proj2 (loader_output_shape "palm.json"
             ([("a"%string, hand_record open_hand)]
              ++ ("b"%string, {| sd_landmarks := Some [hand_with_depth] |})
              :: [("c"%string, hand_record closed_fist)]) 1)))
             [("a"%string, hand_record open_hand)]
             [("c"%string, hand_record closed_fist)] "b"%string hand_with_depth []).
    + reflexivity.
    + split; [reflexivity|]. unfold hand_with_depth, open_hand. repeat constructor.
  - apply (proj2 (proj2 (proj2 (loader_output_shape "palm.json"
             ([("a"%string, hand_record open_hand)]
              ++ ("b"%string, {| sd_landmarks := Some [hand_with_short_point] |})
              :: [("c"%string, hand_record closed_fist)]) 1)))
             [("a"%string, hand_record open_hand)]
             [("c"%string, hand_record closed_fist)] "b"%string hand_with_short_point []).
    + reflexivity.
    + reflexivity.
    + apply Exists_cons_hd. simpl. lia.
Defined.

(** On binary64: of three records, the one with a depth on every point is
    kept with its [x, y] pairs, the one with a one-coordinate point is
    not, and the count printed is 2. *)
Example loader_keeps_and_skips :
  load_landmark_data "palm.json"
    [("a", {| sd_landmarks := Some [hand_with_depth] |});
     ("b", {| sd_landmarks := Some [hand_with_short_point] |});
     ("c", hand_record closed_fist)]%string 1
  = (([flatten_points (to_points open_hand); flatten_points (to_points closed_fist)],
      [1%Z; 1%Z]),
     [LogLoading "palm.json"; LogLoaded 2 1]).
Proof. vm_compute. reflexivity. Qed.

(** ** The training pipeline *)

Section TrainingFacts.
Context {F : Type} {SF : Scalar F}.

Lemma pair_up_even (n : nat) (flat : list F) :
  length flat = 2 * n ->
  exists ps : list (F * F), pair_up flat = Ret (to_points ps) /\ length ps = n.
Proof.
  revert flat. induction n as [|n IH]; intros flat H.
  - destruct flat; [|discriminate]. now exists [].
  - destruct flat as [|x [|y rest]]; simpl in H; try lia.
    destruct (IH rest) as [ps [Hps Hlen]]; [lia|].
    exists ((x, y) :: ps). cbn [pair_up]. rewrite Hps. cbn. now rewrite Hlen.
Qed.

(** On flattened vectors of 42 coordinates the loop returns, and it adds
    one row of 24 features, with its label, per vector. *)
Lemma advanced_loop_total (label : Z) (raw : list (list F)) :
  Forall (fun fv => length fv = 42) raw ->
  forall acc, exists rows,
    advanced_loop label raw acc
    = Ret (fst acc ++ rows, snd acc ++ repeat label (length raw)) /\
    length rows = length raw /\
    Forall (fun row => length row = 24) rows.
Proof.
  induction 1 as [|flat raw Hflat _ IH]; intros acc.
  - exists []. cbn. rewrite !app_nil_r. now destruct acc.
  - destruct (pair_up_even 21 flat Hflat) as [ps [Hps Hlen]].
    cbn [advanced_loop]. rewrite Hps. cbn [bind].
    rewrite (extract_advanced_features_closed_form ps Hlen). cbn [bind].
    pose proof (feature_vector_length ps) as H24.
    destruct (feature_vector ps) as [|f0 fs] eqn:Efv; [discriminate|].
    destruct (IH (fst acc ++ [f0 :: fs], snd acc ++ [label])) as [rows [Hrows [Hl H24s]]].
    exists ((f0 :: fs) :: rows). rewrite Hrows. cbn [fst snd length repeat].
    rewrite <- !app_assoc. split; [reflexivity|]. split; [now rewrite Hl|].
    now constructor.
Qed.

(** On two parsed data files the load returns; the labels are the fist
    block of 0s followed by the palm block of 1s, one per loaded sample. *)
Lemma load_data_total (fist_path : string) (fist_data : dataset F)
  (palm_path : string) (palm_data : dataset F) :
  exists X,
    load_data_with_advanced_features fist_path fist_data palm_path palm_data
    = Ret (X, repeat 0%Z (ls_count (load_loop 0 fist_data))
              ++ repeat 1%Z (ls_count (load_loop 1 palm_data))) /\
    length X = ls_count (load_loop 0 fist_data) + ls_count (load_loop 1 palm_data) /\
    Forall (fun row => length row = 24) X.
Proof.
  unfold load_data_with_advanced_features, load_landmark_data.
  destruct (load_loop_invariant 0 fist_data) as (Hf & _ & _ & Hfc).
  destruct (load_loop_invariant 1 palm_data) as (Hp & _ & _ & Hpc).
  destruct (advanced_loop_total 0 _ Hf ([], [])) as [rf [Erf [Lrf Frf]]].
  rewrite Erf. cbn [bind fst snd app].
  destruct (advanced_loop_total 1 _ Hp (rf, repeat 0%Z (length (ls_features (load_loop 0 fist_data)))))
    as [rp [Erp [Lrp Frp]]].
  rewrite Erp. cbn [fst snd].
  exists (rf ++ rp). rewrite Hfc, Hpc. split; [reflexivity|].
  split; [rewrite length_app; lia | now apply Forall_app].
Qed.

Variable train_test_split : list (list F) -> list Z -> py (partition F).
Variable fit_random_forest : list (list F) -> list Z -> py (Model F).
Variable fit_svc : list (list F) -> list Z -> py (Model F).
Variable classification_report : list Z -> list Z -> py unit.

Local Notation "'run_train_model'" :=
  (train_model train_test_split fit_random_forest fit_svc classification_report).
Local Notation "'run_main'" :=
  (main train_test_split fit_random_forest fit_svc classification_report).

(** [train_model] returns when the split, the fit of the family asked for
    and the report all return; the model is the one fitted on the training
    partition, the accuracy its score on the held-out partition. *)
Lemma train_model_returns (X : list (list F)) (y : list Z) (model_type : string)
  (m : Model F) (a : F) :
  run_train_model X y model_type = Ret (m, a) <->
  exists parts,
    train_test_split X y = Ret parts /\
    ((model_type = "random_forest"%string /\
      fit_random_forest (X_train parts) (y_train parts) = Ret m) \/
     (model_type = "svm"%string /\
      fit_svc (X_train parts) (y_train parts) = Ret m)) /\
    classification_report (y_test parts) (map (model_predict m) (X_test parts)) = Ret tt /\
    a = accuracy_score (y_test parts) (map (model_predict m) (X_test parts)).
Proof.
  unfold train_model. split.
  - destruct (train_test_split X y) as [[[[Xtr Xte] ytr] yte]|e]; [|discriminate].
    cbn [bind].
    destruct (String.eqb_spec model_type "random_forest") as [E1|E1].
    + cbn [bind]. destruct (fit_random_forest Xtr ytr) as [m'|e] eqn:Ef; [|discriminate].
      cbn [bind].
      destruct (classification_report yte (map (model_predict m') Xte)) as [[]|e] eqn:Er;
        [|discriminate].
      cbn [bind]. intros [= <- <-]. exists (Xtr, Xte, ytr, yte).
      split; [reflexivity|]. split; [left; now split|]. now split.
    + destruct (String.eqb_spec model_type "svm") as [E2|E2]; [|discriminate].
      cbn [bind]. destruct (fit_svc Xtr ytr) as [m'|e] eqn:Ef; [|discriminate].
      cbn [bind].
      destruct (classification_report yte (map (model_predict m') Xte)) as [[]|e] eqn:Er;
        [|discriminate].
      cbn [bind]. intros [= <- <-]. exists (Xtr, Xte, ytr, yte).
      split; [reflexivity|]. split; [right; now split|]. now split.
  - intros [[[[Xtr Xte] ytr] yte] (Hs & Hf & Hr & ->)]. rewrite Hs. cbn [bind].
    unfold X_train, y_train, X_test, y_test in *. cbn [fst snd] in *.
    destruct Hf as [[-> Hf]|[-> Hf]]; cbn [String.eqb Ascii.eqb Bool.eqb andb bind];
      rewrite Hf; cbn [bind]; rewrite Hr; reflexivity.
Qed.

(** [train_model] raises when the split raises, when the model type is
    neither of the two, when the fit raises, or when the report raises. *)
Lemma train_model_raises (X : list (list F)) (y : list Z) (model_type : string)
  (e : exn) :
  run_train_model X y model_type = Raise e <->
  train_test_split X y = Raise e \/
  exists parts,
    train_test_split X y = Ret parts /\
    ((model_type <> "random_forest"%string /\ model_type <> "svm"%string /\
      e = ValueError) \/
     (model_type = "random_forest"%string /\
      fit_random_forest (X_train parts) (y_train parts) = Raise e) \/
     (model_type = "svm"%string /\
      fit_svc (X_train parts) (y_train parts) = Raise e) \/
     (exists m,
        ((model_type = "random_forest"%string /\
          fit_random_forest (X_train parts) (y_train parts) = Ret m) \/
         (model_type = "svm"%string /\
          fit_svc (X_train parts) (y_train parts) = Ret m)) /\
        classification_report (y_test parts) (map (model_predict m) (X_test parts))
        = Raise e)).
Proof.
  unfold train_model. split.
  - destruct (train_test_split X y) as [[[[Xtr Xte] ytr] yte]|e0];
      [|intros [= ->]; now left].
    cbn [bind]. intros H. right. exists (Xtr, Xte, ytr, yte).
    split; [reflexivity|]. unfold X_train, y_train, X_test, y_test. cbn [fst snd].
    destruct (String.eqb_spec model_type "random_forest") as [E1|E1].
    + cbn [bind] in H.
      destruct (fit_random_forest Xtr ytr) as [m'|e0] eqn:Ef;
        [|injection H as ->; right; left; now split].
      cbn [bind] in H.
      destruct (classification_report yte (map (model_predict m') Xte)) as [[]|e0] eqn:Er;
        [discriminate H|].
      injection H as ->. right. right. right. exists m'. split; [left; now split | exact Er].
    + destruct (String.eqb_spec model_type "svm") as [E2|E2].
      * cbn [bind] in H.
        destruct (fit_svc Xtr ytr) as [m'|e0] eqn:Ef;
          [|injection H as ->; right; right; left; now split].
        cbn [bind] in H.
        destruct (classification_report yte (map (model_predict m') Xte))
          as [[]|e0] eqn:Er; [discriminate H|].
        injection H as ->. right. right. right. exists m'.
        split; [right; now split | exact Er].
      * injection H as <-. left. now repeat split.
  - intros [Hs|[[[[Xtr Xte] ytr] yte] [Hs H]]]; rewrite Hs; [reflexivity|].
    cbn [bind]. unfold X_train, y_train, X_test, y_test in H. cbn [fst snd] in H.
    destruct H as [(N1 & N2 & ->)|[[-> Hf]|[[-> Hf]|[m [Hf Hr]]]]].
    + destruct (String.eqb_spec model_type "random_forest"); [contradiction|].
      destruct (String.eqb_spec model_type "svm"); [contradiction|]. reflexivity.
    + cbn [String.eqb Ascii.eqb Bool.eqb andb bind]. now rewrite Hf.
    + cbn [String.eqb Ascii.eqb Bool.eqb andb bind]. now rewrite Hf.
    + destruct Hf as [[-> Hf]|[-> Hf]]; cbn [String.eqb Ascii.eqb Bool.eqb andb bind];
        rewrite Hf; cbn [bind]; now rewrite Hr.
Qed.

(** [main] after a successful load: nothing is written for an empty
    dataset; otherwise the first [train_model] call that raises ends the
    run, and when both return the better candidate on the whole dataset is
    written with its metadata. *)
Lemma main_unfold (fist_data palm_data : dataset F) (X : list (list F)) (y : list Z) :
  load_data_with_advanced_features "fist.json" fist_data "palm.json" palm_data
  = Ret (X, y) ->
  run_main (Some fist_data) (Some palm_data)
  = match X with
    | [] => Ret None
    | _ :: _ =>
        match run_train_model X y "random_forest" with
        | Raise e => Raise e
        | Ret rf =>
            match run_train_model X y "svm" with
            | Raise e => Raise e
            | Ret sv =>
                let rf_acc := full_accuracy (fst rf) X y in
                let svm_acc := full_accuracy (fst sv) X y in
                let rf_wins := f_leb svm_acc rf_acc in
                Ret (Some
                  {| art_model := if rf_wins then fst rf else fst sv;
                     art_metadata :=
                       [("model_type"%string,
                         JStr (if rf_wins then "random_forest" else "svm")%string);
                        ("feature_count"%string, JInt (Z.of_nat (length (hd [] X))));
                        ("training_samples"%string, JInt (Z.of_nat (length X)));
                        ("fist_samples"%string,
                         JInt (Z.of_nat (count_occ Z.eq_dec y 0%Z)));
                        ("palm_samples"%string,
                         JInt (Z.of_nat (count_occ Z.eq_dec y 1%Z)));
                        ("accuracy"%string,
                         JFloat (if rf_wins then rf_acc else svm_acc))] |})
            end
        end
    end.
Proof.
  intros Hload. unfold main. rewrite Hload. cbn [bind].
  destruct X as [|row X']; [reflexivity|]. cbn [length Nat.eqb].
  destruct (run_train_model (row :: X') y "random_forest") as [rf|e]; [|reflexivity].
  cbn [bind].
  destruct (run_train_model (row :: X') y "svm") as [sv|e]; [|reflexivity].
  cbn [bind]. cbv zeta. unfold full_accuracy.
  destruct (f_leb _ _); reflexivity.
Qed.

(** What is known of a run that wrote an artifact. *)
Lemma main_wrote (fist_data palm_data : dataset F) (art : artifact F) :
  run_main (Some fist_data) (Some palm_data) = Ret (Some art) ->
  exists X rf sv,
    let y := repeat 0%Z (ls_count (load_loop 0 fist_data))
             ++ repeat 1%Z (ls_count (load_loop 1 palm_data)) in
    let rf_acc := full_accuracy (fst rf) X y in
    let svm_acc := full_accuracy (fst sv) X y in
    let rf_wins := f_leb svm_acc rf_acc in
    load_data_with_advanced_features "fist.json" fist_data "palm.json" palm_data
    = Ret (X, y) /\
    X <> [] /\
    length X = ls_count (load_loop 0 fist_data) + ls_count (load_loop 1 palm_data) /\
    Forall (fun row => length row = 24) X /\
    run_train_model X y "random_forest" = Ret rf /\
    run_train_model X y "svm" = Ret sv /\
    art = {| art_model := if rf_wins then fst rf else fst sv;
             art_metadata :=
               [("model_type"%string,
                 JStr (if rf_wins then "random_forest" else "svm")%string);
                ("feature_count"%string, JInt (Z.of_nat (length (hd [] X))));
                ("training_samples"%string, JInt (Z.of_nat (length X)));
                ("fist_samples"%string, JInt (Z.of_nat (count_occ Z.eq_dec y 0%Z)));
                ("palm_samples"%string, JInt (Z.of_nat (count_occ Z.eq_dec y 1%Z)));
                ("accuracy"%string, JFloat (if rf_wins then rf_acc else svm_acc))] |}.
Proof.
  intros Hmain.
  destruct (load_data_total "fist.json" fist_data "palm.json" palm_data)
    as [X [Hload [Hlen H24]]].
  rewrite (main_unfold _ _ _ _ Hload) in Hmain.
  destruct X as [|row X']; [discriminate Hmain|].
  destruct (run_train_model (row :: X') _ "random_forest") as [rf|e] eqn:Erf;
    [|discriminate Hmain].
  destruct (run_train_model (row :: X') _ "svm") as [sv|e] eqn:Esv;
    [|discriminate Hmain].
  injection Hmain as <-.
  exists (row :: X'), rf, sv. cbv zeta.
  split; [exact Hload|]. split; [discriminate|]. split; [exact Hlen|].
  split; [exact H24|]. split; [exact Erf|]. split; [exact Esv | reflexivity].
Qed.

End TrainingFacts.

Lemma Rleb_fraction (a b n : nat) :
  (0 < n)%nat ->
  Rleb (IZR (Z.of_nat a) / IZR (Z.of_nat n)) (IZR (Z.of_nat b) / IZR (Z.of_nat n))
  = (a <=? b)%nat.
Proof.
  intros Hn.
  assert (Hi : (0 < / IZR (Z.of_nat n))%R).
  { apply Rinv_0_lt_compat. apply (IZR_lt 0). lia. }
  unfold Rleb, Rdiv.
  destruct (Rle_dec _ _) as [H|H]; destruct (Nat.leb_spec a b) as [L|L];
    try reflexivity; exfalso.
  - assert (IZR (Z.of_nat b) < IZR (Z.of_nat a))%R by (apply IZR_lt; lia). nra.
  - assert (IZR (Z.of_nat a) <= IZR (Z.of_nat b))%R by (apply IZR_le; lia). nra.
Qed.

(** C4.  Read over exact reals, on two parsed data files.  The load yields
    one row per loaded sample, labelled 0 for the fist file and 1 for the
    palm file; on an empty dataset [main] stops without writing.  On a
    non-empty dataset both candidates are trained by [train_model]; when a
    call raises (the split, a fit or the report refusing the data), [main]
    raises with it and nothing is selected.  When both return, the two
    candidates are the estimators fitted on the training partition of the
    split, and [main] scores both on the entire dataset [(X, y)]: each
    accuracy is the number of rows of [X] predicted correctly over the
    number of rows.  The random forest is written out when it has at least
    as many correct rows as the SVM (so also on a tie), the SVM when it has
    strictly more. *)
Theorem model_selection_on_full_dataset
  (train_test_split : list (list R) -> list Z -> py (partition R))
  (fit_random_forest fit_svc : list (list R) -> list Z -> py (Model R))
  (classification_report : list Z -> list Z -> py unit)
  (fist_data palm_data : dataset R) :
  exists X y,
    load_data_with_advanced_features "fist.json" fist_data "palm.json" palm_data
    = Ret (X, y) /\
    length X = ls_count (load_loop 0 fist_data) + ls_count (load_loop 1 palm_data) /\
    y = repeat 0%Z (ls_count (load_loop 0 fist_data))
        ++ repeat 1%Z (ls_count (load_loop 1 palm_data)) /\
    (X = [] ->
     main train_test_split fit_random_forest fit_svc classification_report
       (Some fist_data) (Some palm_data)
     = Ret None) /\
    (X <> [] ->
     match train_model train_test_split fit_random_forest fit_svc classification_report
             X y "random_forest",
           train_model train_test_split fit_random_forest fit_svc classification_report
             X y "svm" with
     | Ret (rf, _), Ret (svm, _) =>
         let rf_correct := correct_count y (map (model_predict rf) X) in
         let svm_correct := correct_count y (map (model_predict svm) X) in
         (exists parts,
            train_test_split X y = Ret parts /\
            fit_random_forest (X_train parts) (y_train parts) = Ret rf /\
            fit_svc (X_train parts) (y_train parts) = Ret svm) /\
         full_accuracy rf X y
         = (IZR (Z.of_nat rf_correct) / IZR (Z.of_nat (length X)))%R /\
         full_accuracy svm X y
         = (IZR (Z.of_nat svm_correct) / IZR (Z.of_nat (length X)))%R /\
         exists art,
           main train_test_split fit_random_forest fit_svc classification_report
             (Some fist_data) (Some palm_data)
           = Ret (Some art) /\
           art_model art = (if (svm_correct <=? rf_correct)%nat then rf else svm) /\
           lookup_key "model_type" (art_metadata art)
           = Some (JStr (if (svm_correct <=? rf_correct)%nat
                         then "random_forest" else "svm")%string)
     | Raise e, _ =>
         main train_test_split fit_random_forest fit_svc classification_report
           (Some fist_data) (Some palm_data)
         = Raise e
     | Ret _, Raise e =>
         main train_test_split fit_random_forest fit_svc classification_report
           (Some fist_data) (Some palm_data)
         = Raise e
     end).
Proof.
  destruct (load_data_total "fist.json" fist_data "palm.json" palm_data)
    as [X [Hload [Hlen _]]].
  set (y := repeat 0%Z (ls_count (load_loop 0 fist_data))
            ++ repeat 1%Z (ls_count (load_loop 1 palm_data))) in *.
  assert (Hy : length y = length X).
  { subst y. rewrite length_app, !repeat_length. lia. }
  exists X, y. split; [exact Hload|]. split; [exact Hlen|]. split; [reflexivity|].
  pose proof (main_unfold train_test_split fit_random_forest fit_svc
                classification_report fist_data palm_data X y Hload) as Hmain.
  split.
  - intros ->. exact Hmain.
  - intros Hne.
    assert (Hpos : (0 < length X)%nat) by (destruct X; [contradiction | simpl; lia]).
    destruct X as [|row X']; [contradiction|]. set (X := row :: X') in *.
    destruct (train_model train_test_split fit_random_forest fit_svc
                classification_report X y "random_forest") as [[rf a1]|e] eqn:Erf;
      [|exact Hmain].
    destruct (train_model train_test_split fit_random_forest fit_svc
                classification_report X y "svm") as [[svm a2]|e] eqn:Esv;
      [|exact Hmain].
    intros rf_correct svm_correct.
    assert (Hrf : full_accuracy rf X y
                  = (IZR (Z.of_nat rf_correct) / IZR (Z.of_nat (length X)))%R).
    { unfold full_accuracy, accuracy_score. now rewrite Hy. }
    assert (Hsvm : full_accuracy svm X y
                   = (IZR (Z.of_nat svm_correct) / IZR (Z.of_nat (length X)))%R).
    { unfold full_accuracy, accuracy_score. now rewrite Hy. }
    split.
    { apply train_model_returns in Erf, Esv.
      destruct Erf as [parts (Hs & [[_ Hf]|[E _]] & _)]; [|discriminate E].
      destruct Esv as [parts' (Hs' & [[E _]|[_ Hf']] & _)]; [discriminate E|].
      rewrite Hs in Hs'. injection Hs' as <-. now exists parts. }
    split; [exact Hrf|]. split; [exact Hsvm|].
    cbv zeta in Hmain. cbn [fst] in Hmain. rewrite Hrf, Hsvm in Hmain.
    change (@f_leb R R_scalar) with Rleb in Hmain.
    rewrite (Rleb_fraction svm_correct rf_correct (length X) Hpos) in Hmain.
    eexists. split; [exact Hmain|].
    cbn [art_model art_metadata].
    split; [reflexivity|]. now destruct (svm_correct <=? rf_correct)%nat.
Qed.

Lemma model_selection_on_full_dataset_witness :
  (exists art,
     main toy_split (fit_constant 0) (fit_constant 1) toy_report
       (Some exact_data_3) (Some exact_data_3)
     = Ret (Some art) /\
     art_model art = constant_model 0 /\
     lookup_key "model_type" (art_metadata art) = Some (JStr "random_forest")) /\
  (exists art,
     main toy_split (fit_constant 0) (fit_constant 1) toy_report
       (Some exact_data_3) (Some exact_data_4)
     = Ret (Some art) /\
     art_model art = constant_model 1 /\
     lookup_key "model_type" (art_metadata art) = Some (JStr "svm")).
Proof.
  split.
  - destruct (model_selection_on_full_dataset toy_split (fit_constant 0)
                (fit_constant 1) toy_report exact_data_3 exact_data_3)
      as (X & y & _ & Hlen & Hy & _ & Hsel).
    change (length X = 6) in Hlen. change (y = [0; 0; 0; 1; 1; 1]%Z) in Hy. subst y.
    do 6 (destruct X as [|? X]; [discriminate Hlen|]).
    destruct X; [|discriminate Hlen].
    assert (Hne : [l; l0; l1; l2; l3; l4] <> []) by discriminate.
    destruct (Hsel Hne) as (_ & _ & _ & art & Hmain & Hmodel & Htype).
    exists art. split; [exact Hmain|]. split; [exact Hmodel | exact Htype].
  - destruct (model_selection_on_full_dataset toy_split (fit_constant 0)
                (fit_constant 1) toy_report exact_data_3 exact_data_4)
      as (X & y & _ & Hlen & Hy & _ & Hsel).
    change (length X = 7) in Hlen. change (y = [0; 0; 0; 1; 1; 1; 1]%Z) in Hy. subst y.
    do 7 (destruct X as [|? X]; [discriminate Hlen|]).
    destruct X; [|discriminate Hlen].
    assert (Hne : [l; l0; l1; l2; l3; l4; l5] <> []) by discriminate.
    destruct (Hsel Hne) as (_ & _ & _ & art & Hmain & Hmodel & Htype).
    exists art. split; [exact Hmain|]. split; [exact Hmodel | exact Htype].
Defined.

(** The small training run on binary64: both candidates score 9 of 10 on
    the whole dataset, and the tie goes to the random forest. *)
Example toy_run_tie_selects_random_forest :
  exists art,
    main toy_split toy_fit toy_fit toy_report (Some toy_fist_data) (Some toy_palm_data)
    = Ret (Some art) /\
    lookup_key "model_type" (art_metadata art) = Some (JStr "random_forest") /\
    lookup_key "training_samples" (art_metadata art) = Some (JInt 10).
Proof.
  eexists. split; [vm_compute; reflexivity|]. split; reflexivity.
Qed.

(** With a random forest that calls every sample a fist (5 of 10 correct)
    and the SVM of the small run (9 of 10), the SVM is written out. *)
Example toy_run_selects_better_svm :
  exists art,
    main toy_split (fit_constant 0) toy_fit toy_report
      (Some toy_fist_data) (Some toy_palm_data)
    = Ret (Some art) /\
    art_model art = toy_model /\
    lookup_key "model_type" (art_metadata art) = Some (JStr "svm") /\
    lookup_key "accuracy" (art_metadata art) = Some (JFloat 0.9%float).
Proof.
  eexists. split; [vm_compute; reflexivity|]. repeat split.
Qed.

(** Runs that end in an exception: with one sample of each class the split
    refuses the data; with fists only the report finds a single class. *)
Example toy_run_raises :
  main toy_split toy_fit toy_fit toy_report
    (Some [("f0"%string, hand_record closed_fist)])
    (Some [("p0"%string, hand_record open_hand)])
  = Raise ValueError /\
  main toy_split toy_fit toy_fit toy_report
    (Some [("f0", hand_record closed_fist); ("f1", hand_record closed_fist);
           ("f2", hand_record closed_fist)]%string)
    (Some [("p0"%string, no_hands)])
  = Raise ValueError.
Proof. split; vm_compute; reflexivity. Qed.

(** C8 (amended).  The metadata written next to the model consists exactly
    of the keys model_type, feature_count, training_samples, fist_samples,
    palm_samples and accuracy, in this order.  The accuracy is that of the
    chosen classifier on the entire dataset, the score the selection used;
    feature_count is 24 and training_samples the number of rows. *)
Theorem artifact_metadata {F : Type} {SF : Scalar F}
  (train_test_split : list (list F) -> list Z -> py (partition F))
  (fit_random_forest fit_svc : list (list F) -> list Z -> py (Model F))
  (classification_report : list Z -> list Z -> py unit)
  (fist_data palm_data : dataset F) (art : artifact F) :
  main train_test_split fit_random_forest fit_svc classification_report
    (Some fist_data) (Some palm_data)
  = Ret (Some art) ->
  exists X y,
    load_data_with_advanced_features "fist.json" fist_data "palm.json" palm_data
    = Ret (X, y) /\
    map fst (art_metadata art)
    = ["model_type"; "feature_count"; "training_samples"; "fist_samples";
       "palm_samples"; "accuracy"]%string /\
    lookup_key "accuracy" (art_metadata art)
    = Some (JFloat (full_accuracy (art_model art) X y)) /\
    lookup_key "feature_count" (art_metadata art) = Some (JInt 24) /\
    lookup_key "training_samples" (art_metadata art)
    = Some (JInt (Z.of_nat (length X))) /\
    lookup_key "fist_samples" (art_metadata art)
    = Some (JInt (Z.of_nat (count_occ Z.eq_dec y 0%Z))) /\
    lookup_key "palm_samples" (art_metadata art)
    = Some (JInt (Z.of_nat (count_occ Z.eq_dec y 1%Z))).
Proof.
  intros Hmain.
  destruct (main_wrote _ _ _ _ _ _ _ Hmain)
    as (X & rf & sv & Hload & Hne & _ & H24 & _ & _ & ->).
  eexists X, _. split; [exact Hload|].
  destruct X as [|row X']; [contradiction|].
  cbn [art_model art_metadata map fst hd].
  inversion H24 as [|? ? Hrow _]. rewrite Hrow.
  split; [reflexivity|].
  split; [|repeat split; reflexivity].
  destruct (f_leb _ _); reflexivity.
Qed.

Lemma artifact_metadata_witness :
  exists X y,
    load_data_with_advanced_features "fist.json" toy_fist_data "palm.json" toy_palm_data
    = Ret (X, y) /\
    map fst (art_metadata toy_artifact)
    = ["model_type"; "feature_count"; "training_samples"; "fist_samples";
       "palm_samples"; "accuracy"]%string /\
    lookup_key "accuracy" (art_metadata toy_artifact)
    = Some (JFloat (full_accuracy (art_model toy_artifact) X y)) /\
    lookup_key "feature_count" (art_metadata toy_artifact) = Some (JInt 24) /\
    lookup_key "training_samples" (art_metadata toy_artifact)
    = Some (JInt (Z.of_nat (length X))) /\
    lookup_key "fist_samples" (art_metadata toy_artifact)
    = Some (JInt (Z.of_nat (count_occ Z.eq_dec y 0%Z))) /\
    lookup_key "palm_samples" (art_metadata toy_artifact)
    = Some (JInt (Z.of_nat (count_occ Z.eq_dec y 1%Z))).
Proof.
  apply (artifact_metadata toy_split toy_fit toy_fit toy_report
           toy_fist_data toy_palm_data toy_artifact).
  vm_compute. reflexivity.
Defined.

(** C8 as stated fails: the accuracy written to the metadata is not the
    held-out one.  In the small training run the chosen model scores 0.5 on
    the held-out partition (the value [train_model] prints) and 0.9 on the
    whole dataset, and the metadata says 0.9. *)
Lemma metadata_accuracy_is_not_held_out :
  exists art X y,
    main toy_split toy_fit toy_fit toy_report (Some toy_fist_data) (Some toy_palm_data)
    = Ret (Some art) /\
    load_data_with_advanced_features "fist.json" toy_fist_data "palm.json" toy_palm_data
    = Ret (X, y) /\
    train_model toy_split toy_fit toy_fit toy_report X y "random_forest"
    = Ret (art_model art, 0.5%float) /\
    held_out_accuracy toy_split (art_model art) X y = Ret 0.5%float /\
    full_accuracy (art_model art) X y = 0.9%float /\
    lookup_key "accuracy" (art_metadata art) = Some (JFloat 0.9%float) /\
    PrimFloat.eqb 0.9 0.5 = false.
Proof.
  do 3 eexists.
  split; [vm_compute; reflexivity|].
  split; [vm_compute; reflexivity|].
  repeat split; vm_compute; reflexivity.
Qed.

(** * Further properties of the training script *)

Section ReshapeFacts.
Context {F : Type}.

Lemma pair_up_cons2 (x y : F) (rest : list F) (ps : list (list F)) :
  pair_up rest = Ret ps -> pair_up (x :: y :: rest) = Ret ([x; y] :: ps).
Proof. intros H. cbn [pair_up]. now rewrite H. Qed.

Lemma pair_up_flatten (landmarks : list (list F)) :
  Forall (fun point => 2 <= length point) landmarks ->
  pair_up (flatten_points landmarks) = Ret (map (firstn 2) landmarks).
Proof.
  induction 1 as [|p l Hp _ IH]; [reflexivity|].
  change (flatten_points (p :: l))
    with (match p with x :: y :: _ => [x; y] | _ => [] end ++ flatten_points l).
  destruct p as [|x [|y rest]]; simpl in Hp; try lia.
  cbn [app map firstn]. now apply pair_up_cons2.
Qed.

Lemma pair_up_parity (n : nat) (flat : list F) :
  length flat <= n ->
  if Nat.even (length flat)
  then exists ps, pair_up flat = Ret ps /\ 2 * length ps = length flat
  else pair_up flat = Raise IndexError.
Proof.
  revert flat. induction n as [|n IH]; intros flat Hn.
  - destruct flat; [|simpl in Hn; lia]. now exists [].
  - destruct flat as [|x [|y rest]].
    + now exists [].
    + reflexivity.
    + assert (Hr : length rest <= n) by (simpl in Hn; lia).
      specialize (IH rest Hr).
      change (Nat.even (length (x :: y :: rest))) with (Nat.even (length rest)).
      destruct (Nat.even (length rest)).
      * destruct IH as [ps [Hps Hlen]]. exists ([x; y] :: ps).
        split; [now apply pair_up_cons2 | simpl; lia].
      * cbn [pair_up]. now rewrite IH.
Qed.

Lemma pair_up_flatten_two (landmarks : list (list F)) :
  Forall (fun point => length point = 2) landmarks ->
  pair_up (flatten_points landmarks) = Ret landmarks.
Proof.
  intros H. rewrite pair_up_flatten.
  - f_equal. induction H as [|p l Hp _ IH]; [reflexivity|].
    cbn [map]. rewrite IH. f_equal.
    destruct p as [|x [|y [|? ?]]]; try discriminate. reflexivity.
  - eapply Forall_impl; [|exact H]. intros p Hp. simpl in Hp. lia.
Qed.

End ReshapeFacts.

(** X1.  The reshape of line 159 undoes the loader's flattening: on a hand
    whose points all have at least two coordinates it gives back the points
    cut to their first two coordinates, so a hand of two-coordinate points
    comes back unchanged.  On any flat list the reshape succeeds exactly
    when the length is even, and raises [IndexError] when it is odd. *)
Theorem reshape_inverts_flatten {F : Type} :
  (forall landmarks : list (list F),
     Forall (fun point => 2 <= length point) landmarks ->
     pair_up (flatten_points landmarks) = Ret (map (firstn 2) landmarks)) /\
  (forall landmarks : list (list F),
     Forall (fun point => length point = 2) landmarks ->
     pair_up (flatten_points landmarks) = Ret landmarks) /\
  (forall flat : list F,
     (Nat.even (length flat) = true ->
      exists ps, pair_up flat = Ret ps /\ 2 * length ps = length flat) /\
     (Nat.even (length flat) = false -> pair_up flat = Raise IndexError)).
Proof.
  split; [exact pair_up_flatten|]. split.
  - exact pair_up_flatten_two.
  - intros flat. pose proof (pair_up_parity (length flat) flat (le_n _)) as H.
    destruct (Nat.even (length flat)); split; intros E; try discriminate; exact H.
Qed.

Lemma reshape_inverts_flatten_witness :
  pair_up (flatten_points hand_with_depth) = Ret (map (firstn 2) hand_with_depth) /\
  pair_up (flatten_points (to_points closed_fist)) = Ret (to_points closed_fist) /\
  pair_up [0.5; 0.25; 0.75]%float = Raise IndexError.
Proof.
  split; [|split].
  - apply (proj1 reshape_inverts_flatten hand_with_depth).
    unfold hand_with_depth, open_hand. repeat constructor.
  - apply (proj1 (proj2 reshape_inverts_flatten) (to_points closed_fist)).
    unfold closed_fist. repeat constructor.
  - apply (proj2 (proj2 reshape_inverts_flatten) [0.5; 0.25; 0.75]%float).
    reflexivity.
Defined.

Section TrainingRows.
Context {F : Type} {SF : Scalar F}.

Lemma advanced_loop_rows (label : Z) (raw : list (list F)) :
  Forall (fun fv => length fv = 42) raw ->
  forall acc, exists rows,
    advanced_loop label raw acc
    = Ret (fst acc ++ rows, snd acc ++ repeat label (length raw)) /\
    Forall2 inference_row raw rows.
Proof.
  induction 1 as [|flat raw Hflat _ IH]; intros acc.
  - exists []. cbn. rewrite !app_nil_r. split; [now destruct acc | constructor].
  - destruct (pair_up_even 21 flat Hflat) as [ps [Hps Hlen]].
    cbn [advanced_loop]. rewrite Hps. cbn [bind].
    rewrite (extract_advanced_features_closed_form ps Hlen). cbn [bind].
    pose proof (feature_vector_length ps) as H24.
    destruct (feature_vector ps) as [|f0 fs] eqn:Efv; [discriminate|].
    destruct (IH (fst acc ++ [f0 :: fs], snd acc ++ [label])) as [rows [Hrows Hall]].
    exists ((f0 :: fs) :: rows). rewrite Hrows. cbn [fst snd length repeat].
    rewrite <- !app_assoc. split; [reflexivity|].
    constructor; [|exact Hall].
    exists (to_points ps). split; [exact Hps|].
    split; [now apply to_points_valid|].
    rewrite <- Efv. now apply extract_features_closed_form.
Qed.

End TrainingRows.

(** X2.  On two parsed data files whose records have the shape the loader
    expects (the type [dataset]), [load_data_with_advanced_features]
    returns.  Its rows are, in order, the fist samples followed by the palm
    samples the loader accepted; each row is the vector the classifier's own
    [extract_features] returns on the reshaped sample; the labels are a
    block of 0s followed by a block of 1s of the matching sizes. *)
Theorem training_rows_are_inference_features {F : Type} {SF : Scalar F}
  (fist_path palm_path : string) (fist_data palm_data : dataset F) :
  let fist_features := fst (fst (load_landmark_data fist_path fist_data 0)) in
  let palm_features := fst (fst (load_landmark_data palm_path palm_data 1)) in
  exists X,
    load_data_with_advanced_features fist_path fist_data palm_path palm_data
    = Ret (X, repeat 0%Z (length fist_features) ++ repeat 1%Z (length palm_features)) /\
    Forall2 inference_row (fist_features ++ palm_features) X.
Proof.
  intros fist_features palm_features. subst fist_features palm_features.
  unfold load_data_with_advanced_features, load_landmark_data. cbn [fst snd].
  destruct (load_loop_invariant 0 fist_data) as (Hf & _ & _ & _).
  destruct (load_loop_invariant 1 palm_data) as (Hp & _ & _ & _).
  destruct (advanced_loop_rows 0 _ Hf ([], [])) as [rf [Erf Frf]].
  rewrite Erf. cbn [bind fst snd app].
  destruct (advanced_loop_rows 1 _ Hp
              (rf, repeat 0%Z (length (ls_features (load_loop 0 fist_data)))))
    as [rp [Erp Frp]].
  rewrite Erp. cbn [fst snd].
  exists (rf ++ rp). split; [reflexivity | now apply Forall2_app].
Qed.

Lemma count_occ_label_blocks (a b : nat) :
  count_occ Z.eq_dec (repeat 0%Z a ++ repeat 1%Z b) 0%Z = a /\
  count_occ Z.eq_dec (repeat 0%Z a ++ repeat 1%Z b) 1%Z = b.
Proof.
  rewrite !count_occ_app. split.
  - rewrite count_occ_repeat_eq, count_occ_repeat_neq by (reflexivity || discriminate). lia.
  - rewrite count_occ_repeat_neq, count_occ_repeat_eq by (reflexivity || discriminate). lia.
Qed.

(** X3.  On data files whose records have the shape the loader expects,
    [main] stops without writing an artifact exactly when one of the two
    files is missing or when no sample of either file is accepted by the
    loader.  Otherwise it trains the two candidates: it raises what the
    first [train_model] call that raises does, and writes one of the two
    returned models when both calls return.  A [train_model] call returns
    when the split, the fit and the report return, and raises what the
    first of them that raises does, or [ValueError] for a model type that
    is neither of the two. *)
Theorem main_outcome {F : Type} {SF : Scalar F}
  (train_test_split : list (list F) -> list Z -> py (partition F))
  (fit_random_forest fit_svc : list (list F) -> list Z -> py (Model F))
  (classification_report : list Z -> list Z -> py unit)
  (fist_json palm_json : option (dataset F)) :
  match main train_test_split fit_random_forest fit_svc classification_report
          fist_json palm_json with
  | Ret None =>
      fist_json = None \/ palm_json = None \/
      exists fist_data palm_data,
        fist_json = Some fist_data /\ palm_json = Some palm_data /\
        loaded_count 0 fist_data + loaded_count 1 palm_data = 0
  | Ret (Some art) =>
      exists fist_data palm_data X y rf sv,
        fist_json = Some fist_data /\ palm_json = Some palm_data /\
        0 < loaded_count 0 fist_data + loaded_count 1 palm_data /\
        load_data_with_advanced_features "fist.json" fist_data "palm.json" palm_data
        = Ret (X, y) /\
        train_model train_test_split fit_random_forest fit_svc classification_report
          X y "random_forest" = Ret rf /\
        train_model train_test_split fit_random_forest fit_svc classification_report
          X y "svm" = Ret sv /\
        (art_model art = fst rf \/ art_model art = fst sv)
  | Raise e =>
      exists fist_data palm_data X y,
        fist_json = Some fist_data /\ palm_json = Some palm_data /\
        0 < loaded_count 0 fist_data + loaded_count 1 palm_data /\
        load_data_with_advanced_features "fist.json" fist_data "palm.json" palm_data
        = Ret (X, y) /\
        (train_model train_test_split fit_random_forest fit_svc classification_report
           X y "random_forest" = Raise e \/
         (exists rf,
            train_model train_test_split fit_random_forest fit_svc classification_report
              X y "random_forest" = Ret rf) /\
         train_model train_test_split fit_random_forest fit_svc classification_report
           X y "svm" = Raise e)
  end /\
  (forall (X : list (list F)) (y : list Z) (model_type : string),
     match train_model train_test_split fit_random_forest fit_svc classification_report
             X y model_type with
     | Ret (m, a) =>
         exists parts,
           train_test_split X y = Ret parts /\
           ((model_type = "random_forest"%string /\
             fit_random_forest (X_train parts) (y_train parts) = Ret m) \/
            (model_type = "svm"%string /\
             fit_svc (X_train parts) (y_train parts) = Ret m)) /\
           classification_report (y_test parts) (map (model_predict m) (X_test parts))
           = Ret tt /\
           a = accuracy_score (y_test parts) (map (model_predict m) (X_test parts))
     | Raise e =>
         train_test_split X y = Raise e \/
         exists parts,
           train_test_split X y = Ret parts /\
           ((model_type <> "random_forest"%string /\ model_type <> "svm"%string /\
             e = ValueError) \/
            (model_type = "random_forest"%string /\
             fit_random_forest (X_train parts) (y_train parts) = Raise e) \/
            (model_type = "svm"%string /\
             fit_svc (X_train parts) (y_train parts) = Raise e) \/
            (exists m,
               ((model_type = "random_forest"%string /\
                 fit_random_forest (X_train parts) (y_train parts) = Ret m) \/
                (model_type = "svm"%string /\
                 fit_svc (X_train parts) (y_train parts) = Ret m)) /\
               classification_report (y_test parts)
                 (map (model_predict m) (X_test parts))
               = Raise e))
     end).
Proof.
  split.
  - destruct fist_json as [fist_data|]; [|now left].
    destruct palm_json as [palm_data|]; [|right; now left].
    destruct (load_data_total "fist.json" fist_data "palm.json" palm_data)
      as [X [Hload [Hlen _]]].
    rewrite (main_unfold _ _ _ _ _ _ _ _ Hload).
    destruct X as [|row X'].
    + right. right. exists fist_data, palm_data. unfold loaded_count.
      simpl in Hlen. repeat split. lia.
    + assert (Hpos : 0 < loaded_count 0 fist_data + loaded_count 1 palm_data).
      { unfold loaded_count. simpl in Hlen. lia. }
      destruct (train_model _ _ _ _ (row :: X') _ "random_forest") as [rf|e] eqn:Erf.
      * destruct (train_model _ _ _ _ (row :: X') _ "svm") as [sv|e] eqn:Esv.
        -- cbv zeta. eexists fist_data, palm_data, (row :: X'), _, rf, sv.
           split; [reflexivity|]. split; [reflexivity|]. split; [exact Hpos|].
           split; [exact Hload|]. split; [exact Erf|]. split; [exact Esv|].
           cbn [art_model]. destruct (f_leb _ _); [now left | now right].
        -- eexists fist_data, palm_data, (row :: X'), _.
           split; [reflexivity|]. split; [reflexivity|]. split; [exact Hpos|].
           split; [exact Hload|]. right. split; [now exists rf | exact Esv].
      * eexists fist_data, palm_data, (row :: X'), _.
        split; [reflexivity|]. split; [reflexivity|]. split; [exact Hpos|].
        split; [exact Hload|]. left. exact Erf.
  - intros X y model_type.
    destruct (train_model _ _ _ _ X y model_type) as [[m a]|e] eqn:E.
    + now apply train_model_returns in E.
    + now apply train_model_raises in E.
Qed.

(** X4.  In the metadata [main] writes, fist_samples and palm_samples are
    the numbers of samples the loader accepted from the fist file and from
    the palm file (the counts it prints), and training_samples is their sum. *)
Theorem metadata_sample_counts {F : Type} {SF : Scalar F}
  (train_test_split : list (list F) -> list Z -> py (partition F))
  (fit_random_forest fit_svc : list (list F) -> list Z -> py (Model F))
  (classification_report : list Z -> list Z -> py unit)
  (fist_data palm_data : dataset F) (art : artifact F) :
  main train_test_split fit_random_forest fit_svc classification_report
    (Some fist_data) (Some palm_data)
  = Ret (Some art) ->
  lookup_key "fist_samples" (art_metadata art)
  = Some (JInt (Z.of_nat (loaded_count 0 fist_data))) /\
  lookup_key "palm_samples" (art_metadata art)
  = Some (JInt (Z.of_nat (loaded_count 1 palm_data))) /\
  lookup_key "training_samples" (art_metadata art)
  = Some (JInt (Z.of_nat (loaded_count 0 fist_data + loaded_count 1 palm_data))) /\
  snd (load_landmark_data "fist.json" fist_data 0)
  = [LogLoading "fist.json"; LogLoaded (loaded_count 0 fist_data) 0] /\
  snd (load_landmark_data "palm.json" palm_data 1)
  = [LogLoading "palm.json"; LogLoaded (loaded_count 1 palm_data) 1].
Proof.
  intros Hmain.
  destruct (main_wrote _ _ _ _ _ _ _ Hmain)
    as (X & rf & sv & _ & _ & Hlen & _ & _ & _ & ->).
  destruct (count_occ_label_blocks (ls_count (load_loop 0 fist_data))
              (ls_count (load_loop 1 palm_data))) as [H0 H1].
  unfold loaded_count. cbn [art_metadata].
  unfold lookup_key. cbn [find fst snd String.eqb Ascii.eqb Bool.eqb andb].
  rewrite H0, H1, <- Hlen. repeat split.
Qed.

Lemma metadata_sample_counts_witness :
  lookup_key "fist_samples" (art_metadata toy_artifact)
  = Some (JInt (Z.of_nat (loaded_count 0 toy_fist_data))) /\
  lookup_key "palm_samples" (art_metadata toy_artifact)
  = Some (JInt (Z.of_nat (loaded_count 1 toy_palm_data))) /\
  lookup_key "training_samples" (art_metadata toy_artifact)
  = Some (JInt (Z.of_nat (loaded_count 0 toy_fist_data + loaded_count 1 toy_palm_data))) /\
  snd (load_landmark_data "fist.json" toy_fist_data 0)
  = [LogLoading "fist.json"; LogLoaded (loaded_count 0 toy_fist_data) 0] /\
  snd (load_landmark_data "palm.json" toy_palm_data 1)
  = [LogLoading "palm.json"; LogLoaded (loaded_count 1 toy_palm_data) 1].
Proof.
  apply (metadata_sample_counts toy_split toy_fit toy_fit toy_report
           toy_fist_data toy_palm_data toy_artifact).
  vm_compute. reflexivity.
Defined.

Lemma correct_count_le (y_true y_pred : list Z) :
  correct_count y_true y_pred <= length y_true.
Proof.
  unfold correct_count.
  etransitivity; [apply filter_length_le|].
  rewrite length_combine. apply Nat.le_min_l.
Qed.

Lemma accuracy_score_unit_interval (y_true y_pred : list Z) :
  y_true <> [] ->
  (0 <= @accuracy_score R R_scalar y_true y_pred <= 1)%R.
Proof.
  intros Hne. unfold accuracy_score.
  change (@f_div R R_scalar) with Rdiv. change (@f_of_Z R R_scalar) with IZR.
  pose proof (correct_count_le y_true y_pred) as Hle.
  assert (Hn : (0 < IZR (Z.of_nat (length y_true)))%R).
  { apply (IZR_lt 0). destruct y_true; [contradiction | simpl; lia]. }
  assert (Hc : (0 <= IZR (Z.of_nat (correct_count y_true y_pred)))%R).
  { apply (IZR_le 0). lia. }
  assert (Hcn : (IZR (Z.of_nat (correct_count y_true y_pred))
                 <= IZR (Z.of_nat (length y_true)))%R).
  { apply IZR_le. lia. }
  split.
  - apply Rmult_le_pos; [exact Hc | left; now apply Rinv_0_lt_compat].
  - apply Rmult_le_reg_r with (IZR (Z.of_nat (length y_true))); [exact Hn|].
    unfold Rdiv. rewrite Rmult_assoc, Rinv_l by lra. lra.
Qed.

(** X5.  Read over exact reals: when [main] writes an artifact, both
    candidates were returned by [train_model], and the accuracy in the
    metadata is the greater of the two candidates' accuracies on the whole
    dataset; it lies between 0 and 1. *)
Theorem metadata_accuracy_is_best_of_two
  (train_test_split : list (list R) -> list Z -> py (partition R))
  (fit_random_forest fit_svc : list (list R) -> list Z -> py (Model R))
  (classification_report : list Z -> list Z -> py unit)
  (fist_data palm_data : dataset R) (art : artifact R) :
  main train_test_split fit_random_forest fit_svc classification_report
    (Some fist_data) (Some palm_data)
  = Ret (Some art) ->
  exists X y rf sv a,
    load_data_with_advanced_features "fist.json" fist_data "palm.json" palm_data
    = Ret (X, y) /\
    train_model train_test_split fit_random_forest fit_svc classification_report
      X y "random_forest" = Ret rf /\
    train_model train_test_split fit_random_forest fit_svc classification_report
      X y "svm" = Ret sv /\
    lookup_key "accuracy" (art_metadata art) = Some (JFloat a) /\
    a = Rmax (full_accuracy (fst rf) X y) (full_accuracy (fst sv) X y) /\
    (0 <= a <= 1)%R.
Proof.
  intros Hmain.
  destruct (main_wrote _ _ _ _ _ _ _ Hmain)
    as (X & rf & sv & Hload & Hne & Hlen & _ & Erf & Esv & ->).
  set (y := repeat 0%Z (ls_count (load_loop 0 fist_data))
            ++ repeat 1%Z (ls_count (load_loop 1 palm_data))) in *.
  assert (Hy : y <> []).
  { intros E. apply (f_equal (@length Z)) in E. subst y.
    rewrite length_app, !repeat_length in E. simpl in E.
    rewrite <- Hlen in E. destruct X; [contradiction | discriminate E]. }
  set (rf_acc := full_accuracy (fst rf) X y).
  set (svm_acc := full_accuracy (fst sv) X y).
  assert (Hrf : (0 <= rf_acc <= 1)%R) by (apply accuracy_score_unit_interval; exact Hy).
  assert (Hsvm : (0 <= svm_acc <= 1)%R) by (apply accuracy_score_unit_interval; exact Hy).
  exists X, y, rf, sv, (if f_leb svm_acc rf_acc then rf_acc else svm_acc).
  split; [exact Hload|]. split; [exact Erf|]. split; [exact Esv|].
  split; [reflexivity|].
  change (@f_leb R R_scalar) with Rleb. unfold Rleb.
  destruct (Rle_dec svm_acc rf_acc) as [L|L].
  - split; [|exact Hrf]. rewrite Rmax_left; [reflexivity | exact L].
  - split; [|exact Hsvm].
    rewrite Rmax_right; [reflexivity | now apply Rlt_le, Rnot_le_lt].
Qed.

Lemma metadata_accuracy_is_best_of_two_witness :
  exists art X y rf sv a,
    main toy_split (fit_constant 0) (fit_constant 1) toy_report
      (Some exact_data_3) (Some exact_data_4)
    = Ret (Some art) /\
    load_data_with_advanced_features "fist.json" exact_data_3 "palm.json" exact_data_4
    = Ret (X, y) /\
    train_model toy_split (fit_constant 0) (fit_constant 1) toy_report
      X y "random_forest" = Ret rf /\
    train_model toy_split (fit_constant 0) (fit_constant 1) toy_report
      X y "svm" = Ret sv /\
    lookup_key "accuracy" (art_metadata art) = Some (JFloat a) /\
    a = Rmax (full_accuracy (fst rf) X y) (full_accuracy (fst sv) X y) /\
    (0 <= a <= 1)%R.
Proof.
  destruct (load_data_total "fist.json" exact_data_3 "palm.json" exact_data_4)
    as [X [Hload [Hlen _]]].
  change (length X = 7) in Hlen.
  pose proof (main_unfold toy_split (fit_constant 0) (fit_constant 1) toy_report
                exact_data_3 exact_data_4 X _ Hload) as Hmain.
  do 7 (destruct X as [|? X]; [discriminate Hlen|]).
  destruct X; [|discriminate Hlen].
  destruct (metadata_accuracy_is_best_of_two toy_split (fit_constant 0)
              (fit_constant 1) toy_report exact_data_3 exact_data_4 _ Hmain)
    as (X & y & rf & sv & a & H).
  eexists. exists X, y, rf, sv, a. split; [exact Hmain | exact H].
Defined.

(** * Further properties of the classifier *)

(** X6.  The constructor leaves the classifier available exactly when the
    model file loads and the metadata file, if there is one, parses: an
    unreadable [model_metadata.json] discards a model that did load, and
    [predict] then returns [None] on every input.  Without a metadata file
    the model is kept.  No path means the default path. *)
Theorem constructor_availability {F : Type} {SF : Scalar F}
  (fs : string -> model_files F) (model_path : option string) :
  let files := fs (resolve_model_path model_path) in
  (is_available (GripClassifier_init fs model_path) = true <->
   (exists m, pkl files = Content m) /\ metadata_json files <> Unreadable) /\
  (forall m, pkl files = Content m -> metadata_json files <> Unreadable ->
     gc_model (GripClassifier_init fs model_path) = Some m) /\
  (metadata_json files = Unreadable ->
     forall landmarks, predict (GripClassifier_init fs model_path) landmarks = Ret None) /\
  GripClassifier_init fs None = GripClassifier_init fs (Some default_model_path).
Proof.
  intros files. subst files. unfold GripClassifier_init.
  destruct (pkl (fs (resolve_model_path model_path))) as [| |m] eqn:Ep;
    destruct (metadata_json (fs (resolve_model_path model_path))) as [| |md] eqn:Em;
    cbn [is_available gc_model predict].
  all: repeat split; try discriminate; try reflexivity.
  all: try (intros [[m' Hm'] Hne]; try discriminate Hm'; now contradiction Hne).
  all: try (intros _; split; [now eexists | discriminate]).
  all: try (intros m' Hm' Hne; try discriminate Hm'; try (now contradiction Hne);
            now injection Hm' as ->).
  all: now exists m.
Qed.

Lemma constructor_availability_witness :
  predict (GripClassifier_init
             (fun _ => {| pkl := Content toy_model; metadata_json := Unreadable |})
             None)
          (PointList (to_points open_hand)) = Ret None.
Proof.
  apply (proj1 (proj2 (proj2 (constructor_availability
           (fun _ => {| pkl := Content toy_model; metadata_json := Unreadable |})
           None)))).
  reflexivity.
Defined.

(** X7.  [predict] does not catch what feature extraction raises: with a
    model loaded, 21 points of which one has fewer than two coordinates make
    it raise [ValueError] or [IndexError] instead of returning [None].  It
    also raises [ValueError] when the model's [predict_proba] returns an
    empty vector on a valid landmark set. *)
Theorem predict_propagates_errors {F : Type} {SF : Scalar F}
  (self : GripClassifier F) (model : Model F) (l : list (list F)) :
  gc_model self = Some model ->
  (length l = 21 -> Exists (fun p => length p < 2) l ->
   predict self (PointList l) = Raise ValueError \/
   predict self (PointList l) = Raise IndexError) /\
  (valid_points l ->
   (exists predict_proba,
      model_predict_proba model = Some predict_proba /\
      forall features, predict_proba features = []) ->
   predict self (PointList l) = Raise ValueError).
Proof.
  intros Hm. split.
  - intros Hlen Hex. unfold predict. rewrite Hm.
    destruct (short_point_raises l Hlen Hex) as [H|H]; rewrite H; [now left | now right].
  - intros Hv [pp [Hpp Hempty]]. unfold predict. rewrite Hm.
    destruct (valid_points_pairs l Hv) as [ps [Hlen ->]].
    rewrite (extract_features_closed_form ps Hlen). cbn [bind].
    rewrite Hpp, Hempty. reflexivity.
Qed.

Lemma predict_propagates_errors_witness :
  (predict {| gc_model := Some toy_model; gc_metadata := None |}
           (PointList hand_with_short_point) = Raise ValueError \/
   predict {| gc_model := Some toy_model; gc_metadata := None |}
           (PointList hand_with_short_point) = Raise IndexError) /\
  predict {| gc_model := Some silent_model; gc_metadata := None |}
          (PointList (to_points open_hand)) = Raise ValueError.
Proof.
  split.
  - apply (proj1 (predict_propagates_errors
                    {| gc_model := Some toy_model; gc_metadata := None |}
                    toy_model hand_with_short_point eq_refl)).
    + reflexivity.
    + apply Exists_cons_hd. simpl. lia.
  - apply (proj2 (predict_propagates_errors
                    {| gc_model := Some silent_model; gc_metadata := None |}
                    silent_model (to_points open_hand) eq_refl)).
    + split; [reflexivity | repeat constructor].
    + eexists. split; [reflexivity|]. reflexivity.
Defined.

Lemma same_xy_points {F : Type} (lms lms' : list (NormalizedLandmark F)) :
  Forall2 same_xy lms lms' ->
  map (fun lm => [lm_x lm; lm_y lm]) lms = map (fun lm => [lm_x lm; lm_y lm]) lms'.
Proof.
  induction 1 as [|a b l l' [Hx Hy] _ IH]; [reflexivity|].
  cbn [map]. now rewrite Hx, Hy, IH.
Qed.

(** X8.  On a MediaPipe object the classifier reads only [x] and [y] of
    each landmark: two objects whose landmarks agree on [x] and [y] get the
    same features and the same prediction whatever their [z], and the
    object is treated exactly as the list of its [x, y] pairs. *)
Theorem depth_is_ignored {F : Type} {SF : Scalar F}
  (self : GripClassifier F) (lms lms' : list (NormalizedLandmark F)) :
  Forall2 same_xy lms lms' ->
  extract_features (HandLandmarks lms) = extract_features (HandLandmarks lms') /\
  predict self (HandLandmarks lms) = predict self (HandLandmarks lms') /\
  predict self (HandLandmarks lms)
  = predict self (PointList (map (fun lm => [lm_x lm; lm_y lm]) lms)).
Proof.
  intros H. apply same_xy_points in H.
  assert (E : extract_features (HandLandmarks lms)
              = extract_features (HandLandmarks lms')).
  { unfold extract_features. rewrite H. reflexivity. }
  split; [exact E|]. split.
  - unfold predict. now rewrite E.
  - reflexivity.
Qed.

Lemma depth_is_ignored_witness :
  extract_features (HandLandmarks (mediapipe_hand 0))
  = extract_features (HandLandmarks (mediapipe_hand 0.25)) /\
  predict {| gc_model := Some toy_model; gc_metadata := None |}
          (HandLandmarks (mediapipe_hand 0))
  = predict {| gc_model := Some toy_model; gc_metadata := None |}
            (HandLandmarks (mediapipe_hand 0.25)) /\
  predict {| gc_model := Some toy_model; gc_metadata := None |}
          (HandLandmarks (mediapipe_hand 0))
  = predict {| gc_model := Some toy_model; gc_metadata := None |}
            (PointList (map (fun lm => [lm_x lm; lm_y lm]) (mediapipe_hand 0))).
Proof.
  apply (depth_is_ignored {| gc_model := Some toy_model; gc_metadata := None |}
           (mediapipe_hand 0) (mediapipe_hand 0.25)).
  unfold mediapipe_hand, open_hand. repeat constructor.
Defined.

(** * Further properties of the feature vector *)

Lemma pt_of_nth_error {F : Type} {SF : Scalar F} (ps ps' : list (F * F)) (i : nat) :
  nth_error ps i = nth_error ps' i -> pt ps i = pt ps' i.
Proof.
  intros H. unfold pt. rewrite <- !nth_default_eq. unfold nth_default.
  now rewrite H.
Qed.

(** X9.  Only the bounding-box area looks at all 21 landmarks.  Two valid
    landmark sets that agree on the wrist, the five fingertips and the four
    MCPs (landmarks 0, 4, 5, 8, 9, 12, 13, 16, 17, 20) get the same feature
    at every position other than 13, wherever their other joints are. *)
Theorem features_depend_on_key_landmarks {F : Type} {SF : Scalar F}
  (ps ps' : list (F * F)) :
  length ps = 21 -> length ps' = 21 ->
  (forall i, In i key_landmarks -> nth_error ps i = nth_error ps' i) ->
  exists v v',
    extract_features (PointList (to_points ps)) = Ret (Some v) /\
    extract_features (PointList (to_points ps')) = Ret (Some v') /\
    forall j, j <> area_index -> nth_error v j = nth_error v' j.
Proof.
  intros Hlen Hlen' Hkey.
  exists (feature_vector ps), (feature_vector ps').
  split; [now apply extract_features_closed_form|].
  split; [now apply extract_features_closed_form|].
  assert (E : forall i, In i key_landmarks -> pt ps i = pt ps' i).
  { intros i Hi. apply pt_of_nth_error. now apply Hkey. }
  unfold key_landmarks in E.
  pose proof (E 0 ltac:(simpl; tauto)) as E0.
  pose proof (E 4 ltac:(simpl; tauto)) as E4.
  pose proof (E 5 ltac:(simpl; tauto)) as E5.
  pose proof (E 8 ltac:(simpl; tauto)) as E8.
  pose proof (E 9 ltac:(simpl; tauto)) as E9.
  pose proof (E 12 ltac:(simpl; tauto)) as E12.
  pose proof (E 13 ltac:(simpl; tauto)) as E13.
  pose proof (E 16 ltac:(simpl; tauto)) as E16.
  pose proof (E 17 ltac:(simpl; tauto)) as E17.
  pose proof (E 20 ltac:(simpl; tauto)) as E20.
  intros j Hj. unfold feature_vector, tips_of.
  rewrite E0, E4, E5, E8, E9, E12, E13, E16, E17, E20.
  unfold area_index in Hj.
  do 13 (destruct j as [|j]; [reflexivity|]).
  destruct j as [|j]; [contradiction|].
  do 10 (destruct j as [|j]; [reflexivity|]).
  reflexivity.
Qed.

Lemma features_depend_on_key_landmarks_witness :
  exists v v',
    extract_features (PointList (to_points open_hand)) = Ret (Some v) /\
    extract_features (PointList (to_points open_hand_bent_thumb)) = Ret (Some v') /\
    forall j, j <> area_index -> nth_error v j = nth_error v' j.
Proof.
  apply (features_depend_on_key_landmarks open_hand open_hand_bent_thumb).
  - reflexivity.
  - reflexivity.
  - intros i Hi. unfold key_landmarks in Hi. simpl in Hi.
    repeat (destruct Hi as [<-|Hi]; [reflexivity|]). contradiction.
Defined.

Section FeatureRelations.
Local Open Scope R_scope.

Ltac real_ops :=
  change (@f_add R R_scalar) with Rplus in *;
  change (@f_sub R R_scalar) with Rminus in *;
  change (@f_mul R R_scalar) with Rmult in *;
  change (@f_div R R_scalar) with Rdiv in *;
  change (@f_sqrt R R_scalar) with R_sqrt.sqrt in *;
  change (@f_ltb R R_scalar) with Rltb in *;
  change (@f_zero R R_scalar) with 0 in *;
  change (@f_of_Z R R_scalar) with IZR in *;
  change (@f_eps R R_scalar) with (/ 1000000) in *.

Lemma min_loop_lower (r : list R) (b : R) : min_loop b r <= b.
Proof.
  revert b. induction r as [|x r IH]; intros b; cbn [min_loop]; [lra|].
  specialize (IH (if f_ltb x b then x else b)). real_ops. unfold Rltb in *.
  destruct (Rlt_dec x b); lra.
Qed.

Lemma spread_nonneg (l : list R) : 0 <= spread l.
Proof.
  unfold spread, max_of, min_of. destruct l as [|x r]; real_ops; [lra|].
  pose proof (min_loop_lower r x). pose proof (proj1 (max_loop_upper r x)). lra.
Qed.

Lemma dist_nonneg (a b : R * R) : 0 <= dist a b.
Proof. unfold dist, diff. rewrite np_norm_pair. apply sqrt_pos. Qed.

Lemma dist_squared (a b : R * R) :
  dist a b * dist a b
  = (fst a - fst b) * (fst a - fst b) + (snd a - snd b) * (snd a - snd b).
Proof.
  unfold dist, diff. rewrite np_norm_pair. real_ops. apply sqrt_sqrt.
  apply Rplus_le_le_0_compat; apply Rle_0_sqr.
Qed.

Lemma mean_of_five (a b c d e : R) : 5 * np_mean [a; b; c; d; e] = a + b + c + d + e.
Proof.
  unfold np_mean, f_sum. cbn [fold_left length]. real_ops.
  change (IZR (Z.of_nat 5)) with 5. field.
Qed.

End FeatureRelations.

(** X10.  Read over exact reals, the features of a valid landmark set are
    tied to one another: the ten distance and spread features (positions 0
    to 9) and the area (position 13) are never negative; feature 5 is the
    mean of features 0 to 4; and each wrist-to-fingertip distance is the
    length of the corresponding wrist-relative coordinate pair at the end of
    the vector. *)
Theorem feature_vector_relations (ps : list (R * R)) :
  length ps = 21 ->
  exists v,
    extract_features (PointList (to_points ps)) = Ret (Some v) /\
    Forall (fun x => (0 <= x)%R) (firstn 10 v) /\
    (0 <= nth 13 v 0)%R /\
    (5 * nth 5 v 0 = nth 0 v 0 + nth 1 v 0 + nth 2 v 0 + nth 3 v 0 + nth 4 v 0)%R /\
    forall i, i < 5 ->
      (nth i v 0 * nth i v 0
       = nth (14 + 2 * i) v 0 * nth (14 + 2 * i) v 0
         + nth (15 + 2 * i) v 0 * nth (15 + 2 * i) v 0)%R.
Proof.
  intros H. exists (feature_vector ps).
  split; [now apply extract_features_closed_form|].
  unfold feature_vector, tips_of.
  set (w := pt ps 0). set (t4 := pt ps 4). set (t8 := pt ps 8).
  set (t12 := pt ps 12). set (t16 := pt ps 16). set (t20 := pt ps 20).
  cbn [map app concat firstn nth]. split; [|split; [|split]].
  - repeat apply Forall_cons; try apply Forall_nil;
      try apply dist_nonneg; try apply spread_nonneg.
    apply Rmult_le_reg_l with 5%R; [lra|]. rewrite mean_of_five, Rmult_0_r.
    pose proof (dist_nonneg t4 w). pose proof (dist_nonneg t8 w).
    pose proof (dist_nonneg t12 w). pose proof (dist_nonneg t16 w).
    pose proof (dist_nonneg t20 w). lra.
  - change (@f_mul R R_scalar) with Rmult.
    apply Rmult_le_pos; apply spread_nonneg.
  - apply mean_of_five.
  - intros i Hi.
    destruct i as [|[|[|[|[|i]]]]]; try lia;
      cbn [nth Nat.add Nat.mul diff app]; apply dist_squared.
Qed.

Lemma feature_vector_relations_witness :
  exists v,
    extract_features (PointList (to_points exact_hand)) = Ret (Some v) /\
    Forall (fun x => (0 <= x)%R) (firstn 10 v) /\
    (0 <= nth 13 v 0)%R /\
    (5 * nth 5 v 0 = nth 0 v 0 + nth 1 v 0 + nth 2 v 0 + nth 3 v 0 + nth 4 v 0)%R /\
    forall i, i < 5 ->
      (nth i v 0 * nth i v 0
       = nth (14 + 2 * i) v 0 * nth (14 + 2 * i) v 0
         + nth (15 + 2 * i) v 0 * nth (15 + 2 * i) v 0)%R.
Proof.
  apply (feature_vector_relations exact_hand). reflexivity.
Defined.

Section ScalingFacts.
Local Open Scope R_scope.

Ltac real_ops :=
  change (@f_add R R_scalar) with Rplus in *;
  change (@f_sub R R_scalar) with Rminus in *;
  change (@f_mul R R_scalar) with Rmult in *;
  change (@f_div R R_scalar) with Rdiv in *;
  change (@f_sqrt R R_scalar) with R_sqrt.sqrt in *;
  change (@f_ltb R R_scalar) with Rltb in *;
  change (@f_zero R R_scalar) with 0 in *;
  change (@f_of_Z R R_scalar) with IZR in *.

Lemma Rltb_scale (s a b : R) : 0 < s -> Rltb (s * a) (s * b) = Rltb a b.
Proof.
  intros Hs. unfold Rltb.
  destruct (Rlt_dec (s * a) (s * b)), (Rlt_dec a b); try reflexivity; exfalso; nra.
Qed.

Lemma max_loop_scale (s : R) (r : list R) (b : R) :
  0 < s -> max_loop (s * b) (map (Rmult s) r) = s * max_loop b r.
Proof.
  intros Hs. revert b. induction r as [|x r IH]; intros b; cbn [max_loop map];
    [reflexivity|].
  real_ops. rewrite Rltb_scale by exact Hs. rewrite <- IH. f_equal.
  now destruct (Rltb b x).
Qed.

Lemma min_loop_scale (s : R) (r : list R) (b : R) :
  0 < s -> min_loop (s * b) (map (Rmult s) r) = s * min_loop b r.
Proof.
  intros Hs. revert b. induction r as [|x r IH]; intros b; cbn [min_loop map];
    [reflexivity|].
  real_ops. rewrite Rltb_scale by exact Hs. rewrite <- IH. f_equal.
  now destruct (Rltb x b).
Qed.

Lemma spread_scale (s : R) (l : list R) :
  0 < s -> spread (map (Rmult s) l) = s * spread l.
Proof.
  intros Hs. unfold spread, max_of, min_of. destruct l as [|x r]; cbn [map].
  - real_ops. lra.
  - rewrite max_loop_scale, min_loop_scale by exact Hs. real_ops. lra.
Qed.

Lemma dist_scale (s : R) (a b : R * R) :
  0 < s ->
  dist (s * fst a, s * snd a) (s * fst b, s * snd b) = s * dist a b.
Proof.
  intros Hs. unfold dist, diff. cbn [fst snd]. rewrite !np_norm_pair. real_ops.
  replace ((s * fst a - s * fst b) * (s * fst a - s * fst b)
           + (s * snd a - s * snd b) * (s * snd a - s * snd b))
    with (s * s * ((fst a - fst b) * (fst a - fst b)
                   + (snd a - snd b) * (snd a - snd b))) by ring.
  rewrite sqrt_mult_alt by nra. now rewrite sqrt_square by lra.
Qed.

Lemma pt_scale (s : R) (ps : list (R * R)) (i : nat) :
  (i < length ps)%nat -> pt (scale s ps) i = (s * fst (pt ps i), s * snd (pt ps i)).
Proof.
  intros H. unfold pt, scale.
  now rewrite nth_map_in_range with (d' := (@f_zero R R_scalar, @f_zero R R_scalar)).
Qed.

Lemma scale_fst (s : R) (ps : list (R * R)) :
  map fst (scale s ps) = map (Rmult s) (map fst ps).
Proof. unfold scale. rewrite !map_map. reflexivity. Qed.

Lemma scale_snd (s : R) (ps : list (R * R)) :
  map snd (scale s ps) = map (Rmult s) (map snd ps).
Proof. unfold scale. rewrite !map_map. reflexivity. Qed.

Lemma mean_of_five_scale (s a b c d e : R) :
  np_mean [s * a; s * b; s * c; s * d; s * e] = s * np_mean [a; b; c; d; e].
Proof.
  unfold np_mean, f_sum. cbn [fold_left length]. real_ops.
  change (IZR (Z.of_nat 5)) with 5. field.
Qed.

End ScalingFacts.

(** X11.  Read over exact reals, the features are not scale-free: enlarging
    a valid landmark set by a factor s > 0 multiplies every distance, mean,
    spread and wrist-relative coordinate (positions 0 to 9 and 14 to 23) by
    s, and the bounding-box area (position 13) by s squared. *)
Theorem features_scale_with_the_hand (s : R) (ps : list (R * R)) :
  (0 < s)%R -> length ps = 21 ->
  exists v v',
    extract_features (PointList (to_points ps)) = Ret (Some v) /\
    extract_features (PointList (to_points (scale s ps))) = Ret (Some v') /\
    (forall j, j < 10 \/ 14 <= j < 24 -> nth j v' 0%R = (s * nth j v 0)%R) /\
    nth 13 v' 0%R = (s * s * nth 13 v 0)%R.
Proof.
  intros Hs H. exists (feature_vector ps), (feature_vector (scale s ps)).
  split; [now apply extract_features_closed_form|].
  split; [apply extract_features_closed_form; unfold scale; now rewrite length_map|].
  unfold feature_vector, tips_of.
  rewrite scale_fst, scale_snd, !spread_scale by exact Hs.
  rewrite !pt_scale by lia.
  set (w := pt ps 0). set (t4 := pt ps 4). set (t8 := pt ps 8).
  set (t12 := pt ps 12). set (t16 := pt ps 16). set (t20 := pt ps 20).
  set (m5 := pt ps 5). set (m9 := pt ps 9). set (m13 := pt ps 13).
  set (m17 := pt ps 17).
  cbn [map fst snd].
  change (spread [s * fst t4; s * fst t8; s * fst t12; s * fst t16; s * fst t20]%R)
    with (spread (map (Rmult s) [fst t4; fst t8; fst t12; fst t16; fst t20])).
  change (spread [s * snd t4; s * snd t8; s * snd t12; s * snd t16; s * snd t20]%R)
    with (spread (map (Rmult s) [snd t4; snd t8; snd t12; snd t16; snd t20])).
  rewrite !spread_scale, !dist_scale, mean_of_five_scale by exact Hs.
  cbn [app concat diff fst snd].
  change (@f_sub R R_scalar) with Rminus. change (@f_mul R R_scalar) with Rmult.
  split.
  - intros j [Hj|Hj].
    + do 10 (destruct j as [|j]; [cbn [nth]; reflexivity|]). lia.
    + do 14 (destruct j as [|j]; [lia|]).
      do 10 (destruct j as [|j]; [cbn [nth]; ring|]). lia.
  - cbn [nth]. ring.
Qed.

Lemma features_scale_with_the_hand_witness :
  exists v v',
    extract_features (PointList (to_points exact_hand)) = Ret (Some v) /\
    extract_features (PointList (to_points (scale 2%R exact_hand))) = Ret (Some v') /\
    (forall j, j < 10 \/ 14 <= j < 24 -> nth j v' 0%R = (2 * nth j v 0)%R) /\
    nth 13 v' 0%R = (2 * 2 * nth 13 v 0)%R.
Proof.
  apply (features_scale_with_the_hand 2%R exact_hand).
  - lra.
  - reflexivity.
Defined.

(** X12.  Given as a list, 21 points of three coordinates each are accepted
    by [extract_features], and the third coordinate enters the result: the
    five wrist-to-fingertip distances are norms of three-coordinate
    differences, while the ten wrist-relative coordinates use the first two
    only.  The loader keeps the first two coordinates of such a hand, so the
    training row of the same hand is the feature vector of its [x, y]
    points. *)
Theorem three_coordinate_points_use_depth {F : Type} {SF : Scalar F}
  (ts : list (F * F * F)) :
  length ts = 21 ->
  (exists v,
     extract_features (PointList (to_points3 ts)) = Ret (Some v) /\
     length v = 24 /\
     firstn 5 v
     = map (fun i => np_norm (diff3 (pt3 ts i) (pt3 ts 0))) [4; 8; 12; 16; 20] /\
     skipn 14 v
     = concat (map (fun i => diff (fst (pt3 ts i)) (fst (pt3 ts 0))) [4; 8; 12; 16; 20])) /\
  flatten_points (to_points3 ts) = flatten_points (to_points (drop_depth ts)) /\
  inference_row (flatten_points (to_points3 ts)) (feature_vector (drop_depth ts)).
Proof.
  intros H. split; [|split].
  - do 21 (destruct ts as [|[[? ?] ?] ts]; [discriminate|]).
    destruct ts; [|discriminate].
    eexists. split.
    + cbv - [max_loop min_loop np_norm np_dot np_mean
             f_add f_sub f_mul f_div f_eps f_zero].
      reflexivity.
    + split; [reflexivity|]. split; reflexivity.
  - unfold to_points3, to_points, drop_depth. clear H.
    induction ts as [|[[x y] z] ts IH]; [reflexivity|].
    cbn [map flatten_points flat_map fst snd app]. f_equal. f_equal. exact IH.
  - assert (E : flatten_points (to_points3 ts) = flatten_points (to_points (drop_depth ts))).
    { unfold to_points3, to_points, drop_depth. clear H.
      induction ts as [|[[x y] z] ts IH]; [reflexivity|].
      cbn [map flatten_points flat_map fst snd app]. f_equal. f_equal. exact IH. }
    rewrite E. exists (to_points (drop_depth ts)).
    assert (Hlen : length (drop_depth ts) = 21)
      by (unfold drop_depth; now rewrite length_map).
    split; [|split].
    + apply pair_up_flatten_two. now apply to_points_valid.
    + now apply to_points_valid.
    + now apply extract_features_closed_form.
Qed.

Lemma three_coordinate_points_use_depth_witness :
  (exists v,
     extract_features (PointList (to_points3 (open_hand_at_depth 0.5))) = Ret (Some v) /\
     length v = 24 /\
     firstn 5 v
     = map (fun i => np_norm (diff3 (pt3 (open_hand_at_depth 0.5) i)
                                    (pt3 (open_hand_at_depth 0.5) 0)))
           [4; 8; 12; 16; 20] /\
     skipn 14 v
     = concat (map (fun i => diff (fst (pt3 (open_hand_at_depth 0.5) i))
                                  (fst (pt3 (open_hand_at_depth 0.5) 0)))
                   [4; 8; 12; 16; 20])) /\
  flatten_points (to_points3 (open_hand_at_depth 0.5))
  = flatten_points (to_points (drop_depth (open_hand_at_depth 0.5))) /\
  inference_row (flatten_points (to_points3 (open_hand_at_depth 0.5)))
                (feature_vector (drop_depth (open_hand_at_depth 0.5))).
Proof.
  apply (three_coordinate_points_use_depth (open_hand_at_depth 0.5)). reflexivity.
Defined.

(** On binary64: with every point but the wrist at depth 0.5, inference on
    the three-coordinate list sees the thumb tip more than 0.6 away from the
    wrist, the training row of the same hand less than 0.35. *)
Example depth_changes_inference_not_training :
  exists v d d',
    extract_features (PointList (to_points3 (open_hand_at_depth 0.5))) = Ret (Some v) /\
    nth_error v 0 = Some d /\
    nth_error (feature_vector (drop_depth (open_hand_at_depth 0.5))) 0 = Some d' /\
    PrimFloat.ltb 0.6 d = true /\
    PrimFloat.ltb d' 0.35 = true.
Proof.
  do 3 eexists. split; [vm_compute; reflexivity|].
  split; [vm_compute; reflexivity|]. split; [vm_compute; reflexivity|].
  split; vm_compute; reflexivity.
Qed.

(** * Properties of the connection diagnostics *)

Section ClientFacts.
Import Client.

Lemma io_bind_fst {A B : Type} (m : io A) (k : A -> io B) :
  fst (io_bind m k) = fst (k (fst m)).
Proof. unfold io_bind. destruct m as [a t1]. cbn. now destruct (k a). Qed.

Lemma io_bind_snd {A B : Type} (m : io A) (k : A -> io B) :
  snd (io_bind m k) = snd m ++ snd (k (fst m)).
Proof. unfold io_bind. destruct m as [a t1]. cbn. now destruct (k a). Qed.

Lemma printed_app (t1 t2 : list event) : printed (t1 ++ t2) = printed t1 ++ printed t2.
Proof. unfold printed. apply flat_map_app. Qed.

End ClientFacts.

Lemma In_existsb (line : string) (l : list string) :
  In line l <-> existsb (String.eqb line) l = true.
Proof.
  rewrite existsb_exists. split.
  - intros H. exists line. split; [exact H | apply String.eqb_refl].
  - intros [x [Hx E]]. apply String.eqb_eq in E. now subst x.
Qed.

(** Settles [In line printed <-> fact] on evaluated output. *)
Ltac line_iff :=
  rewrite In_existsb; vm_compute;
  split; intros; first [reflexivity | discriminate].


Section TestConnectionFacts.
Import Client.
Import Client.TestConnection.

Ltac not_printed H :=
  cbn in H; repeat (destruct H as [H|H]; [discriminate H|]); try contradiction.

Ltac each_verdict Hl :=
  unfold verdict_lines in Hl; cbn [In] in Hl;
  repeat (destruct Hl as [<-|Hl]); [..|contradiction].

Lemma wifi_prints_no_verdict (w : world) (ssid line : string) :
  In line verdict_lines ->
  ~ In line (printed (snd (check_wifi_connection w ssid))).
Proof.
  intros Hl. unfold check_wifi_connection, run, io_bind, io_ret, print.
  cbv beta iota zeta.
  destruct (String.eqb (platform_system w) "Windows"); cbv beta iota zeta;
    [destruct (subprocess_run w ["netsh"; "wlan"; "show"; "interfaces"]%string 5)
       as [stdout rc|e]; cbv beta iota zeta; [destruct (contains ssid stdout)|]|];
    intros H; each_verdict Hl; not_printed H.
Qed.

Lemma ping_prints_no_verdict (w : world) (host line : string) (timeout : Z) :
  In line verdict_lines ->
  ~ In line (printed (snd (ping_host w host timeout))).
Proof.
  intros Hl. unfold ping_host, run, io_bind, io_ret, print.
  cbv beta iota zeta.
  destruct (subprocess_run w _ (timeout + 1)) as [stdout [|p|p]|e];
    intros H; each_verdict Hl; not_printed H.
Qed.

Lemma port_prints_no_verdict (w : world) (host line : string) (port timeout : Z) :
  In line verdict_lines ->
  ~ In line (printed (snd (check_port w host port timeout))).
Proof.
  intros Hl. unfold check_port, connect_ex, io_bind, io_ret, print.
  cbv beta iota zeta.
  destruct (sock_connect_ex w host port timeout) as [code|e|e]; cbv beta iota zeta;
    [destruct (Z.eqb code 0);
       [|destruct (Z.eqb code 10061); [|destruct (Z.eqb code 10060)]]| |];
    intros H; each_verdict Hl; not_printed H.
Qed.

Lemma tcp_prints_no_verdict (w : world) (host line : string) (port timeout : Z) :
  In line verdict_lines ->
  ~ In line (printed (snd (test_tcp_connection w host port timeout))).
Proof.
  intros Hl. unfold test_tcp_connection, connect, io_bind, io_ret, print.
  cbv beta iota zeta.
  destruct (sock_connect w host port timeout) as [| | |e|e];
    intros H; each_verdict Hl; not_printed H.
Qed.

Lemma summary_verdicts (wifi_ok : option bool) (ping_ok port_ok tcp_ok : bool) :
  let out := printed (snd (summary wifi_ok ping_ok port_ok tcp_ok)) in
  (In success_line out <-> tcp_ok = true) /\
  (In "[OK] WiFi: Connected to ESP32_AP"%string out <-> wifi_ok = Some true) /\
  (In "[OK] Network: ESP32 is reachable"%string out <-> ping_ok = true) /\
  (In "[OK] Port: Port 8000 is open"%string out <-> port_ok = true) /\
  (In "[OK] Connection: TCP connection successful"%string out <-> tcp_ok = true).
Proof.
  destruct wifi_ok as [[|]|], ping_ok, port_ok, tcp_ok; cbv zeta;
    (split; [line_iff|]); (split; [line_iff|]); (split; [line_iff|]);
    (split; line_iff).
Qed.



(** The trace of [main], step by step. *)
Lemma main_trace (w : world) :
  let host := "192.168.4.1"%string in
  let W := check_wifi_connection w "ESP32_AP" in
  let P := ping_host w host 2 in
  let C := check_port w host 8000 3 in
  let T := test_tcp_connection w host 8000 5 in
  snd (main w)
  = [Printed (str_mul "=" 80) nl;
     Printed (str_mul " " 25 ++ "ESP32 CONNECTION DIAGNOSTICS") nl;
     Printed (str_mul "=" 80) nl;
     Printed EmptyString nl;
     Printed "Target: 192.168.4.1:8000" nl;
     Printed EmptyString nl]
    ++ snd W ++ [Printed EmptyString nl]
    ++ snd P ++ [Printed EmptyString nl]
    ++ snd C ++ [Printed EmptyString nl]
    ++ snd T ++ [Printed EmptyString nl]
    ++ snd (summary (fst W) (fst P) (fst C) (fst T)).
Proof.
  cbv zeta. unfold main.
  repeat (rewrite io_bind_snd; cbv beta).
  cbn [print snd fst app]. reflexivity.
Qed.

Lemma wifi_result (w : world) (ssid : string) :
  fst (check_wifi_connection w ssid) = Some true <->
  platform_system w = "Windows"%string /\
  exists stdout returncode,
    subprocess_run w ["netsh"; "wlan"; "show"; "interfaces"]%string 5
    = Completed stdout returncode /\
    contains ssid stdout = true.
Proof.
  unfold check_wifi_connection, run, io_bind, io_ret, print. cbv beta iota zeta.
  destruct (String.eqb_spec (platform_system w) "Windows") as [E|E]; cbv beta iota zeta.
  - destruct (subprocess_run w _ 5) as [stdout rc|e]; cbv beta iota zeta.
    + destruct (contains ssid stdout) eqn:Ec; cbn [fst]; split.
      * intros _. split; [exact E|]. now exists stdout, rc.
      * reflexivity.
      * discriminate.
      * intros [_ (s' & r' & Heq & Hc)]. injection Heq as <- <-. congruence.
    + cbn [fst]. split; [discriminate|].
      intros [_ (s' & r' & Heq & _)]. discriminate Heq.
  - cbn [fst]. split; [discriminate | intros [H _]; contradiction].
Qed.

Lemma ping_result (w : world) (host : string) (timeout : Z) :
  fst (ping_host w host timeout) = true <->
  exists stdout, subprocess_run w (ping_args w host timeout) (timeout + 1)
                 = Completed stdout 0.
Proof.
  unfold ping_host, ping_args, run, io_bind, io_ret, print. cbv beta iota zeta.
  destruct (subprocess_run w _ (timeout + 1)) as [stdout rc|e]; cbv beta iota zeta.
  - destruct (Z.eqb_spec rc 0) as [->|Hrc]; cbn [fst]; split.
    + intros _. now exists stdout.
    + reflexivity.
    + discriminate.
    + intros [s' Heq]. injection Heq as _ Hz. contradiction.
  - cbn [fst]. split; [discriminate | intros [s' Heq]; discriminate Heq].
Qed.

Lemma port_result (w : world) (host : string) (port timeout : Z) :
  fst (check_port w host port timeout) = true <->
  sock_connect_ex w host port timeout = Errno 0.
Proof.
  unfold check_port, connect_ex, io_bind, io_ret, print. cbv beta iota zeta.
  destruct (sock_connect_ex w host port timeout) as [code|e|e]; cbv beta iota zeta.
  - destruct (Z.eqb_spec code 0) as [->|Hc].
    + cbn [fst]. split; reflexivity.
    + destruct (Z.eqb code 10061); [|destruct (Z.eqb code 10060)]; cbn [fst];
        (split; [discriminate | intros [= Hz]; contradiction]).
  - cbn [fst]. split; discriminate.
  - cbn [fst]. split; discriminate.
Qed.

Lemma tcp_result (w : world) (host : string) (port timeout : Z) :
  fst (test_tcp_connection w host port timeout) = true <->
  sock_connect w host port timeout = Connected.
Proof.
  unfold test_tcp_connection, connect, io_bind, io_ret, print. cbv beta iota zeta.
  destruct (sock_connect w host port timeout); cbn [fst]; split;
    try reflexivity; discriminate.
Qed.

(** A verdict line is in the output of [main] exactly when the summary
    prints it. *)
Lemma verdict_from_summary (w : world) (line : string) :
  In line verdict_lines ->
  In line (printed (snd (main w))) <->
  In line (printed (snd (summary
                           (fst (check_wifi_connection w "ESP32_AP"))
                           (fst (ping_host w "192.168.4.1" 2))
                           (fst (check_port w "192.168.4.1" 8000 3))
                           (fst (test_tcp_connection w "192.168.4.1" 8000 5))))).
Proof.
  intros Hl. rewrite main_trace. cbv zeta. rewrite !printed_app, !in_app_iff.
  pose proof (wifi_prints_no_verdict w "ESP32_AP" line Hl).
  pose proof (ping_prints_no_verdict w "192.168.4.1" line 2 Hl).
  pose proof (port_prints_no_verdict w "192.168.4.1" line 8000 3 Hl).
  pose proof (tcp_prints_no_verdict w "192.168.4.1" line 8000 5 Hl).
  assert (Hhead : ~ In line (printed
            [Printed (str_mul "=" 80) nl;
             Printed (str_mul " " 25 ++ "ESP32 CONNECTION DIAGNOSTICS") nl;
             Printed (str_mul "=" 80) nl;
             Printed EmptyString nl;
             Printed "Target: 192.168.4.1:8000" nl;
             Printed EmptyString nl])).
  { intros Hin. each_verdict Hl; not_printed Hin. }
  assert (Hblank : ~ In line (printed [Printed EmptyString nl])).
  { intros Hin. each_verdict Hl; not_printed Hin. }
  tauto.
Qed.






End TestConnectionFacts.

(** X14.  [test_connection.main] prints "[SUCCESS] All checks passed!"
    exactly when the TCP connection of step 4 to 192.168.4.1:8000 succeeds:
    the outcomes of the WiFi, ping and port checks have no part in it. *)
Theorem success_reported_on_tcp_alone (w : Client.world) :
  In Client.TestConnection.success_line
     (Client.printed (snd (Client.TestConnection.main w)))
  <-> Client.sock_connect w "192.168.4.1" 8000 5 = Client.Connected.
Proof.
  rewrite verdict_from_summary by (unfold Client.verdict_lines; simpl; tauto).
  rewrite (proj1 (summary_verdicts _ _ _ _)).
  apply tcp_result.
Qed.

(** In a world where the laptop is on another WiFi, the ping fails and the
    port check times out, a successful TCP connection still yields the
    three failure lines together with the success line. *)
Example all_checks_passed_despite_failures :
  let out := Client.printed (snd (Client.TestConnection.main Client.misleading_world)) in
  In "[FAIL] WiFi: Not connected to ESP32_AP"%string out /\
  In "[FAIL] Network: ESP32 is not reachable"%string out /\
  In "[FAIL] Port: Port 8000 is closed or not accepting connections"%string out /\
  In Client.TestConnection.success_line out.
Proof.
  cbv zeta. rewrite !In_existsb. vm_compute. repeat split.
Qed.


(** X16.  Each line of the summary of [test_connection.main] that reports
    a passed check is printed exactly when that check passed: WiFi when the
    platform is Windows and netsh's output mentions ESP32_AP, network when
    ping returned 0, port when [connect_ex] returned 0, connection when the
    TCP connect succeeded. *)
Theorem summary_reports_each_check (w : Client.world) :
  let out := Client.printed (snd (Client.TestConnection.main w)) in
  (In "[OK] WiFi: Connected to ESP32_AP"%string out <->
   Client.platform_system w = "Windows"%string /\
   exists stdout returncode,
     Client.subprocess_run w ["netsh"; "wlan"; "show"; "interfaces"]%string 5
     = Client.Completed stdout returncode /\
     Client.contains "ESP32_AP" stdout = true) /\
  (In "[OK] Network: ESP32 is reachable"%string out <->
   exists stdout,
     Client.subprocess_run w (Client.ping_args w "192.168.4.1" 2) 3
     = Client.Completed stdout 0) /\
  (In "[OK] Port: Port 8000 is open"%string out <->
   Client.sock_connect_ex w "192.168.4.1" 8000 3 = Client.Errno 0) /\
  (In "[OK] Connection: TCP connection successful"%string out <->
   Client.sock_connect w "192.168.4.1" 8000 5 = Client.Connected).
Proof.
  cbv zeta.
  rewrite !verdict_from_summary by (unfold Client.verdict_lines; simpl; tauto).
  destruct (summary_verdicts
              (fst (Client.TestConnection.check_wifi_connection w "ESP32_AP"))
              (fst (Client.TestConnection.ping_host w "192.168.4.1" 2))
              (fst (Client.TestConnection.check_port w "192.168.4.1" 8000 3))
              (fst (Client.TestConnection.test_tcp_connection w "192.168.4.1" 8000 5)))
    as (_ & Hw & Hp & Hc & Ht).
  cbv zeta in Hw, Hp, Hc, Ht.
  rewrite Hw, Hp, Hc, Ht.
  split; [apply wifi_result|]. split; [apply (ping_result w "192.168.4.1" 2)|].
  split; [apply port_result | apply tcp_result].
Qed.

(** On the two sample worlds: an ESP32 with the old firmware is found on
    port 8080 after port 8000 was tried, and nothing is found when nothing
    answers. *)
Example find_port_old_firmware :
  fst (Client.FindPort.main Client.old_firmware_world) = Some 8080%Z /\
  Client.probes (snd (Client.FindPort.main Client.old_firmware_world))
  = [("192.168.4.1"%string, 8000%Z); ("192.168.4.1"%string, 8080%Z)] /\
  fst (Client.FindPort.main Client.dead_world) = None.
Proof. repeat split; vm_compute; reflexivity. Qed.

(** * The features of a mirrored hand *)

Section MirrorFacts.
Local Open Scope R_scope.

Ltac real_ops :=
  change (@f_add R R_scalar) with Rplus in *;
  change (@f_sub R R_scalar) with Rminus in *;
  change (@f_mul R R_scalar) with Rmult in *;
  change (@f_div R R_scalar) with Rdiv in *;
  change (@f_sqrt R R_scalar) with R_sqrt.sqrt in *;
  change (@f_ltb R R_scalar) with Rltb in *;
  change (@f_zero R R_scalar) with 0 in *.

Lemma Rltb_opp (a b : R) : Rltb (- a) (- b) = Rltb b a.
Proof.
  unfold Rltb. destruct (Rlt_dec (- a) (- b)), (Rlt_dec b a);
    try reflexivity; exfalso; lra.
Qed.

Lemma max_loop_opp (r : list R) (b : R) :
  max_loop (- b) (map Ropp r) = - min_loop b r.
Proof.
  revert b. induction r as [|x r IH]; intros b; cbn [max_loop min_loop map];
    [reflexivity|].
  real_ops. rewrite Rltb_opp, <- IH. f_equal. now destruct (Rltb x b).
Qed.

Lemma min_loop_opp (r : list R) (b : R) :
  min_loop (- b) (map Ropp r) = - max_loop b r.
Proof.
  revert b. induction r as [|x r IH]; intros b; cbn [max_loop min_loop map];
    [reflexivity|].
  real_ops. rewrite Rltb_opp, <- IH. f_equal. now destruct (Rltb b x).
Qed.

Lemma spread_opp (l : list R) : spread (map Ropp l) = spread l.
Proof.
  unfold spread, max_of, min_of. destruct l as [|x r]; cbn [map]; [reflexivity|].
  rewrite max_loop_opp, min_loop_opp. real_ops. lra.
Qed.

Lemma dist_flip (a b : R * R) : dist (- fst a, snd a) (- fst b, snd b) = dist a b.
Proof.
  unfold dist, diff. cbn [fst snd]. rewrite !np_norm_pair. real_ops.
  f_equal. ring.
Qed.

Lemma cos_angle_flip (w a b : R * R) :
  cos_angle (- fst w, snd w) (- fst a, snd a) (- fst b, snd b) = cos_angle w a b.
Proof.
  unfold cos_angle. fold (dist (- fst a, snd a) (- fst w, snd w)).
  fold (dist (- fst b, snd b) (- fst w, snd w)). rewrite !dist_flip.
  unfold dist. f_equal. unfold diff. cbn [fst snd]. rewrite !np_dot_pair.
  real_ops. ring.
Qed.

Lemma pt_flip (ps : list (R * R)) (i : nat) :
  (i < length ps)%nat -> pt (flip_x ps) i = (- fst (pt ps i), snd (pt ps i)).
Proof.
  intros H. unfold pt, flip_x.
  now rewrite nth_map_in_range with (d' := (@f_zero R R_scalar, @f_zero R R_scalar)).
Qed.

Lemma flip_fst (ps : list (R * R)) : map fst (flip_x ps) = map Ropp (map fst ps).
Proof. unfold flip_x. rewrite !map_map. reflexivity. Qed.

Lemma flip_snd (ps : list (R * R)) : map snd (flip_x ps) = map snd ps.
Proof. unfold flip_x. rewrite !map_map. reflexivity. Qed.

End MirrorFacts.

(** X17.  Read over exact reals: mirroring a valid landmark set left to
    right (the other hand in the same pose) leaves the first 14 features
    unchanged (distances, mean, spreads, cosines, area), negates the five
    wrist-relative x coordinates and keeps the five wrist-relative y
    coordinates. *)
Theorem features_of_the_mirrored_hand (ps : list (R * R)) :
  length ps = 21 ->
  exists v v',
    extract_features (PointList (to_points ps)) = Ret (Some v) /\
    extract_features (PointList (to_points (flip_x ps))) = Ret (Some v') /\
    firstn 14 v' = firstn 14 v /\
    forall i, i < 5 ->
      nth (14 + 2 * i) v' 0%R = (- nth (14 + 2 * i) v 0)%R /\
      nth (15 + 2 * i) v' 0%R = nth (15 + 2 * i) v 0%R.
Proof.
  intros H. exists (feature_vector ps), (feature_vector (flip_x ps)).
  split; [now apply extract_features_closed_form|].
  split; [apply extract_features_closed_form; unfold flip_x; now rewrite length_map|].
  unfold feature_vector, tips_of.
  rewrite flip_fst, flip_snd, spread_opp.
  rewrite !pt_flip by lia.
  set (w := pt ps 0). set (t4 := pt ps 4). set (t8 := pt ps 8).
  set (t12 := pt ps 12). set (t16 := pt ps 16). set (t20 := pt ps 20).
  cbn [map fst snd].
  change (spread [(- fst t4)%R; (- fst t8)%R; (- fst t12)%R; (- fst t16)%R; (- fst t20)%R])
    with (spread (map Ropp [fst t4; fst t8; fst t12; fst t16; fst t20])).
  rewrite spread_opp, !dist_flip, !cos_angle_flip.
  split; [reflexivity|].
  intros i Hi.
  destruct i as [|[|[|[|[|i]]]]]; try lia;
    cbn [nth Nat.add Nat.mul app concat diff fst snd];
    change (@f_sub R R_scalar) with Rminus; (split; [ring | reflexivity]).
Qed.

Lemma features_of_the_mirrored_hand_witness :
  exists v v',
    extract_features (PointList (to_points exact_hand)) = Ret (Some v) /\
    extract_features (PointList (to_points (flip_x exact_hand))) = Ret (Some v') /\
    firstn 14 v' = firstn 14 v /\
    forall i, i < 5 ->
      nth (14 + 2 * i) v' 0%R = (- nth (14 + 2 * i) v 0)%R /\
      nth (15 + 2 * i) v' 0%R = nth (15 + 2 * i) v 0%R.
Proof.
  apply (features_of_the_mirrored_hand exact_hand). reflexivity.
Defined.
